(** * vscode-go: capability negotiation, version gate and tool orchestration

    A shallow embedding of the orchestration logic of the Go extension:
    [goLanguageServer.ts] (provider registration, request middleware, server
    restart, update check, tool path), [goLint.ts], [goCheck.ts],
    [goInstallTools.ts], [goFormat.ts], [goRename.ts], [goGenerateTests.ts]
    and [goSuggest.ts].

    Conventions.
    - A JavaScript string is a [string]: a sequence of code units below 256.
      Only [goRename.ts] lower-cases strings, which is not a map over code
      units; there a string is the list of its code units.
    - A promise that has settled is a [Promise A]: [Resolved a] or
      [Rejected e].  Code between two [await]s runs atomically (one thread,
      cooperative scheduling), so asynchronous handlers are split into the
      segments between their suspension points and driven by event lists.
    - Module-level variables ([running], [tokenSource], [declinedUpdates],
      [languageServerDisposable]) are fields of explicit state records. *)

From Stdlib Require Import List String Ascii Bool Arith NArith Lia.
From Stdlib Require DecimalString.
Import ListNotations.

Open Scope string_scope.
Open Scope bool_scope.
Open Scope list_scope.
Open Scope nat_scope.

(** ** Settled promises *)

Inductive JsError : Type :=
| TypeError (msg : string)
| NetworkError (msg : string)
| ToolError (msg : string).

Inductive Promise (A : Type) : Type :=
| Resolved (a : A)
| Rejected (e : JsError).

Arguments Resolved {A} a.
Arguments Rejected {A} e.

(** ** Strings as the code uses them *)

Module JsString.

Definition code (c : ascii) : nat := nat_of_ascii c.

Definition LF : ascii := ascii_of_nat 10.

(** [String.prototype.trim] strips white space and line terminators; below
    256 these are TAB, LF, VT, FF, CR, SPACE and NBSP. *)
Definition isWhiteSpace (c : ascii) : bool :=
  let n := code c in
  ((9 <=? n) && (n <=? 13)) || (n =? 32) || (n =? 160).

Fixpoint trimStart (s : string) : string :=
  match s with
  | EmptyString => EmptyString
  | String c s' => if isWhiteSpace c then trimStart s' else s
  end.

Fixpoint trimEnd (s : string) : string :=
  match s with
  | EmptyString => EmptyString
  | String c s' =>
      match trimEnd s' with
      | EmptyString => if isWhiteSpace c then EmptyString else String c EmptyString
      | t => String c t
      end
  end.

Definition trim (s : string) : string := trimEnd (trimStart s).

(** [s.split(sep)] for a one-character separator: never the empty array. *)
Fixpoint split (sep : ascii) (s : string) : list string :=
  match s with
  | EmptyString => [EmptyString]
  | String c s' =>
      if Ascii.eqb c sep then EmptyString :: split sep s'
      else match split sep s' with
           | [] => [String c EmptyString]
           | h :: t => String c h :: t
           end
  end.

Fixpoint startsWith (s p : string) : bool :=
  match p, s with
  | EmptyString, _ => true
  | String _ _, EmptyString => false
  | String b p', String a s' => Ascii.eqb a b && startsWith s' p'
  end.

(** [arr[i]] on an array of strings; [None] is [undefined]. *)
Definition at_ (l : list string) (i : nat) : option string := nth_error l i.

(** Truthiness of a possibly-null string: [null], [undefined] and the empty
    string are falsy. *)
Definition truthy (o : option string) : bool :=
  match o with
  | None => false
  | Some EmptyString => false
  | Some _ => true
  end.

Fixpoint span (p : ascii -> bool) (s : string) : string * string :=
  match s with
  | EmptyString => (EmptyString, EmptyString)
  | String c s' =>
      if p c then let (a, b) := span p s' in (String c a, b)
      else (EmptyString, s)
  end.

Fixpoint forallb (p : ascii -> bool) (s : string) : bool :=
  match s with
  | EmptyString => true
  | String c s' => p c && forallb p s'
  end.

(** [arr.join(sep)] *)
Fixpoint join (sep : ascii) (l : list string) : string :=
  match l with
  | [] => EmptyString
  | [x] => x
  | x :: l' => (x ++ String sep (join sep l'))%string
  end.

(** The text between double quotes. *)
Definition quoted (s : string) : string :=
  (String (ascii_of_nat 34) s ++ String (ascii_of_nat 34) EmptyString)%string.

(** Code-unit order of two strings, as [<] on JavaScript strings. *)
Fixpoint compare (a b : string) : comparison :=
  match a, b with
  | EmptyString, EmptyString => Eq
  | EmptyString, String _ _ => Lt
  | String _ _, EmptyString => Gt
  | String x a', String y b' =>
      match Nat.compare (code x) (code y) with
      | Eq => compare a' b'
      | o => o
      end
  end.

(** [s.substr(0, n)] and [s.slice(n)] for [0 <= n]. *)
Fixpoint take (n : nat) (s : string) : string :=
  match n, s with
  | S n', String c s' => String c (take n' s')
  | _, _ => EmptyString
  end.

Fixpoint drop (n : nat) (s : string) : string :=
  match n, s with
  | S n', String _ s' => drop n' s'
  | _, _ => s
  end.

(** [s.endsWith(t)] *)
Definition endsWith (s t : string) : bool :=
  (String.length t <=? String.length s)
  && String.eqb (drop (String.length s - String.length t) s) t.

(** [s.lastIndexOf(t)], searched from position [i] on; [None] is [-1]. *)
Fixpoint lastIndexOf_from (i : nat) (s t : string) : option nat :=
  match s with
  | EmptyString => if startsWith s t then Some i else None
  | String _ s' =>
      match lastIndexOf_from (S i) s' t with
      | Some j => Some j
      | None => if startsWith s t then Some i else None
      end
  end.

Definition lastIndexOf (s t : string) : option nat := lastIndexOf_from 0 s t.

(** [s.indexOf(t) > -1] *)
Fixpoint includes (s t : string) : bool :=
  startsWith s t
  || match s with
     | EmptyString => false
     | String _ s' => includes s' t
     end.

(** [s.split(/[...]/)] for a class of one-character separators. *)
Fixpoint splitBy (isSep : ascii -> bool) (s : string) : list string :=
  match s with
  | EmptyString => [EmptyString]
  | String c s' =>
      if isSep c then EmptyString :: splitBy isSep s'
      else match splitBy isSep s' with
           | [] => [String c EmptyString]
           | h :: t => String c h :: t
           end
  end.

(** [s.split(sep)] for a separator of one or more characters: [skip] counts
    the characters of a separator that are still to be dropped. *)
Fixpoint splitStr_from (sep : string) (skip : nat) (s : string) : list string :=
  match s with
  | EmptyString => [EmptyString]
  | String c s' =>
      match skip with
      | S k => splitStr_from sep k s'
      | O =>
          if startsWith s sep
          then EmptyString :: splitStr_from sep (String.length sep - 1) s'
          else match splitStr_from sep 0 s' with
               | [] => [String c EmptyString]
               | h :: t => String c h :: t
               end
      end
  end.

Definition splitStr (sep s : string) : list string := splitStr_from sep 0 s.

(** [arr.join(sep)] for a separator string. *)
Fixpoint joinStr (sep : string) (l : list string) : string :=
  match l with
  | [] => EmptyString
  | [x] => x
  | x :: l' => (x ++ sep ++ joinStr sep l')%string
  end.


(** [arr[arr.length - 1]] *)
Definition lastOf (l : list string) : option string :=
  match rev l with
  | [] => None
  | x :: _ => Some x
  end.

(** [s.indexOf(t)], searched from position [i] on; [None] is [-1]. *)
Fixpoint indexOfStr_from (i : nat) (s t : string) : option nat :=
  match s with
  | EmptyString => if startsWith s t then Some i else None
  | String _ s' => if startsWith s t then Some i else indexOfStr_from (S i) s' t
  end.

Definition indexOfStr (s t : string) : option nat := indexOfStr_from 0 s t.

End JsString.

(** ** The [semver] package (external): [coerce], [lt], [rcompare]

    The extension imports these from npm; they are modelled after the
    package's regular expressions and its [SemVer] class. *)

Module Semver.
Import JsString.

Definition MAX_LENGTH : nat := 256.
Definition MAX_SAFE_INTEGER : N := 9007199254740991.
Definition MAX_SAFE_COMPONENT_LENGTH : nat := 16.

(** A prerelease identifier after the constructor `numberified' it: a
    number when it is all digits and below [MAX_SAFE_INTEGER], else the
    string itself. *)
Inductive PreId : Type :=
| PNum (n : N)
| PStr (s : string).

Record SemVer : Type := mkSemVer {
  major : N;
  minor : N;
  patch : N;
  prerelease : list PreId;
  build : list string
}.

Definition isDigit (c : ascii) : bool :=
  let n := code c in (48 <=? n) && (n <=? 57).

Definition isLetter (c : ascii) : bool :=
  let n := code c in
  ((65 <=? n) && (n <=? 90)) || ((97 <=? n) && (n <=? 122)).

(** [[0-9A-Za-z-]] *)
Definition isIdentChar (c : ascii) : bool :=
  isDigit c || isLetter c || (code c =? 45).

Definition digitValue (c : ascii) : N := N.of_nat (code c - 48).

Fixpoint decimal_from (acc : N) (s : string) : N :=
  match s with
  | EmptyString => acc
  | String c s' => decimal_from (10 * acc + digitValue c) s'
  end.

(** The exact value of a digit string. *)
Definition decimal (s : string) : N := decimal_from 0 s.

(** [/^[0-9]+$/] *)
Definition numeric (s : string) : bool :=
  match s with
  | EmptyString => false
  | _ => forallb isDigit s
  end.

(** NUMERICIDENTIFIER: [0|[1-9]\d*] against a whole string. *)
Definition numericIdentifier (s : string) : bool :=
  match s with
  | EmptyString => false
  | String c EmptyString => isDigit c
  | String c s' => isDigit c && negb (code c =? 48) && forallb isDigit s'
  end.

(** PRERELEASEIDENTIFIER: a numeric identifier, or [\d*[a-zA-Z-][a-zA-Z0-9-]*]. *)
Definition prereleaseIdentifier (s : string) : bool :=
  match s with
  | EmptyString => false
  | _ => forallb isIdentChar s && (numericIdentifier s || negb (forallb isDigit s))
  end.

(** BUILDIDENTIFIER: [[0-9A-Za-z-]+] *)
Definition buildIdentifier (s : string) : bool :=
  match s with
  | EmptyString => false
  | _ => forallb isIdentChar s
  end.

(** [+id] on a digit string: the nearest double, ties to even. *)
Definition toNumber (n : N) : N :=
  if (n <? 2 ^ 53)%N then n
  else
    let e := (N.log2 n - 52)%N in
    let q := (n / 2 ^ e)%N in
    let r := (n mod 2 ^ e)%N in
    let half := (2 ^ (e - 1))%N in
    if (half <? r)%N || ((r =? half)%N && N.odd q)
    then ((q + 1) * 2 ^ e)%N else (q * 2 ^ e)%N.

Definition numberify (id : string) : PreId :=
  if numeric id && (toNumber (decimal id) <? MAX_SAFE_INTEGER)%N
  then PNum (decimal id) else PStr id.

Definition dot : ascii := ascii_of_nat 46.
Definition plus : ascii := ascii_of_nat 43.
Definition hyphen : ascii := ascii_of_nat 45.

(** The tail of FULL after the patch number: an optional hyphen with
    dot-separated prerelease identifiers, then an optional plus sign with
    dot-separated build identifiers, then the end of the string. *)
Definition parseBuild (s : string) : option (list string) :=
  match s with
  | EmptyString => Some []
  | String c b =>
      if Ascii.eqb c plus then
        let ids := split dot b in
        if List.forallb buildIdentifier ids then Some ids else None
      else None
  end.

Definition parseTail (s : string) : option (list PreId * list string) :=
  match s with
  | String c t =>
      if Ascii.eqb c hyphen then
        let (pre, rest) := span (fun x => negb (Ascii.eqb x plus)) t in
        let ids := split dot pre in
        if List.forallb prereleaseIdentifier ids then
          match parseBuild rest with
          | Some b => Some (List.map numberify ids, b)
          | None => None
          end
        else None
      else
        match parseBuild s with
        | Some b => Some ([], b)
        | None => None
        end
  | EmptyString => Some ([], [])
  end.

(** One numeric-identifier component followed by what is left. *)
Definition parseComponent (s : string) : option (N * string) :=
  let (ds, rest) := span isDigit s in
  if numericIdentifier ds then Some (decimal ds, rest) else None.

Definition expectDot (s : string) : option string :=
  match s with
  | String c s' => if Ascii.eqb c dot then Some s' else None
  | EmptyString => None
  end.

(** FULL = [^v?MAIN(?:-PRE)?(?:\+BUILD)?$]: the version the match
    describes, its three numbers not yet checked against
    [MAX_SAFE_INTEGER]. *)
Definition matchFull (s : string) : option SemVer :=
  let s0 := match s with
            | String c s' => if code c =? 118 then s' else s
            | EmptyString => s
            end in
  match parseComponent s0 with
  | None => None
  | Some (ma, r1) =>
    match expectDot r1 with
    | None => None
    | Some r1' =>
      match parseComponent r1' with
      | None => None
      | Some (mi, r2) =>
        match expectDot r2 with
        | None => None
        | Some r2' =>
          match parseComponent r2' with
          | None => None
          | Some (pa, r3) =>
            match parseTail r3 with
            | None => None
            | Some (pre, b) => Some (mkSemVer ma mi pa pre b)
            end
          end
        end
      end
    end
  end.

(** The constructor's checks of the three numbers: the message of the
    [TypeError] it throws, if any. *)
Definition rangeError (v : SemVer) : option string :=
  if (MAX_SAFE_INTEGER <? major v)%N then Some "Invalid major version"
  else if (MAX_SAFE_INTEGER <? minor v)%N then Some "Invalid minor version"
  else if (MAX_SAFE_INTEGER <? patch v)%N then Some "Invalid patch version"
  else None.

(** What [new SemVer(version)] does: it returns the version or throws a
    [TypeError] with a message. *)
Inductive Constructed : Type :=
| Version (v : SemVer)
| Throws (message : string).

(** [new SemVer(version)] in strict mode, for a string. *)
Definition new_SemVer (version : string) : Constructed :=
  if MAX_LENGTH <? String.length version
  then Throws "version is longer than 256 characters"
  else
    match matchFull (trim version) with
    | None => Throws ("Invalid Version: " ++ version)
    | Some v =>
        match rangeError v with
        | Some message => Throws message
        | None => Version v
        end
    end.

(** [semver.parse(version)]: the regular expression is tested against the
    string untrimmed, and what the constructor throws is caught. *)
Definition parse (version : string) : option SemVer :=
  if MAX_LENGTH <? String.length version then None
  else
    match matchFull version with
    | None => None
    | Some v =>
        match rangeError v with
        | Some _ => None
        | None => Some v
        end
    end.

(** COERCE = [(?:^|[^\d])(\d{1,16})(?:\.(\d{1,16}))?(?:\.(\d{1,16}))?(?:$|[^\d])].
    A group of digits can only be followed by the next group or by the
    closing [(?:$|[^\d])] when it is a whole run of digits, so the match
    starts at the first run of at most 16 digits, and an optional group
    takes part exactly when a dot and such a run follow. *)
Definition digitRun (s : string) : option (string * string) :=
  let (ds, rest) := span isDigit s in
  if (1 <=? String.length ds) && (String.length ds <=? MAX_SAFE_COMPONENT_LENGTH)
  then Some (ds, rest) else None.

Definition dotGroup (s : string) : option (string * string) :=
  match s with
  | String c s' => if Ascii.eqb c dot then digitRun s' else None
  | EmptyString => None
  end.

(** The search for where the match starts.  [skipping] holds while the
    scan is inside a run of more than 16 digits, where no match can start. *)
Fixpoint coerceSearch (skipping : bool) (s : string) : option (string * string) :=
  match s with
  | EmptyString => None
  | String c s' =>
      if isDigit c then
        if skipping then coerceSearch true s'
        else match digitRun s with
             | Some m => Some m
             | None => coerceSearch true s'
             end
      else coerceSearch false s'
  end.

Definition coerceMatch (s : string) : option (string * string * string) :=
  match coerceSearch false s with
  | None => None
  | Some (m1, r1) =>
      match dotGroup r1 with
      | None => Some (m1, "0", "0")
      | Some (m2, r2) =>
          match dotGroup r2 with
          | None => Some (m1, m2, "0")
          | Some (m3, _) => Some (m1, m2, m3)
          end
      end
  end.

(** [semver.coerce(version)]; [None] is [null]. *)
Definition coerce (version : string) : option SemVer :=
  match coerceMatch version with
  | None => None
  | Some (m1, m2, m3) => parse (m1 ++ "." ++ m2 ++ "." ++ m3)%string
  end.

(** [compareIdentifiers(a, b)] *)
Definition idNumeric (a : PreId) : bool :=
  match a with PNum _ => true | PStr s => numeric s end.

Definition idNumber (a : PreId) : N :=
  match a with PNum n => n | PStr s => toNumber (decimal s) end.

Definition compareIdentifiers (a b : PreId) : comparison :=
  match idNumeric a, idNumeric b with
  | true, true => N.compare (idNumber a) (idNumber b)
  | true, false => Lt
  | false, true => Gt
  | false, false =>
      match a, b with
      | PStr x, PStr y => JsString.compare x y
      | _, _ => Eq
      end
  end.

Definition preIdEqb (a b : PreId) : bool :=
  match a, b with
  | PNum x, PNum y => (x =? y)%N
  | PStr x, PStr y => String.eqb x y
  | _, _ => false
  end.

Definition thenCompare (c : comparison) (d : comparison) : comparison :=
  match c with Eq => d | _ => c end.

Definition compareMain (a b : SemVer) : comparison :=
  thenCompare (N.compare (major a) (major b))
    (thenCompare (N.compare (minor a) (minor b))
       (N.compare (patch a) (patch b))).

Fixpoint comparePreLoop (a b : list PreId) : comparison :=
  match a, b with
  | [], [] => Eq
  | _ :: _, [] => Gt
  | [], _ :: _ => Lt
  | x :: a', y :: b' =>
      if preIdEqb x y then comparePreLoop a' b' else compareIdentifiers x y
  end.

Definition comparePre (a b : SemVer) : comparison :=
  match prerelease a, prerelease b with
  | _ :: _, [] => Lt
  | [], _ :: _ => Gt
  | [], [] => Eq
  | pa, pb => comparePreLoop pa pb
  end.

(** [a.compare(b)] *)
Definition compare (a b : SemVer) : comparison :=
  thenCompare (compareMain a b) (comparePre a b).

Definition rcompare (a b : SemVer) : comparison := compare b a.

Definition ltb (a b : SemVer) : bool :=
  match compare a b with Lt => true | _ => false end.

(** [semver.lt(a, b)] with [a] a string and [b] an array entry: both go
    through [new SemVer], which throws on an invalid string and on [null]. *)
Definition lt (a : string) (b : option SemVer) : Promise bool :=
  match new_SemVer a with
  | Throws message => Rejected (TypeError message)
  | Version va =>
      match b with
      | Some vb => Resolved (ltb va vb)
      | None => Rejected (TypeError "Invalid Version: null")
      end
  end.

(** [versions.sort(semver.rcompare)].  The comparator throws on a [null]
    entry; an array of fewer than two entries is returned without a
    comparison.  With no [null] the result is the entries in descending
    order. *)
Fixpoint insert_desc (v : SemVer) (l : list SemVer) : list SemVer :=
  match l with
  | [] => [v]
  | w :: l' =>
      match rcompare v w with
      | Gt => w :: insert_desc v l'
      | _ => v :: l
      end
  end.

Fixpoint sort_desc (l : list SemVer) : list SemVer :=
  match l with
  | [] => []
  | v :: l' => insert_desc v (sort_desc l')
  end.

Fixpoint allSome (l : list (option SemVer)) : option (list SemVer) :=
  match l with
  | [] => Some []
  | None :: _ => None
  | Some v :: l' =>
      match allSome l' with
      | Some vs => Some (v :: vs)
      | None => None
      end
  end.

Definition sort_rcompare (l : list (option SemVer)) : Promise (list (option SemVer)) :=
  if List.length l <? 2 then Resolved l
  else match allSome l with
       | Some vs => Resolved (List.map Some (sort_desc vs))
       | None => Rejected (TypeError "Invalid Version: null")
       end.

End Semver.


(** ** Tool descriptors ([goTools.ts]) *)

Module GoTools.

(** Modelled from the spec: [goTools.ts] (the [Tool] interface, [getTool],
    [containsTool]) is not among the sources.  A tool descriptor carries a
    logical name, its import path and an importance flag; [getTool] looks
    a name up in the table of known tools, and a declined set contains a
    tool when that very descriptor was pushed onto it. *)
Record Tool : Type := mkTool {
  name : string;
  importPath : string;
  isImportant : bool;
  description : string
}.

Definition Tool_eqb (a b : Tool) : bool :=
  String.eqb (name a) (name b) && String.eqb (importPath a) (importPath b)
  && Bool.eqb (isImportant a) (isImportant b)
  && String.eqb (description a) (description b).

Definition containsTool (tools : list Tool) (tool : Tool) : bool :=
  existsb (Tool_eqb tool) tools.

Definition gopls : Tool :=
  mkTool "gopls" "golang.org/x/tools/gopls" false
    "Language Server from Google".

Definition goreturns : Tool :=
  mkTool "goreturns" "github.com/sqs/goreturns" true "Formatter".

End GoTools.

(** ** [goLanguageServer.ts] *)

Module GoLanguageServer.
Import JsString GoTools.

(** *** Configuration and capabilities *)

Record Features : Type := mkFeatures {
  completion : bool;
  diagnostics : bool;
  format : bool;
  definition : bool;
  typeDefinition : bool;
  hover : bool;
  references : bool;
  rename : bool;
  signatureHelp : bool;
  documentSymbols : bool;
  workspaceSymbols : bool;
  implementation : bool;
  documentLink : bool
}.

Record LanguageServerConfig : Type := mkConfig {
  enabled : bool;
  flags : list string;
  features : Features
}.

(** The fields of the protocol's [ServerCapabilities] that matter for the
    thirteen features, each by its truthiness.  The protocol has no
    capability field for diagnostics, which the server pushes. *)
Record ServerCapabilities : Type := mkCapabilities {
  completionProvider : bool;
  documentFormattingProvider : bool;
  renameProvider : bool;
  typeDefinitionProvider : bool;
  hoverProvider : bool;
  definitionProvider : bool;
  referencesProvider : bool;
  documentSymbolProvider : bool;
  signatureHelpProvider : bool;
  workspaceSymbolProvider : bool;
  implementationProvider : bool;
  documentLinkProvider : bool
}.

Record InitializeResult : Type := mkInitializeResult {
  capabilities : option ServerCapabilities
}.

(** The keys of [config.features]. *)
Inductive Feature : Type :=
| Completion | Diagnostics | Format | Definition_ | TypeDefinition | Hover
| References | Rename | SignatureHelp | DocumentSymbols | WorkspaceSymbols
| Implementation | DocumentLink.

Definition allFeatures : list Feature :=
  [Completion; Diagnostics; Format; Definition_; TypeDefinition; Hover;
   References; Rename; SignatureHelp; DocumentSymbols; WorkspaceSymbols;
   Implementation; DocumentLink].

Definition Feature_eqb (a b : Feature) : bool :=
  match a, b with
  | Completion, Completion | Diagnostics, Diagnostics | Format, Format
  | Definition_, Definition_ | TypeDefinition, TypeDefinition | Hover, Hover
  | References, References | Rename, Rename | SignatureHelp, SignatureHelp
  | DocumentSymbols, DocumentSymbols | WorkspaceSymbols, WorkspaceSymbols
  | Implementation, Implementation | DocumentLink, DocumentLink => true
  | _, _ => false
  end.

(** [config.features[f]] *)
Definition toggle (config : LanguageServerConfig) (f : Feature) : bool :=
  let fs := features config in
  match f with
  | Completion => completion fs
  | Diagnostics => diagnostics fs
  | Format => format fs
  | Definition_ => definition fs
  | TypeDefinition => typeDefinition fs
  | Hover => hover fs
  | References => references fs
  | Rename => rename fs
  | SignatureHelp => signatureHelp fs
  | DocumentSymbols => documentSymbols fs
  | WorkspaceSymbols => workspaceSymbols fs
  | Implementation => implementation fs
  | DocumentLink => documentLink fs
  end.

(** Whether the advertised capability set includes the feature. *)
Definition advertises (caps : ServerCapabilities) (f : Feature) : bool :=
  match f with
  | Completion => completionProvider caps
  | Diagnostics => false
  | Format => documentFormattingProvider caps
  | Definition_ => definitionProvider caps
  | TypeDefinition => typeDefinitionProvider caps
  | Hover => hoverProvider caps
  | References => referencesProvider caps
  | Rename => renameProvider caps
  | SignatureHelp => signatureHelpProvider caps
  | DocumentSymbols => documentSymbolProvider caps
  | WorkspaceSymbols => workspaceSymbolProvider caps
  | Implementation => implementationProvider caps
  | DocumentLink => documentLinkProvider caps
  end.

(** The features for which the extension has a provider of its own
    ([GoCompletionItemProvider], [GoHoverProvider], ...). *)
Definition hasFallbackProvider (f : Feature) : bool :=
  match f with
  | Diagnostics | DocumentLink => false
  | _ => true
  end.

(** *** The editor session: [ctx.subscriptions] and the messages shown *)

Inductive Disposable : Type :=
| ConfigurationWatcher
| ProviderObject (f : Feature)
| FallbackRegistration (f : Feature)
| LiveErrorsListener
| ServerDisposable (h : nat)
| CommandRegistration (command : string).

Record Session : Type := mkSession {
  subscriptions : list Disposable;
  errorMessages : list string
}.

Definition emptySession : Session := mkSession [] [].

(** [ctx.subscriptions.push(d)] *)
Definition push (d : Disposable) (s : Session) : Session :=
  mkSession (subscriptions s ++ [d]) (errorMessages s).

(** [vscode.window.showErrorMessage(msg)] *)
Definition showErrorMessage (msg : string) (s : Session) : Session :=
  mkSession (subscriptions s) (errorMessages s ++ [msg]).

(** [ctx.subscriptions.push(vscode.languages.registerXProvider(GO_MODE, new GoXProvider()))] *)
Definition registerFallback (f : Feature) (s : Session) : Session :=
  push (FallbackRegistration f) s.

(** The completion provider is itself disposable and is pushed before its
    registration. *)
Definition registerCompletionFallback (s : Session) : Session :=
  registerFallback Completion (push (ProviderObject Completion) s).

Definition when (b : bool) (k : Session -> Session) (s : Session) : Session :=
  if b then k s else s.

Definition steps (ks : list (Session -> Session)) (s : Session) : Session :=
  fold_left (fun acc k => k acc) ks s.

Definition noCapabilitiesMessage : string :=
  "The language server is not able to serve any features at the moment.".

(** The handler passed to [c.onReady().then]. *)
Definition onReady (config : LanguageServerConfig)
    (initializeResult : option InitializeResult) (s : Session) : Session :=
  let caps := match initializeResult with
              | Some r => capabilities r
              | None => None
              end in
  match caps with
  | None => showErrorMessage noCapabilitiesMessage s
  | Some caps =>
      let fs := features config in
      steps
        [ when (negb (completion fs) || negb (completionProvider caps))
            registerCompletionFallback;
          when (negb (format fs) || negb (documentFormattingProvider caps))
            (registerFallback Format);
          when (negb (rename fs) || negb (renameProvider caps))
            (registerFallback Rename);
          when (negb (typeDefinition fs) || negb (typeDefinitionProvider caps))
            (registerFallback TypeDefinition);
          when (negb (hover fs) || negb (hoverProvider caps))
            (registerFallback Hover);
          when (negb (definition fs) || negb (definitionProvider caps))
            (registerFallback Definition_);
          when (negb (references fs) || negb (referencesProvider caps))
            (registerFallback References);
          when (negb (documentSymbols fs) || negb (documentSymbolProvider caps))
            (registerFallback DocumentSymbols);
          when (negb (signatureHelp fs) || negb (signatureHelpProvider caps))
            (registerFallback SignatureHelp);
          when (negb (workspaceSymbols fs) || negb (workspaceSymbolProvider caps))
            (registerFallback WorkspaceSymbols);
          when (negb (implementation fs) || negb (implementationProvider caps))
            (registerFallback Implementation) ] s
  end.

(** [registerUsualProviders(ctx)] *)
Definition registerUsualProviders (s : Session) : Session :=
  steps
    [ registerCompletionFallback;
      registerFallback Hover;
      registerFallback Definition_;
      registerFallback References;
      registerFallback DocumentSymbols;
      registerFallback WorkspaceSymbols;
      registerFallback SignatureHelp;
      registerFallback Implementation;
      registerFallback Format;
      registerFallback TypeDefinition;
      registerFallback Rename;
      push LiveErrorsListener ] s.

(** How many handles of the extension's own provider for [f] the session
    holds. *)
Definition isFallbackFor (f : Feature) (d : Disposable) : bool :=
  match d with
  | FallbackRegistration g => Feature_eqb f g
  | _ => false
  end.

Definition fallbackHandles (f : Feature) (s : Session) : nat :=
  List.length (filter (isFallbackFor f) (subscriptions s)).

(** *** The request middleware

    Each entry either answers the request itself or hands it to [next],
    which forwards it to the server. *)

Inductive NoOp : Type := EmptyArray | Null.

Inductive Routed (R : Type) : Type :=
| Answered (v : NoOp)
| Forwarded (r : R).

Arguments Answered {R} v.
Arguments Forwarded {R} r.

Section Middleware.
Context {R : Type}.
Variable config : LanguageServerConfig.
Variable next : R.

Definition guarded (flag : bool) (noop : NoOp) : Routed R :=
  if negb flag then Answered noop else Forwarded next.

Definition provideDocumentFormattingEdits := guarded (format (features config)) EmptyArray.
Definition provideCompletionItem := guarded (completion (features config)) EmptyArray.
Definition provideRenameEdits := guarded (rename (features config)) Null.
Definition provideDefinition := guarded (definition (features config)) Null.
Definition provideTypeDefinition := guarded (typeDefinition (features config)) Null.
Definition provideHover := guarded (hover (features config)) Null.
Definition provideReferences := guarded (references (features config)) EmptyArray.
Definition provideSignatureHelp := guarded (signatureHelp (features config)) Null.
Definition provideDocumentSymbols := guarded (documentSymbols (features config)) EmptyArray.
Definition provideWorkspaceSymbols := guarded (workspaceSymbols (features config)) EmptyArray.
Definition provideImplementation := guarded (implementation (features config)) Null.
Definition handleDiagnostics := guarded (diagnostics (features config)) Null.
Definition provideDocumentLinks := guarded (documentLink (features config)) Null.

(** The middleware entry that serves feature [f]. *)
Definition middleware (f : Feature) : Routed R :=
  match f with
  | Completion => provideCompletionItem
  | Diagnostics => handleDiagnostics
  | Format => provideDocumentFormattingEdits
  | Definition_ => provideDefinition
  | TypeDefinition => provideTypeDefinition
  | Hover => provideHover
  | References => provideReferences
  | Rename => provideRenameEdits
  | SignatureHelp => provideSignatureHelp
  | DocumentSymbols => provideDocumentSymbols
  | WorkspaceSymbols => provideWorkspaceSymbols
  | Implementation => provideImplementation
  | DocumentLink => provideDocumentLinks
  end.
End Middleware.

(** *** The restart command

    [c.start()] hands out a fresh disposable; [languageServerDisposable] is
    the variable shared by every run of the command handler.  The handler
    has one suspension point, [await c.stop()]: [Invoke i] runs it up to
    there, [StopSettled i] runs the rest when the promise of [c.stop()] is
    fulfilled, and [StopRejected i] ends the run when it is rejected: the
    handler has no [try], so it rejects without reaching the next
    statement. *)

Record Bridge : Type := mkBridge {
  languageServerDisposable : nat;
  live : list nat;
  startCalls : nat;
  stopCalls : nat;
  suspended : list nat;
  completed : list nat;
  failed : list nat;
  bridgeSubscriptions : list Disposable
}.

(** [c.start()]: the handle of the [n]-th call is [n]. *)
Definition start (b : Bridge) : nat * Bridge :=
  let h := S (startCalls b) in
  (h, mkBridge (languageServerDisposable b) (live b ++ [h]) h (stopCalls b)
        (suspended b) (completed b) (failed b) (bridgeSubscriptions b)).

(** [d.dispose()] *)
Definition dispose (h : nat) (b : Bridge) : Bridge :=
  mkBridge (languageServerDisposable b)
    (filter (fun x => negb (x =? h)) (live b))
    (startCalls b) (stopCalls b) (suspended b) (completed b) (failed b)
    (bridgeSubscriptions b).

(** [let languageServerDisposable = c.start(); ctx.subscriptions.push(languageServerDisposable)] *)
Definition startAndSubscribe (b : Bridge) : Bridge :=
  let (h, b1) := start b in
  mkBridge h (live b1) (startCalls b1) (stopCalls b1) (suspended b1)
    (completed b1) (failed b1) (bridgeSubscriptions b1 ++ [ServerDisposable h]).

Definition initialBridge : Bridge :=
  startAndSubscribe (mkBridge 0 [] 0 0 [] [] [] []).

(** The handler up to [await c.stop()]. *)
Definition restartInvoke (i : nat) (b : Bridge) : Bridge :=
  mkBridge (languageServerDisposable b) (live b) (startCalls b)
    (S (stopCalls b)) (suspended b ++ [i]) (completed b) (failed b)
    (bridgeSubscriptions b).

Fixpoint removeFirst (i : nat) (l : list nat) : list nat :=
  match l with
  | [] => []
  | x :: l' => if x =? i then l' else x :: removeFirst i l'
  end.

(** The handler after [await c.stop()]. *)
Definition restartResume (i : nat) (b : Bridge) : Bridge :=
  let b1 := dispose (languageServerDisposable b) b in
  let b2 := startAndSubscribe b1 in
  mkBridge (languageServerDisposable b2) (live b2) (startCalls b2)
    (stopCalls b2) (removeFirst i (suspended b2)) (completed b2 ++ [i])
    (failed b2) (bridgeSubscriptions b2).

(** The handler when [await c.stop()] throws. *)
Definition restartAbort (i : nat) (b : Bridge) : Bridge :=
  mkBridge (languageServerDisposable b) (live b) (startCalls b)
    (stopCalls b) (removeFirst i (suspended b)) (completed b)
    (failed b ++ [i]) (bridgeSubscriptions b).

Inductive RestartEvent : Type :=
| Invoke (i : nat)
| StopSettled (i : nat)
| StopRejected (i : nat).

Definition restartStep (b : Bridge) (e : RestartEvent) : Bridge :=
  match e with
  | Invoke i => restartInvoke i b
  | StopSettled i =>
      if existsb (Nat.eqb i) (suspended b) then restartResume i b else b
  | StopRejected i =>
      if existsb (Nat.eqb i) (suspended b) then restartAbort i b else b
  end.

Definition restartRun (es : list RestartEvent) (b : Bridge) : Bridge :=
  fold_left restartStep es b.

Definition isInvoke (e : RestartEvent) : bool :=
  match e with Invoke _ => true | _ => false end.

Definition invocations (es : list RestartEvent) : nat :=
  List.length (filter isInvoke es).

(** *** The update check *)

Inductive ExecResult : Type :=
| ExecOk (stdout : string)
| ExecFailed.

(** What the extension sees of the outside: child processes and the module
    proxy.  [webRequest url] is what [WebRequest.json(url)] settles with:
    the body when the answer is a string, [None] when it is not (an empty
    body gives [undefined]). *)
Record Environment : Type := mkEnvironment {
  execFile : string -> list string -> ExecResult;
  webRequest : string -> Promise (option string)
}.

Definition SPACE : ascii := ascii_of_nat 32.
Definition AT : ascii := ascii_of_nat 64.

Definition orEmpty (o : option string) : string :=
  match o with Some s => s | None => EmptyString end.

(** [goplsVersion(goplsPath)]; [None] is [null]. *)
Definition goplsVersion (env : Environment) (goplsPath : string) : option string :=
  match execFile env goplsPath ["version"] with
  | ExecFailed => None
  | ExecOk output =>
      let lines := split LF (trim output) in
      match List.length lines with
      | 0 => None
      | 1 => None
      | 2 =>
          let moduleVersion :=
            orEmpty (at_ (split SPACE (trim (orEmpty (at_ lines 1)))) 0) in
          let split_ := split AT (trim moduleVersion) in
          if List.length split_ <? 2 then None else at_ split_ 1
      | _ => None
      end
  end.

Definition listURL (tool : Tool) : string :=
  ("https://proxy.golang.org/" ++ importPath tool ++ "/@v/list")%string.

(** [shouldUpdateLanguageServer(tool, path)].  The message of the TypeError
    that [data.trim()] throws on [undefined] is the engine's. *)
Definition shouldUpdateLanguageServer (env : Environment) (tool : Tool)
    (path : string) : Promise bool :=
  if negb (String.eqb (name tool) "gopls") then Resolved false
  else
    let usersVersion := goplsVersion env path in
    if negb (truthy usersVersion) then Resolved true
    else if String.eqb (orEmpty usersVersion) "(devel)" then Resolved false
    else
      match webRequest env (listURL tool) with
      | Rejected e => Rejected e
      | Resolved None =>
          Rejected (TypeError "Cannot read property 'trim' of undefined")
      | Resolved (Some data) =>
          let versions := List.map Semver.coerce (split LF (trim data)) in
          if List.length versions =? 0 then Resolved false
          else
            match Semver.sort_rcompare versions with
            | Rejected e => Rejected e
            | Resolved sorted =>
                match sorted with
                | [] => Rejected (TypeError "Invalid Version: undefined")
                | top :: _ => Semver.lt (orEmpty usersVersion) top
                end
            end
      end.

(** *** Reading the settings and wiring everything up *)

(** The keys of [go.languageServerExperimentalFeatures]. *)
Record ExperimentalFeatures : Type := mkExperimentalFeatures {
  autoComplete : bool;
  diagnostics_ : bool;
  format_ : bool;
  goToDefinition : bool;
  goToTypeDefinition : bool;
  hover_ : bool;
  findReferences : bool;
  rename_ : bool;
  signatureHelp_ : bool;
  documentSymbols_ : bool;
  workspaceSymbols_ : bool;
  implementation_ : bool;
  documentLink_ : bool
}.

Record GoConfig : Type := mkGoConfig {
  useLanguageServer : bool;
  languageServerFlags : option (list string);
  languageServerExperimentalFeatures : ExperimentalFeatures
}.

(** [parseLanguageServerConfig()] *)
Definition parseLanguageServerConfig (goConfig : GoConfig) : LanguageServerConfig :=
  let x := languageServerExperimentalFeatures goConfig in
  mkConfig (useLanguageServer goConfig)
    (match languageServerFlags goConfig with Some l => l | None => [] end)
    (mkFeatures (autoComplete x) (diagnostics_ x) (format_ x) (goToDefinition x)
       (goToTypeDefinition x) (hover_ x) (findReferences x) (rename_ x)
       (signatureHelp_ x) (documentSymbols_ x) (workspaceSymbols_ x)
       (implementation_ x) (documentLink_ x)).

Record Activation : Type := mkActivation {
  session : Session;
  promptedForUpdate : bool
}.

(** [registerLanguageFeatures(ctx)], run to the point where the client has
    become ready and its handler has run.  [path] and [tool] are what
    [getLanguageServerToolPath()] and [getTool] returned, [initializeResult]
    is what the server answered.  A rejected update check rejects the whole
    function before the client is created. *)
Definition registerLanguageFeatures (env : Environment) (goConfig : GoConfig)
    (path : string) (tool : Tool) (initializeResult : option InitializeResult)
    (ctx : Session) : Promise Activation :=
  let ctx := push ConfigurationWatcher ctx in
  let config := parseLanguageServerConfig goConfig in
  if negb (enabled config) then
    Resolved (mkActivation (registerUsualProviders ctx) false)
  else
    match shouldUpdateLanguageServer env tool path with
    | Rejected e => Rejected e
    | Resolved update =>
        let ctx := push (ServerDisposable 1) ctx in
        let ctx := push (CommandRegistration "go.languageserver.restart") ctx in
        let ctx :=
          when (negb (String.eqb (name tool) "gopls" && diagnostics (features config)))
            (push LiveErrorsListener) ctx in
        Resolved (mkActivation (onReady config initializeResult ctx) update)
    end.

(** *** Locating the language server *)

(** [allFoldersHaveSameGopath()]; a folder is given by its uri. *)
Definition allFoldersHaveSameGopath (getCurrentGoPath : string -> string)
    (workspaceFolders : option (list string)) : bool :=
  match workspaceFolders with
  | None => true
  | Some folders =>
      if List.length folders <=? 1 then true
      else
        let tempGopath := getCurrentGoPath (nth 0 folders EmptyString) in
        match find (fun x => negb (String.eqb tempGopath (getCurrentGoPath x))) folders with
        | Some _ => false
        | None => true
        end
  end.

(** [go.alternateTools]: each entry is [Some] when it is a string. *)
Record AlternateTools : Type := mkAlternateTools {
  altGopls : option string;
  altGoLangserver : option string
}.

(** The settings and helpers [getLanguageServerToolPath] reads.
    [getBinPath], [getToolFromToolPath] and [getCurrentGoPath] are helpers
    of [util.ts] and [goPath.ts]; [getToolFromToolPath] may return
    [undefined]. *)
Record ToolPathHost : Type := mkToolPathHost {
  useLanguageServerSetting : bool;
  workspaceFolders : option (list string);
  getCurrentGoPath : string -> string;
  getBinPath : string -> string;
  isAbsolute : string -> bool;
  alternateTools : option AlternateTools;
  getToolFromToolPath : string -> option string
}.

Inductive Notice : Type :=
| InformationMessage (text : string)
| ErrorMessage (text : string)
| PromptForMissingTool (toolName : string).

Record ToolPath : Type := mkToolPath {
  toolPath : option string;
  notices : list Notice
}.

(** A value in a template string. *)
Definition textOf (o : option string) : string :=
  match o with Some s => s | None => "undefined" end.

Definition languageServerOfChoice (host : ToolPathHost) : option string :=
  match alternateTools host with
  | None => Some "gopls"
  | Some alt =>
      match altGopls alt, altGoLangserver alt with
      | Some goplsAlternate, _ => getToolFromToolPath host goplsAlternate
      | None, Some golangserverAlternate => getToolFromToolPath host golangserverAlternate
      | None, None => Some "gopls"
      end
  end.

Definition supportedServer (choice : option string) : bool :=
  match choice with
  | Some c => String.eqb c "gopls" || String.eqb c "go-langserver"
  | None => false
  end.

Definition cannotFindMessage (choice : option string) : string :=
  ("Cannot find the language server " ++ textOf choice
   ++ ". Please install it and reload this VS Code window")%string.

(** [getLanguageServerToolPath()] of [goLanguageServer.ts]. *)
Definition getLanguageServerToolPath (host : ToolPathHost) : ToolPath :=
  if negb (useLanguageServerSetting host) then mkToolPath None []
  else if negb (allFoldersHaveSameGopath (getCurrentGoPath host) (workspaceFolders host)) then
    mkToolPath None
      [InformationMessage
         "The Go language server is currently not supported in a multi-root set-up with different GOPATHs."]
  else
    let goplsBinaryPath := getBinPath host "gopls" in
    if isAbsolute host goplsBinaryPath then mkToolPath (Some goplsBinaryPath) []
    else
      let golangserverBinaryPath := getBinPath host "go-langserver" in
      if isAbsolute host golangserverBinaryPath then mkToolPath (Some golangserverBinaryPath) []
      else
        let choice := languageServerOfChoice host in
        if negb (supportedServer choice) then
          mkToolPath None [ErrorMessage (cannotFindMessage choice)]
        else
          mkToolPath None
            [ PromptForMissingTool (textOf choice);
              InformationMessage
                "Reload VS Code window after installing the Go language server." ].

(** [getLanguageServerToolPath()] of [goInstallTools.ts]: the test for a
    supported server sits inside the [alternateTools] branch. *)
Definition getLanguageServerToolPath_installTools (host : ToolPathHost) : ToolPath :=
  if negb (useLanguageServerSetting host) then mkToolPath None []
  else if negb (allFoldersHaveSameGopath (getCurrentGoPath host) (workspaceFolders host)) then
    mkToolPath None
      [InformationMessage
         "The Go language server is not supported in a multi root set up with different GOPATHs."]
  else
    let goplsBinaryPath := getBinPath host "gopls" in
    if isAbsolute host goplsBinaryPath then mkToolPath (Some goplsBinaryPath) []
    else
      let golangserverBinaryPath := getBinPath host "go-langserver" in
      if isAbsolute host golangserverBinaryPath then mkToolPath (Some golangserverBinaryPath) []
      else
        let prompt (choice : option string) :=
          mkToolPath None
            [ PromptForMissingTool (textOf choice);
              InformationMessage
                "Reload VS Code window after installing the Go language server" ] in
        match alternateTools host with
        | None => prompt (Some "gopls")
        | Some alt =>
            let choice :=
              match altGopls alt, altGoLangserver alt with
              | Some goplsAlternate, _ => getToolFromToolPath host goplsAlternate
              | None, Some golangserverAlternate =>
                  getToolFromToolPath host golangserverAlternate
              | None, None => Some "gopls"
              end in
            if negb (supportedServer choice) then
              mkToolPath None [ErrorMessage (cannotFindMessage choice)]
            else prompt choice
        end.

End GoLanguageServer.


(** ** Diagnostics produced by the tools ([ICheckResult], [util.ts]) *)

Record ICheckResult : Type := mkCheckResult {
  file : string;
  line : nat;
  msg : string;
  severity : string
}.

(** ** [goLint.ts] *)

Module GoLint.
Import JsString.

(** The settings [goLint] reads; [None] is an unset key. *)
Record LintConfig : Type := mkLintConfig {
  lintTool : option string;
  lintFlags : option (list string);
  toolsGopath : option string
}.

(** Helpers of [util.ts] and [path], which are not part of this file. *)
Record Host : Type := mkHost {
  resolvePath : string -> string;
  getWorkspaceFolderPath : string -> option string;
  dirname : string -> string;
  getToolsEnvVars : list (string * string);
  delimiter : string
}.

Definition configFlag : string := "--config=".

(** [flag.substr(n)] *)
Fixpoint substr (n : nat) (s : string) : string :=
  match n, s with
  | O, _ => s
  | S n', String _ s' => substr n' s'
  | S _, EmptyString => EmptyString
  end.

(** The body of [lintFlags.forEach]. *)
Definition lintFlag (host : Host) (args : list string) (flag : string) : list string :=
  if String.eqb flag "--json" then args
  else if startsWith flag configFlag then
    args ++ [(configFlag ++ resolvePath host (substr (String.length configFlag) flag))%string]
  else args ++ [flag].

Definition orDefault (o : option string) (d : string) : string :=
  match o with
  | Some EmptyString | None => d
  | Some s => s
  end.

Definition contains (l : list string) (x : string) : bool :=
  existsb (String.eqb x) l.

Fixpoint lookupEnv (k : string) (env : list (string * string)) : option string :=
  match env with
  | [] => None
  | (k', v) :: env' => if String.eqb k k' then Some v else lookupEnv k env'
  end.

Fixpoint assignEnv (k v : string) (env : list (string * string)) : list (string * string) :=
  match env with
  | [] => [(k, v)]
  | (k', v') :: env' =>
      if String.eqb k k' then (k, v) :: env' else (k', v') :: assignEnv k v env'
  end.

(** [lintEnv['GOPATH'] += path.delimiter + goConfig['toolsGopath']] *)
Definition appendGopath (host : Host) (extra : string) (env : list (string * string))
  : list (string * string) :=
  let old := match lookupEnv "GOPATH" env with
             | Some v => v
             | None => "undefined"
             end in
  assignEnv "GOPATH" (old ++ delimiter host ++ extra)%string env.

Record ToolRun : Type := mkToolRun {
  runArgs : list string;
  runCwd : string;
  runTool_ : string;
  runEnv : list (string * string)
}.

(** Everything [goLint] computes before it looks at [running]. *)
Definition lintCommand (host : Host) (fileUri : string) (goConfig : LintConfig)
    (lintWorkspace : bool) : ToolRun :=
  let tool := orDefault (lintTool goConfig) "golint" in
  let flags := match lintFlags goConfig with Some l => l | None => [] end in
  let currentWorkspace := getWorkspaceFolderPath host fileUri in
  let args := fold_left (lintFlag host) flags [] in
  let gometalinter := String.eqb tool "gometalinter" in
  let args := if gometalinter && negb (contains args "--aggregate")
              then args ++ ["--aggregate"] else args in
  let env := if gometalinter && truthy (toolsGopath goConfig)
             then appendGopath host (orDefault (toolsGopath goConfig) "") (getToolsEnvVars host)
             else getToolsEnvVars host in
  let inWorkspace := lintWorkspace && truthy currentWorkspace in
  let args := if inWorkspace then args ++ ["./..."] else args in
  let cwd := if inWorkspace then orDefault currentWorkspace "" else dirname host fileUri in
  mkToolRun args cwd tool env.

(** What the outside observes of linting, in order. *)
Inductive Effect : Type :=
| Cancel
| RunTool (id : nat) (run : ToolRun) (tokenCancelled : bool)
| HandleDiagnosticErrors (id : nat) (warnings : list ICheckResult)
| ShowInformationMessage (text : string).

(** The module-level [running] and [tokenSource], the lint runs that have
    not settled, and the effects so far.  The one [tokenSource] is created
    when the module is loaded. *)
Record State : Type := mkState {
  running : bool;
  cancellationRequested : bool;
  outstanding : list nat;
  effects : list Effect
}.

Definition initial : State := mkState false false [] [].

Definition emit (e : Effect) (s : State) : State :=
  mkState (running s) (cancellationRequested s) (outstanding s) (effects s ++ [e]).

(** [tokenSource.cancel()] *)
Definition cancel (s : State) : State :=
  emit Cancel (mkState (running s) true (outstanding s) (effects s)).

(** [goLint(fileUri, goConfig, lintWorkspace)] up to the return of the
    promise; [id] names the run it launches. *)
Definition goLint (host : Host) (id : nat) (fileUri : string) (goConfig : LintConfig)
    (lintWorkspace : bool) (s : State) : State :=
  let run := lintCommand host fileUri goConfig lintWorkspace in
  let s1 := if running s then cancel s else s in
  let s2 := mkState true (cancellationRequested s1) (outstanding s1) (effects s1) in
  emit (RunTool id run (cancellationRequested s2))
    (mkState (running s2) (cancellationRequested s2) (outstanding s2 ++ [id]) (effects s2)).

(** The [.then] that [goLint] chains on the tool's promise: it runs only
    when the tool's promise resolves, and passes the result on. *)
Definition lintPromise (result : Promise (list ICheckResult)) (s : State)
  : Promise (list ICheckResult) * State :=
  match result with
  | Resolved r =>
      (Resolved r, mkState false (cancellationRequested s) (outstanding s) (effects s))
  | Rejected e => (Rejected e, s)
  end.

Definition errorText (e : JsError) : string :=
  match e with
  | TypeError m => ("TypeError: " ++ m)%string
  | NetworkError m | ToolError m => m
  end.

(** The [.then] and [.catch] that [lintCode] chains on [goLint]'s promise. *)
Definition lintCodeSettled (id : nat) (p : Promise (list ICheckResult)) (s : State) : State :=
  match p with
  | Resolved warnings => emit (HandleDiagnosticErrors id warnings) s
  | Rejected e => emit (ShowInformationMessage ("Error: " ++ errorText e)%string) s
  end.

Record Request : Type := mkRequest {
  fileUri : string;
  goConfig : LintConfig;
  lintWorkspace : bool
}.

Inductive Event : Type :=
| LintRequested (id : nat) (req : Request)
| ToolSettled (id : nat) (result : Promise (list ICheckResult)).

Definition remove_id (id : nat) (l : list nat) : list nat :=
  filter (fun x => negb (x =? id)) l.

Definition step (host : Host) (s : State) (e : Event) : State :=
  match e with
  | LintRequested id req =>
      goLint host id (fileUri req) (goConfig req) (lintWorkspace req) s
  | ToolSettled id result =>
      if existsb (Nat.eqb id) (outstanding s) then
        let s1 := mkState (running s) (cancellationRequested s)
                    (remove_id id (outstanding s)) (effects s) in
        let (p, s2) := lintPromise result s1 in
        lintCodeSettled id p s2
      else s
  end.

Definition run (host : Host) (es : list Event) (s : State) : State :=
  fold_left (step host) es s.

End GoLint.

(** ** [goCheck.ts] *)

Module GoCheck.

(** A configuration value as [check] tests it. *)
Inductive JsValue : Type :=
| JUndefined
| JBool (b : bool)
| JString (s : string).

(** [!!v] *)
Definition truthy (v : JsValue) : bool :=
  match v with
  | JUndefined => false
  | JBool b => b
  | JString EmptyString => false
  | JString _ => true
  end.

(** [v === s] for a string literal [s] *)
Definition strictEq (v : JsValue) (s : string) : bool :=
  match v with
  | JString t => String.eqb t s
  | _ => false
  end.

Record CheckConfig : Type := mkCheckConfig {
  buildOnSave : JsValue;
  testOnSave : JsValue;
  lintOnSave : JsValue;
  vetOnSave : JsValue;
  coverOnSave : JsValue
}.

(** A call of one of the tools: [goBuild], [goLint] and [goVet] with their
    [workspace] argument, [goTest] with whether its flags begin with
    [-coverprofile=]. *)
Inductive Call : Type :=
| GoBuild (workspace : bool)
| GoTest (coverprofile : bool)
| GoLint (workspace : bool)
| GoVet (workspace : bool).

(** [!!goConfig[key] && goConfig[key] !== 'off'] *)
Definition onSave (v : JsValue) : bool := truthy v && negb (strictEq v "off").

(** What [check] has done when it returns: the message shown, the calls
    made, the local [testPromise] and the array [runningToolsPromises].  A
    promise is named by the position of its call among [calls]. *)
Record Started : Type := mkStarted {
  messages : list string;
  calls : list Call;
  testPromise : option nat;
  runningToolsPromises : list nat
}.

(** [runningToolsPromises.push(tool(fileUri, goConfig, workspace))] *)
Definition pushTool (c : Call) (s : Started) : Started :=
  mkStarted (messages s) (calls s ++ [c]) (testPromise s)
    (runningToolsPromises s ++ [List.length (calls s)]).

(** [runTest()]: the test run is started by the first call only. *)
Definition runTest (goConfig : CheckConfig) (s : Started) : Started :=
  match testPromise s with
  | Some _ => s
  | None =>
      mkStarted (messages s) (calls s ++ [GoTest (truthy (coverOnSave goConfig))])
        (Some (List.length (calls s))) (runningToolsPromises s)
  end.

Definition whenSet (b : bool) (k : Started -> Started) (s : Started) : Started :=
  if b then k s else s.

(** [check(fileUri, goConfig)] up to its [return]; [goRuntimePath] is what
    [getGoRuntimePath()] returned. *)
Definition check (goRuntimePath : option string) (goConfig : CheckConfig) : Started :=
  if negb (JsString.truthy goRuntimePath) then
    mkStarted
      [("Cannot find " ++ JsString.quoted "go"
        ++ " binary. Update PATH or GOROOT appropriately")%string]
      [] None []
  else
    let s := mkStarted [] [] None [] in
    let s := whenSet (onSave (buildOnSave goConfig))
               (pushTool (GoBuild (strictEq (buildOnSave goConfig) "workspace"))) s in
    let s := whenSet (truthy (testOnSave goConfig)) (runTest goConfig) s in
    let s := whenSet (onSave (lintOnSave goConfig))
               (pushTool (GoLint (strictEq (lintOnSave goConfig) "workspace"))) s in
    let s := whenSet (onSave (vetOnSave goConfig))
               (pushTool (GoVet (strictEq (vetOnSave goConfig) "workspace"))) s in
    whenSet (truthy (coverOnSave goConfig)) (runTest goConfig) s.

(** One promise settling: which one, and how. *)
Definition Settlement : Type := (nat * Promise (list ICheckResult))%type.

(** What a promise settled with, in a list of settlements in the order in
    which they happen: a promise settles once. *)
Fixpoint settlementOf (h : nat) (schedule : list Settlement)
  : option (Promise (list ICheckResult)) :=
  match schedule with
  | [] => None
  | (h', p) :: schedule' => if h' =? h then Some p else settlementOf h schedule'
  end.

(** The first rejection, in time, of a promise of the array. *)
Fixpoint firstRejection (promises settled : list nat) (schedule : list Settlement)
  : option JsError :=
  match schedule with
  | [] => None
  | (h, p) :: schedule' =>
      if existsb (Nat.eqb h) settled then firstRejection promises settled schedule'
      else
        match p with
        | Rejected e =>
            if existsb (Nat.eqb h) promises then Some e
            else firstRejection promises (h :: settled) schedule'
        | Resolved _ => firstRejection promises (h :: settled) schedule'
        end
  end.

(** The values of the promises of the array, when all are fulfilled. *)
Fixpoint valuesOf (promises : list nat) (schedule : list Settlement)
  : option (list (list ICheckResult)) :=
  match promises with
  | [] => Some []
  | h :: promises' =>
      match settlementOf h schedule, valuesOf promises' schedule with
      | Some (Resolved r), Some rs => Some (r :: rs)
      | _, _ => None
      end
  end.

Inductive Batch : Type :=
| BatchPending
| BatchResolved (results : list ICheckResult)
| BatchRejected (e : JsError).

(** [[].concat.apply([], resultSets)] *)
Definition flatten (resultSets : list (list ICheckResult)) : list ICheckResult :=
  List.concat resultSets.

(** [Promise.all(runningToolsPromises).then(concat)] after the settlements
    of [schedule]: it rejects with the first rejection of a promise of the
    array, and is fulfilled with the values in array order once every
    promise of the array is. *)
Definition batch (promises : list nat) (schedule : list Settlement) : Batch :=
  match firstRejection promises [] schedule with
  | Some e => BatchRejected e
  | None =>
      match valuesOf promises schedule with
      | Some resultSets => BatchResolved (flatten resultSets)
      | None => BatchPending
      end
  end.

(** *** [checksOnFileEdit] *)





(** What [.] of a regular expression does not match. *)
Definition isLineTerminator (c : Ascii.ascii) : bool :=
  (JsString.code c =? 10) || (JsString.code c =? 13).

Definition generatedPrefix : string := "// Code generated ".
Definition generatedSuffix : string := " DO NOT EDIT.".

(** The match of the text against the pattern: the text begins with
    [// Code generated ], ends with [ DO NOT EDIT.], the two do not overlap
    and no line terminator lies between them. *)
Definition isGenerated (text : string) : bool :=
  let n := String.length generatedPrefix + String.length generatedSuffix in
  (n <=? String.length text)
  && JsString.startsWith text generatedPrefix
  && JsString.endsWith text generatedSuffix
  && JsString.forallb (fun c => negb (isLineTerminator c))
       (JsString.take (String.length text - n)
          (JsString.drop (String.length generatedPrefix) text)).




Definition SPACE : Ascii.ascii := Ascii.ascii_of_nat 32.








End GoCheck.

(** ** [goInstallTools.ts] *)

Module GoInstallTools.
Import GoTools.

Inductive Effect : Type :=
| ShowUpdatePrompt (tool : Tool)
| InstallTools (tools : list Tool).

(** The module-level [declinedUpdates], the calls waiting for
    [getGoVersion()], the prompts on screen, and the effects so far. *)
Record State : Type := mkState {
  declinedUpdates : list Tool;
  awaitingGoVersion : list Tool;
  openPrompts : list Tool;
  effects : list Effect
}.

Definition initial : State := mkState [] [] [] [].

Fixpoint removeTool (t : Tool) (l : list Tool) : list Tool :=
  match l with
  | [] => []
  | x :: l' => if Tool_eqb t x then l' else x :: removeTool t l'
  end.

Section Prompt.
Variable getTool : string -> option Tool.

(** [promptForUpdatingTool(toolName)] up to [getGoVersion().then].  For a
    name [getTool] does not know, the callback throws on [tool.name] and
    nothing is shown. *)
Definition promptForUpdatingTool (toolName : string) (s : State) : State :=
  match getTool toolName with
  | None => s
  | Some tool =>
      if containsTool (declinedUpdates s) tool then s
      else mkState (declinedUpdates s) (awaitingGoVersion s ++ [tool])
             (openPrompts s) (effects s)
  end.

(** The callback of [getGoVersion().then]: the prompt appears. *)
Definition goVersionResolved (tool : Tool) (s : State) : State :=
  mkState (declinedUpdates s) (removeTool tool (awaitingGoVersion s))
    (openPrompts s ++ [tool]) (effects s ++ [ShowUpdatePrompt tool]).

(** The callback of [showInformationMessage(updateMsg, 'Update').then]:
    [case 'Update'] has no [break] and falls through to [default]. *)
Definition selected (tool : Tool) (selection : option string) (s : State) : State :=
  let installs :=
    match selection with
    | Some sel => if String.eqb sel "Update" then [InstallTools [tool]] else []
    | None => []
    end in
  mkState (declinedUpdates s ++ [tool]) (awaitingGoVersion s)
    (removeTool tool (openPrompts s)) (effects s ++ installs).

Inductive Event : Type :=
| Call (toolName : string)
| GoVersionResolved (tool : Tool)
| Selected (tool : Tool) (selection : option string).

Definition step (s : State) (e : Event) : State :=
  match e with
  | Call toolName => promptForUpdatingTool toolName s
  | GoVersionResolved tool =>
      if containsTool (awaitingGoVersion s) tool then goVersionResolved tool s else s
  | Selected tool selection =>
      if containsTool (openPrompts s) tool then selected tool selection s else s
  end.

Definition run (es : list Event) (s : State) : State := fold_left step es s.

End Prompt.

Definition isPromptFor (tool : Tool) (e : Effect) : bool :=
  match e with
  | ShowUpdatePrompt t => Tool_eqb tool t
  | InstallTools _ => false
  end.

(** How often the update prompt for [tool] was shown. *)
Definition promptsShown (tool : Tool) (s : State) : nat :=
  List.length (filter (isPromptFor tool) (effects s)).

End GoInstallTools.

(** ** [goFormat.ts] *)

Module GoFormat.
Import JsString.

Record Position : Type := mkPosition { posLine : nat; character : nat }.
Record Range : Type := mkRange { rangeStart : Position; rangeEnd : Position }.
Record TextEdit : Type := mkTextEdit { range : Range; newText : string }.

(** A document has at least one line. *)
Record TextDocument : Type := mkTextDocument {
  fileName : string;
  firstLine : string;
  moreLines : list string
}.

Definition lines (document : TextDocument) : list string :=
  firstLine document :: moreLines document.

Definition lineCount (document : TextDocument) : nat := List.length (lines document).

(** [document.lineAt(document.lineCount - 1).range.end] *)
Definition fileEnd (document : TextDocument) : Position :=
  mkPosition (lineCount document - 1)
    (String.length (nth (lineCount document - 1) (lines document) EmptyString)).

Record FormatConfig : Type := mkFormatConfig {
  formatTool : option string;
  formatFlags : list string
}.

(** [arr.indexOf(x)]; [None] is [-1]. *)
Fixpoint indexOf (x : string) (l : list string) : option nat :=
  match l with
  | [] => None
  | y :: l' =>
      if String.eqb y x then Some 0
      else match indexOf x l' with
           | Some i => Some (S i)
           | None => None
           end
  end.

(** [arr.splice(i, 1)] *)
Fixpoint splice1 (i : nat) (l : list string) : list string :=
  match i, l with
  | _, [] => []
  | O, _ :: l' => l'
  | S i', y :: l' => y :: splice1 i' l'
  end.

Definition toolOrDefault (goConfig : FormatConfig) : string :=
  match formatTool goConfig with
  | Some EmptyString | None => "goreturns"
  | Some t => t
  end.

(** The argument array handed to [cp.execFile]. *)
Definition formatArgs (goConfig : FormatConfig) (filename : string) : list string :=
  let tool := toolOrDefault goConfig in
  let flags := formatFlags goConfig in
  let flags := match indexOf "-w" flags with
               | Some i => splice1 i flags
               | None => flags
               end in
  if String.eqb tool "goimports" || String.eqb tool "goreturns"
  then flags ++ ["-srcdir"; filename] else flags.

(** How one run of the formatter ends. *)
Inductive ExecOutcome : Type :=
| ExecSuccess (stdout : string)
| ExecENOENT
| ExecError (stderr : string).

Inductive Effect : Type :=
| ExecFile (tool : string) (args : list string)
| PromptForUpdatingTool (toolName : string).

Inductive Settled : Type :=
| Edits (edits : list TextEdit)
| Reject (reason : string)
| Pending.

Definition missingToolMsg : string := "Missing tool: ".

(** [self.formatDocument(document).then(results => resolve(results))]: the
    promise of the first call is resolved when the retried call is
    fulfilled; nothing is chained on its rejection, which leaves the promise
    of the first call unsettled. *)
Definition thenResolve (retried : Settled) : Settled :=
  match retried with
  | Edits edits => Edits edits
  | Reject _ => Pending
  | Pending => Pending
  end.

(** [formatDocument(document)], against the outcomes of the successive
    formatter runs: an old [goreturns] that rejects [-srcdir] makes the
    method call itself again. *)
Fixpoint formatDocument (goConfig : FormatConfig) (document : TextDocument)
    (outcomes : list ExecOutcome) : list Effect * Settled :=
  let tool := toolOrDefault goConfig in
  let launch := ExecFile tool (formatArgs goConfig (fileName document)) in
  match outcomes with
  | [] => ([launch], Pending)
  | ExecENOENT :: _ => ([launch], Reject (missingToolMsg ++ tool)%string)
  | ExecError stderr :: rest =>
      if String.eqb tool "goreturns"
         && startsWith stderr "flag provided but not defined: -srcdir"
      then
        let (effs, r) := formatDocument goConfig document rest in
        (launch :: PromptForUpdatingTool "goreturns" :: effs, thenResolve r)
      else ([launch], Reject "Check the console in dev tools to find errors when formatting.")
  | ExecSuccess stdout :: _ =>
      ([launch],
       Edits [mkTextEdit (mkRange (mkPosition 0 0) (fileEnd document)) stdout])
  end.

(** What [provideDocumentFormattingEdits] adds to the effects of the
    formatter. *)
Inductive ProviderEffect : Type :=
| FormatterEffect (e : Effect)
| PromptForMissingTool (toolName : string)
| ConsoleLog (err : string).

(** [GoDocumentFormattingEditProvider.provideDocumentFormattingEdits]: the
    effects and the value its promise resolves with, [None] while the
    formatter has not called back.  Every rejection of [formatDocument]
    carries a string. *)
Definition provideDocumentFormattingEdits (goConfig : FormatConfig)
    (document : TextDocument) (outcomes : list ExecOutcome)
  : list ProviderEffect * option (list TextEdit) :=
  let (effects, settled) := formatDocument goConfig document outcomes in
  match settled with
  | Edits edits => (map FormatterEffect effects, Some edits)
  | Reject err =>
      (map FormatterEffect effects
       ++ [if startsWith err missingToolMsg
           then PromptForMissingTool (drop (String.length missingToolMsg) err)
           else ConsoleLog err],
       Some [])
  | Pending => (map FormatterEffect effects, None)
  end.

End GoFormat.

(** ** [installTools] and [promptForMissingTool] ([goInstallTools.ts]) *)

Module InstallTools.
Import JsString GoTools.

(** What the callback of [cp.execFile] receives: [err] (the text of the
    error, [None] for [null]), [stdout] and [stderr]. *)
Record ExecOutcome : Type := mkExecOutcome {
  execErr : option string;
  execStdout : string;
  execStderr : string
}.

(** Helpers of [util.ts], [goPath.ts], [goTools.ts], [path] and [process],
    and the settings read. *)
Record Host : Type := mkHost {
  getBinPath : string -> string;
  isAbsolute : string -> bool;
  getImportPath : Tool -> string;
  modulesOnly : Tool -> bool;
  isGocode : Tool -> bool;
  processEnv : list (string * string);
  envPath : string;
  httpProxy : option string;
  getToolsGopath : option string;
  getCurrentGoPath : option string;
  delimiter : ascii;
  sep : string;
  win32 : bool;
  joinPath : list string -> string
}.

Inductive Effect : Type :=
| ShowErrorMessage (text : string)
| ShowInformationMessage (text : string) (items : list string)
| OutputShow
| OutputClear
| AppendLine (text : string)
| ExecFile (file : string) (args : list string) (env : option (list (string * string))).

(** A chain of callbacks: it consumes the outcomes of the child processes it
    starts, in the order in which it starts them, and is left pending when
    an outcome is missing. *)
Definition M (A : Type) : Type :=
  list ExecOutcome -> list Effect * option (A * list ExecOutcome).

Definition ret {A : Type} (a : A) : M A := fun outcomes => ([], Some (a, outcomes)).

Definition bind {A B : Type} (m : M A) (k : A -> M B) : M B :=
  fun outcomes =>
    match m outcomes with
    | (effects1, Some (a, outcomes')) =>
        let (effects2, r) := k a outcomes' in (effects1 ++ effects2, r)
    | (effects1, None) => (effects1, None)
    end.

Definition emit (e : Effect) : M unit := fun outcomes => ([e], Some (tt, outcomes)).

(** [cp.execFile(file, args, options, callback)] *)
Definition execFile (file : string) (args : list string)
    (env : option (list (string * string))) : M ExecOutcome :=
  fun outcomes =>
    ([ExecFile file args env],
     match outcomes with
     | [] => None
     | o :: outcomes' => Some (o, outcomes')
     end).

Declare Scope install_scope.
Delimit Scope install_scope with install.
Notation "x <- m ;; k" := (bind m (fun x => k))
  (at level 61, m at next level, right associativity) : install_scope.
Notation "m ;;; k" := (bind m (fun _ => k))
  (at level 61, right associativity) : install_scope.
Local Open Scope install_scope.

(** A possibly-undefined value inside a template literal or a string
    concatenation. *)
Definition textOf (o : option string) : string :=
  match o with
  | Some s => s
  | None => "undefined"
  end.

(** [tool + ''] for the plain object [tool]. *)
Definition toolText : string := "[object Object]".

(** [n + ''] *)
Definition numberText (n : nat) : string :=
  DecimalString.NilEmpty.string_of_uint (Nat.to_uint n).

(** [containsString(tools, toolName)] *)
Definition containsString (tools : list Tool) (toolName : string) : bool :=
  existsb (fun tool => String.eqb (name tool) toolName) tools.

Definition assignProxy (proxy : string) (env : list (string * string))
  : list (string * string) :=
  GoLint.assignEnv "HTTPS_PROXY" proxy
    (GoLint.assignEnv "https_proxy" proxy
       (GoLint.assignEnv "HTTP_PROXY" proxy
          (GoLint.assignEnv "http_proxy" proxy env))).

(** [envForTools] and [toolsGopath] as they are when the installation
    starts; [None] when neither [go.toolsGopath] nor the current GOPATH is
    set. *)
Definition envForTools (host : Host) : option (list (string * string) * string) :=
  let env :=
    match httpProxy host with
    | Some (String c p) => assignProxy (String c p) (processEnv host)
    | _ => processEnv host
    end in
  let (env, toolsGopath) :=
    if truthy (getToolsGopath host)
    then (GoLint.assignEnv "GOBIN" "" env, getToolsGopath host)
    else (env, getCurrentGoPath host) in
  match toolsGopath with
  | Some (String c p) =>
      let toolsGopath :=
        match split (delimiter host) (String c p) with
        | first :: _ => first
        | [] => "undefined"
        end in
      Some (GoLint.assignEnv "GO111MODULE" "off"
              (GoLint.assignEnv "GOPATH" toolsGopath env),
            toolsGopath)
  | _ => None
  end.

Section Install.
Variable host : Host.
Variable env : list (string * string).
Variable goRuntimePath : string.
Variable toolsGopath : string.

(** [callback(err, stdout, stderr)] for [tool]; the value is what is
    appended to [sofar]. *)
Definition callback (tool : Tool) (o : ExecOutcome) : M (option string) :=
  match execErr o with
  | Some err =>
      emit (AppendLine ("Installing " ++ getImportPath host tool ++ " FAILED")) ;;;
      ret (Some (toolText ++ ";;" ++ err ++ execStdout o ++ execStderr o)%string)
  | None =>
      emit (AppendLine ("Installing " ++ getImportPath host tool ++ " SUCCEEDED")) ;;;
      if String.eqb (name tool) "gometalinter" then
        emit (AppendLine "Installing all linters used by gometalinter....") ;;;
        o2 <- execFile (getBinPath host "gometalinter") ["--install"] (Some env) ;;
        match execErr o2 with
        | None =>
            emit (AppendLine "Installing all linters used by gometalinter SUCCEEDED.") ;;;
            ret None
        | Some _ =>
            ret (Some ("Error while running gometalinter --install;; "
                       ++ execStderr o2)%string)
        end
      else ret None
  end.

(** [closeToolPromise] *)
Definition closeTool (tool : Tool) : M bool :=
  let toolBinPath := getBinPath host (name tool) in
  if isAbsolute host toolBinPath && isGocode host tool then
    o <- execFile toolBinPath ["close"] None ;;
    if includes (execStderr o) "rpc: can't find service Server." then
      emit (AppendLine "Installing gocode aborted as existing process cannot be closed. Please kill the running process for gocode and try again.") ;;;
      ret false
    else ret true
  else ret true.

Definition getArgs (tool : Tool) : list string :=
  ["get"; "-u"; "-v"] ++ (if modulesOnly host tool then ["-d"] else [])
  ++ [getImportPath host tool].

Definition isNull (o : option string) : bool :=
  match o with
  | None => true
  | Some _ => false
  end.

(** The promise the reducer creates for [tool]: the entry it appends to
    [sofar]. *)
Definition installTool (tool : Tool) : M (option string) :=
  success <- closeTool tool ;;
  if negb success then ret None
  else
    o <- execFile goRuntimePath (getArgs tool) (Some env) ;;
    if includes (execStderr o) "unexpected directory layout:" then
      emit (AppendLine ("Installing " ++ name tool ++ " failed with error "
                        ++ quoted "unexpected directory layout" ++ ". Retrying...")) ;;;
      o2 <- execFile goRuntimePath (getArgs tool) (Some env) ;;
      callback tool o2
    else if isNull (execErr o) && modulesOnly host tool then
      let outputFile :=
        joinPath host [toolsGopath; "bin";
                       if win32 host then (name tool ++ ".exe")%string else name tool] in
      o2 <- execFile goRuntimePath
              ["build"; "-o"; outputFile; getImportPath host tool] (Some env) ;;
      callback tool o2
    else callback tool o.

(** [missing.reduce(...)] from the accumulator [sofar] on. *)
Fixpoint installAll (missing : list Tool) (sofar : list (option string))
  : M (list (option string)) :=
  match missing with
  | [] => ret sofar
  | tool :: missing' =>
      r <- installTool tool ;;
      installAll missing' (sofar ++ [r])
  end.

End Install.

(** [res.filter(x => x != null)] *)
Fixpoint failuresOf (res : list (option string)) : list string :=
  match res with
  | [] => []
  | Some failure :: res' => failure :: failuresOf res'
  | None :: res' => failuresOf res'
  end.

Definition allInstalled : string :=
  "All tools successfully installed. You're ready to Go :).".

Definition failedLine (n : nat) : string :=
  (numberText n ++ " tools failed to install." ++ String LF "")%string.

(** The [.then] chained on the reduction. *)
Definition summary (missing : list Tool) (res : list (option string)) : list Effect :=
  let failures := failuresOf res in
  AppendLine ""
  :: (if List.length failures =? 0 then
        (if containsString missing "go-langserver" || containsString missing "gopls"
         then [AppendLine "Reload VS Code window to use the Go language server"]
         else [])
        ++ [AppendLine allInstalled]
      else
        AppendLine (failedLine (List.length failures))
        :: flat_map
             (fun failure =>
                let reason := splitStr ";;" failure in
                [AppendLine (textOf (nth_error reason 0) ++ ":");
                 AppendLine (textOf (nth_error reason 1))])
             failures).

(** What [installTools] returned. *)
Inductive Returned : Type :=
| ReturnedUndefined
| PromiseResolved
| PromisePending.

Definition announce (host : Host) (toolsGopath : string) (missing : list Tool)
  : list Effect :=
  [OutputShow; OutputClear;
   AppendLine ("Installing " ++ numberText (List.length missing) ++ " "
               ++ (if 1 <? List.length missing then "tools" else "tool")
               ++ " at " ++ toolsGopath ++ sep host ++ "bin")]
  ++ map (fun missingTool => AppendLine ("  " ++ name missingTool)) missing
  ++ [AppendLine ""].

(** [installTools(missing, goVersion)]; [goVersion] is inside
    [getImportPath]. *)
Definition installTools (host : Host) (missing : option (list Tool))
    (outcomes : list ExecOutcome) : list Effect * Returned :=
  let goRuntimePath := getBinPath host "go" in
  if String.eqb goRuntimePath "" then
    ([ShowErrorMessage
        ("Failed to run " ++ quoted "go get" ++ " to install the packages as the "
         ++ quoted "go" ++ " binary cannot be found in either GOROOT("
         ++ textOf (GoLint.lookupEnv "GOROOT" (processEnv host))
         ++ ") or PATH(" ++ envPath host ++ ")")],
     ReturnedUndefined)
  else
    match missing with
    | None => ([], ReturnedUndefined)
    | Some missing =>
        match envForTools host with
        | None =>
            ([ShowInformationMessage
                "Cannot install Go tools. Set either go.gopath or go.toolsGopath in settings."
                ["Open User Settings"; "Open Workspace Settings"]],
             ReturnedUndefined)
        | Some (env, toolsGopath) =>
            match installAll host env goRuntimePath toolsGopath missing [] outcomes with
            | (effects, Some (res, _)) =>
                (announce host toolsGopath missing ++ effects ++ summary missing res,
                 PromiseResolved)
            | (effects, None) =>
                (announce host toolsGopath missing ++ effects, PromisePending)
            end
        end
    end.

(** *** [getMissingTools] and [promptForMissingTool] *)

Section MissingTool.
Variable host : Host.
(** [getTool], [getConfiguredTools(goVersion)] ([goTools.ts]) and
    [fs.exists]. *)
Variable getTool : string -> Tool.
Variable configuredTools : list Tool.
Variable fileExists : string -> bool.

(** [getMissingTools(goVersion)], resolved. *)
Definition getMissingTools : list Tool :=
  flat_map (fun x => match x with Some tool => [tool] | None => [] end)
    (map (fun tool =>
            if fileExists (getBinPath host (name tool)) then None else Some tool)
       configuredTools).

Inductive Call : Type :=
| InstallToolsCall (tools : list Tool)
| HideGoStatus.

(** The prompt on screen: the tool, the filtered [missing] its callback
    closes over, the message and the options. *)
Record Prompt : Type := mkPrompt {
  promptTool : Tool;
  promptMissing : list Tool;
  promptMessage : string;
  installOptions : list string
}.

(** [promptForMissingTool(toolName)] up to the message it shows, for the
    module-level [declinedInstalls]; [goVersionBelow9] is
    [lessThan(goVersion, 9)]. *)
Definition promptForMissingTool (declinedInstalls : list Tool) (goVersionBelow9 : bool)
    (toolName : string) : list Effect * option Prompt :=
  let tool := getTool toolName in
  if containsTool declinedInstalls tool then ([], None)
  else if goVersionBelow9 && String.eqb (name tool) "golint" then
    ([ShowInformationMessage
        "golint no longer supports go1.8, update your settings to use gometalinter as go.lintTool and install gometalinter"
        []], None)
  else if goVersionBelow9 && String.eqb (name tool) "gotests" then
    ([ShowInformationMessage
        "Generate unit tests feature is not supported as gotests tool needs go1.9 or higher."
        []], None)
  else
    let missing := getMissingTools in
    if negb (containsTool missing tool) then ([], None)
    else
      let missing := filter (fun x => Tool_eqb x tool || isImportant tool) missing in
      let installOptions :=
        "Install" :: (if (1 <? List.length missing) && modulesOnly host tool
                      then ["Install All"] else []) in
      let msg :=
        if String.eqb (name tool) "gocode-gomod" then
          ("To provide auto-completions when using Go modules, we are testing a fork("
           ++ getImportPath host tool ++ ") of " ++ quoted "gocode"
           ++ " and an updated version of " ++ quoted "gopkgs"
           ++ ". Please press the Install button to install them.")%string
        else
          ("The " ++ quoted (name tool) ++ " command is not available. Run "
           ++ quoted ("go get -v " ++ getImportPath host tool) ++ " to install.")%string in
      ([ShowInformationMessage msg installOptions],
       Some (mkPrompt tool missing msg installOptions)).

(** The callback of the prompt: the calls it makes and the new
    [declinedInstalls].  The cases of the [switch] fall through. *)
Definition missingToolSelected (prompt : Prompt) (selected : option string)
    (declinedInstalls : list Tool) : list Call * list Tool :=
  let tool := promptTool prompt in
  let install :=
    if String.eqb (name tool) "gocode-gomod"
    then [InstallToolsCall [tool; getTool "gopkgs"]]
    else [InstallToolsCall [tool]] in
  let installAll := [InstallToolsCall (promptMissing prompt); HideGoStatus] in
  let calls :=
    match selected with
    | Some sel =>
        if String.eqb sel "Install" then install ++ installAll
        else if String.eqb sel "Install All" then installAll
        else []
    | None => []
    end in
  (calls, declinedInstalls ++ [tool]).

End MissingTool.

(** *** [updateGoPathGoRootFromConfig] *)

Section GoEnvironment.
Variable host : Host.
(** [resolvePath] ([util.ts]) and [path.dirname]. *)
Variable resolvePath : string -> string.
Variable dirname : string -> string.

Definition isSome (o : option string) : bool :=
  match o with
  | Some _ => true
  | None => false
  end.

(** The name of the variable that holds the search path: [PATH], or [Path]
    on Windows when [PATH] is not a variable. *)
Definition pathEnvVar (env : list (string * string)) : option string :=
  if isSome (GoLint.lookupEnv "PATH" env) then Some "PATH"
  else if win32 host && isSome (GoLint.lookupEnv "Path" env) then Some "Path"
  else None.

(** The directory of the go binary is appended to the search path when
    it is not one of its entries. *)
Definition extendPath (goRuntimeBasePath : string) (env : list (string * string))
  : list (string * string) :=
  match pathEnvVar env with
  | Some var =>
      match GoLint.lookupEnv var env with
      | Some (String c p) =>
          if negb (String.eqb goRuntimeBasePath "")
             && negb (existsb (String.eqb goRuntimeBasePath)
                        (split (delimiter host) (String c p)))
          then GoLint.assignEnv var
                 (String c p ++ String (delimiter host) goRuntimeBasePath)%string env
          else env
      | _ => env
      end
  | None => env
  end.

Inductive EnvPromise : Type :=
| EnvUndefined
| EnvResolved
| EnvRejected
| EnvPending.

(** The callback of [go env GOPATH GOROOT] when it succeeded. *)
Definition goEnvAnswered (stdout : string) (env : list (string * string))
  : list (string * string) :=
  let envOutput := split LF stdout in
  let first := match nth_error envOutput 0 with Some l => trim l | None => "" end in
  let env :=
    if negb (truthy (GoLint.lookupEnv "GOPATH" env)) && negb (String.eqb first "")
    then GoLint.assignEnv "GOPATH" first env else env in
  match nth_error envOutput 1 with
  | Some (String c l) =>
      if negb (truthy (GoLint.lookupEnv "GOROOT" env))
         && negb (String.eqb (trim (String c l)) "")
      then GoLint.assignEnv "GOROOT" (trim (String c l)) env else env
  | _ => env
  end.

(** [updateGoPathGoRootFromConfig()] on the environment [env] of the
    process, for the [go.goroot] setting; [outcome] is what the callback of
    [go env] receives, if it is called.  The result is the new environment,
    what was shown or run, and the promise returned. *)
Definition updateGoPathGoRootFromConfig (goroot : option string)
    (env : list (string * string)) (outcome : option ExecOutcome)
  : list (string * string) * list Effect * EnvPromise :=
  let env :=
    match goroot with
    | Some (String c g) => GoLint.assignEnv "GOROOT" (resolvePath (String c g)) env
    | _ => env
    end in
  if truthy (GoLint.lookupEnv "GOPATH" env) && truthy (GoLint.lookupEnv "GOROOT" env)
  then (env, [], EnvResolved)
  else
    let goRuntimePath := getBinPath host "go" in
    if String.eqb goRuntimePath "" then
      (env,
       [ShowErrorMessage
          ("Failed to run " ++ quoted "go env" ++ " to find GOPATH as the "
           ++ quoted "go" ++ " binary cannot be found in either GOROOT("
           ++ textOf (GoLint.lookupEnv "GOROOT" env)
           ++ ") or PATH(" ++ envPath host ++ ")")],
       EnvUndefined)
    else
      let env := extendPath (dirname goRuntimePath) env in
      let effects := [ExecFile goRuntimePath ["env"; "GOPATH"; "GOROOT"] None] in
      match outcome with
      | None => (env, effects, EnvPending)
      | Some o =>
          match execErr o with
          | Some _ => (env, effects, EnvRejected)
          | None => (goEnvAnswered (execStdout o) env, effects, EnvResolved)
          end
      end.

End GoEnvironment.

(** *** [installAllTools] and [offerToInstallTools] *)

Section AllTools.
Variable host : Host.
Variable getTool : string -> Tool.
(** [getConfiguredTools(goVersion)] *)
Variable allTools : list Tool.

(** The quick-pick label of a tool. *)
Definition quickPickLabel (x : Tool) : string :=
  (name x ++ ": " ++ description x)%string.

(** [getTool(x.substr(0, x.indexOf(': ')))]; a negative length gives the
    empty string. *)
Definition toolOfLabel (x : string) : Tool :=
  getTool (match indexOfStr x ": " with
           | Some i => take i x
           | None => EmptyString
           end).

(** The tools the user has already installed. *)
Definition existingTools : list Tool :=
  filter (fun tool =>
            let toolPath := getBinPath host (name tool) in
            negb (String.eqb toolPath "") && isAbsolute host toolPath)
    allTools.

(** [installAllTools(updateExistingToolsOnly)] once the Go version is known:
    the labels offered in the quick pick, if it is shown, and the calls
    made; [selectedTools] is what the quick pick resolves with, [None] when
    it is dismissed. *)
Definition installAllTools (updateExistingToolsOnly : bool)
    (selectedTools : option (list string)) : option (list string) * list Call :=
  if updateExistingToolsOnly then (None, [InstallToolsCall existingTools])
  else
    (Some (map quickPickLabel allTools),
     match selectedTools with
     | None => []
     | Some selected => [InstallToolsCall (map toolOfLabel selected)]
     end).

End AllTools.

Inductive OfferEffect : Type :=
| GetGoVersion
| ShowGoStatus (missing : list Tool)
| SourcegraphPrompt.

(** [offerToInstallTools()] up to the request for the Go version, on the
    module-level [alreadyOfferedToInstallTools]: the new value of the flag
    and what is requested. *)
Definition offerToInstallTools (alreadyOfferedToInstallTools : bool)
  : bool * list OfferEffect :=
  if alreadyOfferedToInstallTools then (alreadyOfferedToInstallTools, [])
  else (true, [GetGoVersion]).

(** The callbacks of [getGoVersion()] and [getMissingTools(goVersion)];
    [serverTool] is [getToolFromToolPath(getLanguageServerToolPath())]. *)
Definition offerResolved (major minor : nat) (serverTool : string) (missing : list Tool)
  : list OfferEffect :=
  (if String.eqb serverTool "go-langserver"
      && ((1 <? major) || ((major =? 1) && (10 <? minor)))
   then [SourcegraphPrompt] else [])
  ++ (let missing := filter isImportant missing in
      if 0 <? List.length missing then [ShowGoStatus missing] else []).

(** Successive calls of [offerToInstallTools()]. *)
Fixpoint offerCalls (n : nat) (alreadyOfferedToInstallTools : bool)
  : bool * list OfferEffect :=
  match n with
  | O => (alreadyOfferedToInstallTools, [])
  | S n' =>
      let (flag, effects) := offerToInstallTools alreadyOfferedToInstallTools in
      let (flag', effects') := offerCalls n' flag in
      (flag', effects ++ effects')
  end.

End InstallTools.

(** ** [goRename.ts] *)

Module GoRename.

(** A string as its UTF-16 code units.  Lower-casing is not a map over code
    units (U+0130 lower-cases to two of them), so here a string is not cut
    down to code units below 256. *)
Definition CodeUnits : Type := list N.

Definition unitsEqb (a b : CodeUnits) : bool :=
  if list_eq_dec N.eq_dec a b then true else false.

Section Canonicalize.

(** [String.prototype.toLowerCase], as the engine has it. *)
Variable toLowerCase : CodeUnits -> CodeUnits.

(** [canonicalizeForWindows(filename)]; [gopath] is [process.env['GOPATH']].
    [s.substring(0, n)] is [firstn n s] and [s.slice(n)] is [skipn n s]. *)
Definition canonicalizeForWindows (gopath : option CodeUnits) (filename : CodeUnits)
  : CodeUnits :=
  match gopath with
  | Some (c :: g) =>
      let gopath := c :: g in
      if negb (unitsEqb (firstn (List.length gopath) (toLowerCase filename))
                 (toLowerCase gopath))
      then filename
      else gopath ++ skipn (List.length gopath) filename
  | _ => filename
  end.

End Canonicalize.

End GoRename.

(** ** [goGenerateTests.ts] *)

Module GoGenerateTests.
Import JsString.

(** [s.substr(0, i)], where [i] is the result of [lastIndexOf]: a negative
    length gives the empty string. *)
Definition substrTo (s : string) (i : option nat) : string :=
  match i with
  | Some n => take n s
  | None => EmptyString
  end.

(** [targetFilePath] of [toggleTestFile], for a path that ends in [.go]. *)
Definition targetFilePath (currentFilePath : string) : string :=
  if endsWith currentFilePath "_test.go"
  then (substrTo currentFilePath (lastIndexOf currentFilePath "_test.go") ++ ".go")%string
  else (substrTo currentFilePath (lastIndexOf currentFilePath ".go") ++ "_test.go")%string.

Inductive Toggled : Type :=
| ToggleMessage (text : string)
| OpenFile (path : string) (viewColumn : option nat).

(** [toggleTestFile()]: [activeEditor] is the file name of the active
    editor, [visibleTextEditors] the file names and view columns of the
    visible ones. *)
Definition toggleTestFile (activeEditor : option string)
    (visibleTextEditors : list (string * nat)) : Toggled :=
  match activeEditor with
  | None => ToggleMessage "Cannot toggle test file. No editor selected."
  | Some currentFilePath =>
      if negb (endsWith currentFilePath ".go") then
        ToggleMessage "Cannot toggle test file. File in the editor is not a Go file."
      else
        let target := targetFilePath currentFilePath in
        match find (fun doc => String.eqb (fst doc) target) visibleTextEditors with
        | Some doc => OpenFile target (Some (snd doc))
        | None => OpenFile target None
        end
  end.

Record Config : Type := mkConfig {
  dir : string;
  func : option string;
  isTestFile : bool
}.

(** The loop over [goGenerateTestsFlags]: [-w] and [all] are dropped, and
    [-only] together with the flag after it. *)
Fixpoint userFlags (goGenerateTestsFlags : list string) : list string :=
  match goGenerateTestsFlags with
  | [] => []
  | flag :: rest =>
      if String.eqb flag "-w" || String.eqb flag "all" then userFlags rest
      else if String.eqb flag "-only" then
        match rest with
        | [] => []
        | _ :: rest' => userFlags rest'
        end
      else flag :: userFlags rest
  end.

(** The argument array handed to [gotests]. *)
Definition testArgs (conf : Config) (generateTestsFlags : option (list string))
  : list string :=
  let flags := match generateTestsFlags with Some l => l | None => [] end in
  ["-w"] ++ userFlags flags
  ++ match func conf with
     | Some (String c f) => ["-only"; ("^" ++ String c f ++ "$")%string; dir conf]
     | _ => ["-all"; dir conf]
     end.

Definition generatedWord : string := "Generated ".

(** The message shown for the output of [gotests], and [testsGenerated]. *)
Definition generatedMessage (stdout : string) : string * bool :=
  if startsWith stdout generatedWord then
    let lines :=
      map (drop (String.length generatedWord))
        (filter (fun element => startsWith element generatedWord) (split LF stdout)) in
    (("Generated " ++ joinStr ", " lines)%string, true)
  else (stdout, false).

Inductive ExecOutcome : Type :=
| ExecSuccess (stdout : string)
| ExecENOENT
| ExecError (message : string).

Inductive Effect : Type :=
| ExecFile (cmd : string) (args : list string)
| AppendLine (text : string)
| Append (text : string)
| PromptForMissingTool (toolName : string)
| ConsoleLog (text : string)
| ShowInformationMessage (text : string)
| ToggleTestFile.

(** [generateTests(conf, goConfig)] once the callback of [gotests] ran;
    [cmd] is [getBinPath('gotests')]. *)
Definition generateTests (cmd : string) (conf : Config)
    (generateTestsFlags : option (list string)) (outcome : ExecOutcome)
  : list Effect * Promise bool :=
  let args := testArgs conf generateTestsFlags in
  let started :=
    [ExecFile cmd args;
     AppendLine ("Generating Tests: " ++ cmd ++ " " ++ joinStr " " args)] in
  match outcome with
  | ExecENOENT => (started ++ [PromptForMissingTool "gotests"], Resolved false)
  | ExecError message =>
      (started ++ [ConsoleLog message; AppendLine message],
       Rejected (ToolError "Cannot generate test due to errors"))
  | ExecSuccess stdout =>
      let (message, testsGenerated) := generatedMessage stdout in
      (started ++ [ShowInformationMessage message; Append message]
       ++ (if testsGenerated && negb (isTestFile conf) then [ToggleTestFile] else []),
       Resolved true)
  end.

End GoGenerateTests.

(** ** [goSuggest.ts] *)

Module GoSuggest.
Import JsString.

(** The class of the characters [.] and [-]. *)
Definition isSegmentSeparator (c : ascii) : bool :=
  (code c =? 46) || (code c =? 45).

(** [guessPackageName(dirName)]; [None] is [undefined]. *)
Definition guessPackageName (dirName : string) : option string :=
  let segments := splitBy isSegmentSeparator dirName in
  let segments := filter (fun val => negb (String.eqb val "go")) segments in
  lastOf segments.

Section PackageName.
(** [path.basename] and [path.dirname]. *)
Variable basename : string -> string.
Variable dirname : string -> string.

(** [defaultPackageName(filename)] *)
Definition defaultPackageName (filename : string) : string :=
  let goFilename := basename filename in
  if String.eqb goFilename "main.go" then "main"
  else if endsWith goFilename "internal_test.go" then basename (dirname filename)
  else if endsWith goFilename "_test.go" then (basename (dirname filename) ++ "_test")%string
  else basename (dirname filename).

(** A possibly-undefined value in a string concatenation. *)
Definition textOf (o : option string) : string :=
  match o with
  | Some t => t
  | None => "undefined"
  end.

(** [packageNameSuggestion(filename)], settled; [files] is what
    [readDir(dirname(filename))] settles with. *)
Definition packageNameSuggestion (filename : string) (files : Promise (list string))
  : Promise (option string) :=
  let goFilename := basename filename in
  if String.eqb goFilename "main.go" then Resolved (Some "main")
  else if endsWith goFilename "internal_test.go"
  then Resolved (guessPackageName (basename (dirname filename)))
  else if endsWith goFilename "_test.go"
  then Resolved (Some (textOf (guessPackageName (basename (dirname filename)))
                       ++ "_test")%string)
  else
    match files with
    | Resolved files =>
        if existsb (fun file => String.eqb file "main.go") files
        then Resolved (Some "main")
        else Resolved (guessPackageName (basename (dirname filename)))
    | Rejected err => Rejected err
    end.

End PackageName.

End GoSuggest.

(** * Properties *)

Import JsString GoTools.

(** ** Provider registration *)

Section Registration.
Import GoLanguageServer.

Lemma allFeatures_complete f : In f allFeatures.
Proof. destruct f; cbn; tauto. Qed.

Lemma if_same_zero (b : bool) : (if b then 0 else 0) = 0.
Proof. destruct b; reflexivity. Qed.

Lemma fallbackHandles_push f d s :
  fallbackHandles f (push d s)
  = fallbackHandles f s + (if isFallbackFor f d then 1 else 0).
Proof.
  unfold fallbackHandles, push; simpl.
  rewrite filter_app, length_app; simpl.
  destruct (isFallbackFor f d); reflexivity.
Qed.

Lemma fallbackHandles_registerFallback f g s :
  fallbackHandles f (registerFallback g s)
  = fallbackHandles f s + (if Feature_eqb f g then 1 else 0).
Proof. unfold registerFallback. apply fallbackHandles_push. Qed.

Lemma fallbackHandles_registerCompletionFallback f s :
  fallbackHandles f (registerCompletionFallback s)
  = fallbackHandles f s + (if Feature_eqb f Completion then 1 else 0).
Proof.
  unfold registerCompletionFallback.
  rewrite fallbackHandles_registerFallback, fallbackHandles_push; simpl.
  lia.
Qed.

Lemma fallbackHandles_when f b k n s :
  (forall s', fallbackHandles f (k s') = fallbackHandles f s' + n) ->
  fallbackHandles f (when b k s) = fallbackHandles f s + (if b then n else 0).
Proof.
  intros Hk. unfold when. destruct b; [apply Hk | lia].
Qed.

Lemma errorMessages_when b k s :
  (forall s', errorMessages (k s') = errorMessages s') ->
  errorMessages (when b k s) = errorMessages s.
Proof. intros Hk. unfold when. destruct b; [apply Hk | reflexivity]. Qed.

Lemma errorMessages_registerFallback g s :
  errorMessages (registerFallback g s) = errorMessages s.
Proof. reflexivity. Qed.

Lemma errorMessages_registerCompletionFallback s :
  errorMessages (registerCompletionFallback s) = errorMessages s.
Proof. reflexivity. Qed.

(** The pass of the ready handler, feature by feature: with a capability
    object present it adds one handle for [f] exactly when the extension has
    a provider for [f] and [f] is toggled off or not advertised. *)
Lemma onReady_fallbackHandles config caps s f :
  fallbackHandles f (onReady config (Some (mkInitializeResult (Some caps))) s)
  = fallbackHandles f s
    + (if hasFallbackProvider f && negb (toggle config f && advertises caps f)
       then 1 else 0).
Proof.
  unfold onReady, steps; cbn [capabilities fold_left].
  repeat (erewrite fallbackHandles_when;
          [ | intros; first [ apply fallbackHandles_registerCompletionFallback
                            | apply fallbackHandles_registerFallback ] ]).
  destruct f; cbn [Feature_eqb hasFallbackProvider toggle advertises andb];
    rewrite ?if_same_zero, ?Nat.add_0_r;
    try match goal with
        | |- context [negb ?a || negb ?b] => destruct a, b
        end; cbn [negb orb andb]; lia.
Qed.

Lemma onReady_errorMessages_present config caps s :
  errorMessages (onReady config (Some (mkInitializeResult (Some caps))) s)
  = errorMessages s.
Proof.
  unfold onReady, steps; cbn [capabilities fold_left].
  repeat (rewrite errorMessages_when;
          [ | intros; first [ apply errorMessages_registerCompletionFallback
                            | apply errorMessages_registerFallback ] ]).
  reflexivity.
Qed.

(** Sample configurations and capability sets. *)

Definition allFeaturesOn : Features :=
  mkFeatures true true true true true true true true true true true true true.

Definition configAllOn : LanguageServerConfig := mkConfig true [] allFeaturesOn.

Definition configFormatOff : LanguageServerConfig :=
  mkConfig true []
    (mkFeatures true true false true true true true true true true true true true).

Definition noCapabilities : ServerCapabilities :=
  mkCapabilities false false false false false false false false false false
    false false.

Definition fullCapabilities : ServerCapabilities :=
  mkCapabilities true true true true true true true true true true true true.

Definition ready (caps : ServerCapabilities) : option InitializeResult :=
  Some (mkInitializeResult (Some caps)).

(** C1 as stated fails: document links are enabled and not advertised, yet
    the ready handler registers no handle for them (the extension has no
    document-link provider of its own). *)
Lemma documentLink_enabled_unadvertised_no_fallback :
  toggle configAllOn DocumentLink = true
  /\ advertises noCapabilities DocumentLink = false
  /\ fallbackHandles DocumentLink (onReady configAllOn (ready noCapabilities) emptySession) = 0.
Proof. repeat split. Qed.

(** C1, amended: for an enabled feature and a capability object present,
    the ready handler registers no handle of the extension's own provider
    when the capabilities include the feature, and exactly one when they do
    not and the extension has a provider for it (every feature but
    diagnostics and document links, for which it registers none). *)
Theorem onReady_enabled_feature :
  forall config caps s f,
    toggle config f = true ->
    (advertises caps f = true ->
     fallbackHandles f (onReady config (ready caps) s) = fallbackHandles f s)
    /\ (advertises caps f = false -> hasFallbackProvider f = true ->
        fallbackHandles f (onReady config (ready caps) s) = fallbackHandles f s + 1)
    /\ (hasFallbackProvider f = false ->
        fallbackHandles f (onReady config (ready caps) s) = fallbackHandles f s).
Proof.
  intros config caps s f Hon. unfold ready.
  rewrite onReady_fallbackHandles, Hon.
  repeat split; intros; repeat match goal with H : _ = _ |- _ => rewrite H end;
    cbn [andb negb]; rewrite ?andb_false_r; lia.
Qed.

Lemma onReady_enabled_feature_witness :
  (advertises fullCapabilities Hover = true ->
   fallbackHandles Hover (onReady configAllOn (ready fullCapabilities) emptySession)
   = fallbackHandles Hover emptySession)
  /\ (advertises fullCapabilities Hover = false -> hasFallbackProvider Hover = true ->
      fallbackHandles Hover (onReady configAllOn (ready fullCapabilities) emptySession)
      = fallbackHandles Hover emptySession + 1)
  /\ (hasFallbackProvider Hover = false ->
      fallbackHandles Hover (onReady configAllOn (ready fullCapabilities) emptySession)
      = fallbackHandles Hover emptySession).
Proof.
  apply (onReady_enabled_feature configAllOn fullCapabilities emptySession Hover).
  reflexivity.
Defined.

(** C2 as stated fails: formatting is toggled off and the server advertises
    it, yet the ready handler registers the extension's own formatting
    provider; the middleware answers the server-routed request with the
    empty array. *)
Lemma format_off_registers_fallback :
  toggle configFormatOff Format = false
  /\ fallbackHandles Format (onReady configFormatOff (ready fullCapabilities) emptySession) = 1
  /\ middleware configFormatOff tt Format = Answered EmptyArray.
Proof. repeat split. Qed.

(** What the middleware entry of each feature returns when the feature is
    toggled off: the empty array for formatting, completion, references and
    the two kinds of symbols, null for the others. *)
Definition noOpOf (f : Feature) : NoOp :=
  match f with
  | Completion | Format | References | DocumentSymbols | WorkspaceSymbols => EmptyArray
  | Diagnostics | Definition_ | TypeDefinition | Hover | Rename | SignatureHelp
  | Implementation | DocumentLink => Null
  end.

(** Whether the middleware hands requests for [f] on to the server. *)
Definition forwards (config : LanguageServerConfig) (f : Feature) : bool :=
  match middleware config tt f with
  | Forwarded _ => true
  | Answered _ => false
  end.

Lemma middleware_toggle {R : Type} config (next : R) f :
  middleware config next f
  = if toggle config f then Forwarded next else Answered (noOpOf f).
Proof.
  destruct f; cbn [middleware toggle noOpOf];
    unfold provideCompletionItem, handleDiagnostics,
      provideDocumentFormattingEdits, provideDefinition, provideTypeDefinition,
      provideHover, provideReferences, provideRenameEdits, provideSignatureHelp,
      provideDocumentSymbols, provideWorkspaceSymbols, provideImplementation,
      provideDocumentLinks, guarded;
    match goal with |- context [negb ?b] => destruct b end; reflexivity.
Qed.

(** C2, amended: for a feature that is toggled off the middleware answers
    the request itself, with the empty array or null as the feature's entry
    has it, and never forwards it; for a feature that is toggled on it
    forwards the request to the server.  The ready handler (capabilities
    present) registers exactly one handle of the extension's own provider
    for a toggled-off feature that has one.  And every feature with such a
    provider has exactly one answering path: either its requests are
    forwarded and the server advertises it, and no handle is registered, or
    one handle is registered; never both, never neither. *)
Theorem toggled_off_feature :
  forall config f,
    (toggle config f = false ->
     (forall (R : Type) (next : R), middleware config next f = Answered (noOpOf f))
     /\ (forall caps s, hasFallbackProvider f = true ->
         fallbackHandles f (onReady config (ready caps) s) = fallbackHandles f s + 1))
    /\ (toggle config f = true ->
        forall (R : Type) (next : R), middleware config next f = Forwarded next)
    /\ (forall caps s,
          hasFallbackProvider f = true ->
          (forwards config f && advertises caps f = true
           /\ fallbackHandles f (onReady config (ready caps) s) = fallbackHandles f s)
          \/ (forwards config f && advertises caps f = false
              /\ fallbackHandles f (onReady config (ready caps) s)
                 = fallbackHandles f s + 1)).
Proof.
  intros config f. split; [ | split ].
  - intros Hoff. split.
    + intros R next. now rewrite middleware_toggle, Hoff.
    + intros caps s Hfb. unfold ready.
      rewrite onReady_fallbackHandles, Hoff, Hfb. reflexivity.
  - intros Hon R next. now rewrite middleware_toggle, Hon.
  - intros caps s Hfb. unfold ready, forwards.
    rewrite onReady_fallbackHandles, Hfb, middleware_toggle.
    destruct (toggle config f), (advertises caps f); cbn [andb negb];
      [ left | right | right | right ]; split; try reflexivity; lia.
Qed.

Lemma toggled_off_feature_witness :
  middleware configFormatOff tt Format = Answered EmptyArray
  /\ fallbackHandles Format (onReady configFormatOff (ready fullCapabilities) emptySession)
     = fallbackHandles Format emptySession + 1
  /\ middleware configFormatOff tt Hover = Forwarded tt
  /\ (forwards configFormatOff Hover && advertises fullCapabilities Hover = true
      /\ fallbackHandles Hover (onReady configFormatOff (ready fullCapabilities) emptySession)
         = fallbackHandles Hover emptySession).
Proof.
  destruct (toggled_off_feature configFormatOff Format) as (Hoff & _ & _).
  destruct (Hoff eq_refl) as (Hanswer & Hhandle).
  destruct (toggled_off_feature configFormatOff Hover) as (_ & Hon & Hpath).
  split; [ exact (Hanswer unit tt) | ].
  split; [ exact (Hhandle fullCapabilities emptySession eq_refl) | ].
  split; [ exact (Hon eq_refl unit tt) | ].
  destruct (Hpath fullCapabilities emptySession eq_refl) as [ Hserver | [Hnone _] ].
  - exact Hserver.
  - discriminate Hnone.
Defined.

(** C3 as stated fails at both inputs.  With the capabilities absent the
    error is shown and the handler returns before it registers anything, so
    completion is not left with the extension's provider.  With a capability
    object that is present and empty nothing is shown. *)
Lemma absent_or_empty_capabilities :
  (errorMessages (onReady configAllOn None emptySession) = [noCapabilitiesMessage]
   /\ fallbackHandles Completion (onReady configAllOn None emptySession) = 0)
  /\ errorMessages (onReady configAllOn (ready noCapabilities) emptySession) = [].
Proof. repeat split. Qed.

(** C3, amended: when the server is ready and its capabilities are absent,
    one error message is shown; when the capability object is present and
    empty, no message is shown and every feature for which the extension has
    a provider of its own is left with exactly that provider registered. *)
Theorem onReady_absent_or_empty :
  forall config s,
    errorMessages (onReady config None s) = errorMessages s ++ [noCapabilitiesMessage]
    /\ errorMessages (onReady config (Some (mkInitializeResult None)) s)
       = errorMessages s ++ [noCapabilitiesMessage]
    /\ errorMessages (onReady config (ready noCapabilities) s) = errorMessages s
    /\ (forall f, hasFallbackProvider f = true ->
        fallbackHandles f (onReady config (ready noCapabilities) s)
        = fallbackHandles f s + 1).
Proof.
  intros config s. repeat split.
  - apply onReady_errorMessages_present.
  - intros f Hfb. unfold ready.
    rewrite onReady_fallbackHandles, Hfb.
    replace (advertises noCapabilities f) with false by (destruct f; reflexivity).
    rewrite andb_false_r. reflexivity.
Qed.

Lemma onReady_absent_or_empty_witness :
  errorMessages (onReady configAllOn None emptySession) = [noCapabilitiesMessage]
  /\ errorMessages (onReady configAllOn (ready noCapabilities) emptySession) = []
  /\ fallbackHandles Rename (onReady configAllOn (ready noCapabilities) emptySession) = 1.
Proof.
  destruct (onReady_absent_or_empty configAllOn emptySession)
    as (Habsent & _ & Hempty & Hfallback).
  split; [ exact Habsent | split; [ exact Hempty | ] ].
  apply (Hfallback Rename). reflexivity.
Defined.

Lemma registerUsualProviders_fallbackHandles f s :
  fallbackHandles f (registerUsualProviders s)
  = fallbackHandles f s + (if hasFallbackProvider f then 1 else 0).
Proof.
  unfold registerUsualProviders, steps; cbn [fold_left].
  rewrite fallbackHandles_push, !fallbackHandles_registerFallback,
    fallbackHandles_registerCompletionFallback.
  destruct f; cbn [Feature_eqb hasFallbackProvider isFallbackFor]; lia.
Qed.

(** X1.  With the language server disabled, every feature for which the
    extension has a provider of its own gets exactly one handle, whatever
    the toggles say, and no server is started. *)
Theorem server_disabled_registers_every_fallback :
  forall env goConfig path tool initializeResult,
    useLanguageServer goConfig = false ->
    exists activation,
      registerLanguageFeatures env goConfig path tool initializeResult emptySession
      = Resolved activation
      /\ promptedForUpdate activation = false
      /\ (forall f, fallbackHandles f (session activation)
                    = if hasFallbackProvider f then 1 else 0)
      /\ (forall h, ~ In (ServerDisposable h) (subscriptions (session activation))).
Proof.
  intros env goConfig path tool initializeResult Hoff.
  unfold registerLanguageFeatures, parseLanguageServerConfig.
  cbn [enabled]. rewrite Hoff. cbn [negb].
  eexists. split; [ reflexivity | ]. cbn [session promptedForUpdate].
  repeat split.
  - intros f. rewrite registerUsualProviders_fallbackHandles.
    rewrite fallbackHandles_push. reflexivity.
  - intros h. cbn. intuition discriminate.
Qed.

Definition serverOff : GoConfig :=
  mkGoConfig false None
    (mkExperimentalFeatures true true true true true true true true true true
       true true true).

Lemma server_disabled_registers_every_fallback_witness :
  exists activation,
    registerLanguageFeatures (mkEnvironment (fun _ _ => ExecFailed)
                                (fun _ => Rejected (NetworkError "offline")))
      serverOff "" gopls None emptySession
    = Resolved activation
    /\ promptedForUpdate activation = false
    /\ (forall f, fallbackHandles f (session activation)
                  = if hasFallbackProvider f then 1 else 0)
    /\ (forall h, ~ In (ServerDisposable h) (subscriptions (session activation))).
Proof.
  apply (server_disabled_registers_every_fallback
           (mkEnvironment (fun _ _ => ExecFailed) (fun _ => Rejected (NetworkError "offline")))
           serverOff "" gopls None).
  reflexivity.
Defined.

End Registration.

(** ** The restart command *)

Section Restart.
Import GoLanguageServer.

Lemma removeFirst_length i l :
  existsb (Nat.eqb i) l = true -> S (List.length (removeFirst i l)) = List.length l.
Proof.
  induction l as [ | x l IH ]; cbn; [ discriminate | ].
  rewrite Nat.eqb_sym.
  destruct (x =? i); cbn; intros H; [ reflexivity | now rewrite IH ].
Qed.

(** What one event does to the counters. *)
Lemma restartStep_counts b e :
  live b = [languageServerDisposable b] ->
  let b' := restartStep b e in
  live b' = [languageServerDisposable b']
  /\ stopCalls b' = stopCalls b + (if isInvoke e then 1 else 0)
  /\ startCalls b' + List.length (completed b) = startCalls b + List.length (completed b')
  /\ List.length (suspended b') + List.length (completed b') + List.length (failed b')
     = List.length (suspended b) + List.length (completed b) + List.length (failed b)
       + (if isInvoke e then 1 else 0).
Proof.
  intros Hlive. destruct e as [ i | i | i ]; cbn.
  - rewrite length_app; cbn. repeat split; try assumption; lia.
  - destruct (existsb (Nat.eqb i) (suspended b)) eqn:Hin; cbn.
    + rewrite Hlive; cbn. rewrite Nat.eqb_refl; cbn.
      rewrite length_app; cbn.
      pose proof (removeFirst_length i (suspended b) Hin).
      repeat split; lia.
    + repeat split; try assumption; lia.
  - destruct (existsb (Nat.eqb i) (suspended b)) eqn:Hin; cbn.
    + rewrite length_app; cbn.
      pose proof (removeFirst_length i (suspended b) Hin).
      repeat split; try assumption; lia.
    + repeat split; try assumption; lia.
Qed.

Lemma restartRun_counts es :
  forall b,
    live b = [languageServerDisposable b] ->
    let b' := restartRun es b in
    live b' = [languageServerDisposable b']
    /\ stopCalls b' = stopCalls b + invocations es
    /\ startCalls b' + List.length (completed b) = startCalls b + List.length (completed b')
    /\ List.length (suspended b') + List.length (completed b') + List.length (failed b')
       = List.length (suspended b) + List.length (completed b) + List.length (failed b)
         + invocations es.
Proof.
  induction es as [ | e es IH ]; intros b Hlive.
  - cbn. repeat split; try assumption; lia.
  - destruct (restartStep_counts b e Hlive) as (H1 & H2 & H3 & H4).
    destruct (IH (restartStep b e) H1) as (K1 & K2 & K3 & K4).
    unfold restartRun in *; cbn [fold_left].
    unfold invocations in *; cbn [filter].
    destruct (isInvoke e); cbn [List.length]; repeat split; try assumption; lia.
Qed.

(** What the rest of the handler does once [c.stop()] is fulfilled: it
    disposes the disposable the variable holds and starts the client. *)
Lemma restartStep_resumes b i :
  live b = [languageServerDisposable b] ->
  existsb (Nat.eqb i) (suspended b) = true ->
  let r := restartStep b (StopSettled i) in
  startCalls r = S (startCalls b)
  /\ languageServerDisposable r = S (startCalls b)
  /\ live r = [S (startCalls b)]
  /\ completed r = completed b ++ [i]
  /\ bridgeSubscriptions r
     = bridgeSubscriptions b ++ [ServerDisposable (S (startCalls b))].
Proof.
  intros Hlive Hin. cbn. rewrite Hin. cbn. rewrite Hlive. cbn.
  rewrite Nat.eqb_refl. cbn. repeat split.
Qed.

(** What it does when [c.stop()] is rejected: nothing. *)
Lemma restartStep_aborts b i :
  existsb (Nat.eqb i) (suspended b) = true ->
  let r := restartStep b (StopRejected i) in
  startCalls r = startCalls b
  /\ languageServerDisposable r = languageServerDisposable b
  /\ live r = live b
  /\ completed r = completed b
  /\ failed r = failed b ++ [i]
  /\ bridgeSubscriptions r = bridgeSubscriptions b.
Proof. intros Hin. cbn. rewrite Hin. cbn. repeat split. Qed.

Lemma existsb_last i l : existsb (Nat.eqb i) (l ++ [i]) = true.
Proof. rewrite existsb_app. cbn. now rewrite Nat.eqb_refl, orb_true_r. Qed.

(** C4 as stated fails: the second run of the handler is issued while the
    first is suspended in [await c.stop()]; it calls [c.stop()] at once, and
    when both have resumed [c.start()] has been called once by each. *)
Lemma overlapping_restarts_start_twice :
  suspended (restartRun [Invoke 1; Invoke 2] initialBridge) = [1; 2]
  /\ stopCalls (restartRun [Invoke 1; Invoke 2] initialBridge) = 2
  /\ startCalls (restartRun [Invoke 1; Invoke 2; StopSettled 1; StopSettled 2] initialBridge)
     = startCalls initialBridge + 2
  /\ completed (restartRun [Invoke 1; Invoke 2; StopSettled 1; StopSettled 2] initialBridge)
     = [1; 2].
Proof. repeat split. Qed.

(** Two runs of the handler that overlap, in both orders of resumption. *)
Definition overlapping (first : bool) : list RestartEvent :=
  if first
  then [Invoke 1; Invoke 2; StopSettled 1; StopSettled 2]
  else [Invoke 1; Invoke 2; StopSettled 2; StopSettled 1].

(** C4, amended: restarts are not serialized.  Every invocation calls
    [c.stop()] when it is issued.  When that call is fulfilled, the run
    disposes the disposable [languageServerDisposable] holds, calls
    [c.start()] once and keeps the new disposable; when it is rejected, the
    run ends without disposing or starting anything.  So under every
    interleaving [c.start()] has been called once for each run that resumed,
    every invocation is suspended, resumed or failed, and exactly one
    started handle is undisposed, the one [languageServerDisposable] holds;
    two overlapping invocations that both resume call [c.start()] twice. *)
Theorem restart_every_invocation_starts :
  forall es b,
    live b = [languageServerDisposable b] ->
    let b' := restartRun es b in
    live b' = [languageServerDisposable b']
    /\ stopCalls b' = stopCalls b + invocations es
    /\ startCalls b' + List.length (completed b) = startCalls b + List.length (completed b')
    /\ List.length (suspended b') + List.length (completed b') + List.length (failed b')
       = List.length (suspended b) + List.length (completed b) + List.length (failed b)
         + invocations es
    /\ (forall i,
          existsb (Nat.eqb i) (suspended b') = true ->
          let r := restartStep b' (StopSettled i) in
          startCalls r = S (startCalls b')
          /\ languageServerDisposable r = S (startCalls b')
          /\ live r = [S (startCalls b')]
          /\ completed r = completed b' ++ [i]
          /\ bridgeSubscriptions r
             = bridgeSubscriptions b' ++ [ServerDisposable (S (startCalls b'))])
    /\ (forall i,
          existsb (Nat.eqb i) (suspended b') = true ->
          let r := restartStep b' (StopRejected i) in
          startCalls r = startCalls b'
          /\ languageServerDisposable r = languageServerDisposable b'
          /\ live r = live b'
          /\ completed r = completed b'
          /\ failed r = failed b' ++ [i]
          /\ bridgeSubscriptions r = bridgeSubscriptions b')
    /\ (forall first,
          startCalls (restartRun (overlapping first) b') = startCalls b' + 2
          /\ stopCalls (restartRun (overlapping first) b') = stopCalls b' + 2
          /\ live (restartRun (overlapping first) b') = [startCalls b' + 2]
          /\ languageServerDisposable (restartRun (overlapping first) b')
             = startCalls b' + 2).
Proof.
  intros es b Hlive b'.
  destruct (restartRun_counts es b Hlive) as (H1 & H2 & H3 & H4).
  fold b' in H1, H2, H3, H4.
  split; [ exact H1 | ]. split; [ exact H2 | ]. split; [ exact H3 | ].
  split; [ exact H4 | ]. split; [ | split ].
  - intros i Hin. now apply restartStep_resumes.
  - intros i Hin. now apply restartStep_aborts.
  - intros first.
    set (b1 := restartStep b' (Invoke 1)).
    set (b2 := restartStep b1 (Invoke 2)).
    assert (L1 : live b1 = [languageServerDisposable b1]) by exact H1.
    assert (L2 : live b2 = [languageServerDisposable b2]) by exact H1.
    assert (S2 : suspended b2 = (suspended b' ++ [1]) ++ [2]) by reflexivity.
    assert (C2 : startCalls b2 = startCalls b' /\ stopCalls b2 = stopCalls b' + 2)
      by (cbn; lia).
    destruct C2 as [C2 C2'].
    destruct first; cbn [overlapping restartRun fold_left]; fold b1; fold b2.
    + assert (I1 : existsb (Nat.eqb 1) (suspended b2) = true).
      { rewrite S2, existsb_app, existsb_last. reflexivity. }
      destruct (restartStep_resumes b2 1 L2 I1) as (A1 & A2 & A3 & _).
      set (b3 := restartStep b2 (StopSettled 1)) in *.
      assert (L3 : live b3 = [languageServerDisposable b3]) by now rewrite A2, A3.
      assert (I2 : existsb (Nat.eqb 2) (suspended b3) = true).
      { subst b3. cbn [restartStep]. rewrite I1. cbn [restartResume suspended
          startAndSubscribe start dispose]. rewrite S2.
        rewrite existsb_exists. exists 2. split; [ | reflexivity ].
        clear. induction (suspended b') as [ | x l IH ]; cbn; [ now left | ].
        destruct (x =? 1); [ apply in_or_app; right; now left | now right ]. }
      destruct (restartStep_resumes b3 2 L3 I2) as (B1 & B2 & B3 & _).
      set (b4 := restartStep b3 (StopSettled 2)) in *.
      assert (St4 : stopCalls b4 = stopCalls b' + 2).
      { subst b4 b3. cbn [restartStep]. rewrite I1.
        cbn [restartResume stopCalls startAndSubscribe start dispose suspended].
        match goal with |- context [if ?c then _ else _] => destruct c end;
          cbn; exact C2'. }
      repeat split; try lia; try (rewrite B3; f_equal; lia); assumption.
    + assert (I2 : existsb (Nat.eqb 2) (suspended b2) = true).
      { rewrite S2. apply existsb_last. }
      destruct (restartStep_resumes b2 2 L2 I2) as (A1 & A2 & A3 & _).
      set (b3 := restartStep b2 (StopSettled 2)) in *.
      assert (L3 : live b3 = [languageServerDisposable b3]) by now rewrite A2, A3.
      assert (I1 : existsb (Nat.eqb 1) (suspended b3) = true).
      { subst b3. cbn [restartStep]. rewrite I2. cbn [restartResume suspended
          startAndSubscribe start dispose]. rewrite S2.
        rewrite existsb_exists. exists 1. split; [ | reflexivity ].
        clear. induction (suspended b') as [ | x l IH ]; cbn.
        - now left.
        - destruct (x =? 2); [ apply in_or_app; left; apply in_or_app; right; now left
                             | now right ]. }
      destruct (restartStep_resumes b3 1 L3 I1) as (B1 & B2 & B3 & _).
      set (b4 := restartStep b3 (StopSettled 1)) in *.
      assert (St4 : stopCalls b4 = stopCalls b' + 2).
      { subst b4 b3. cbn [restartStep]. rewrite I2.
        cbn [restartResume stopCalls startAndSubscribe start dispose suspended].
        match goal with |- context [if ?c then _ else _] => destruct c end;
          cbn; exact C2'. }
      repeat split; try lia; try (rewrite B3; f_equal; lia); assumption.
Qed.

Lemma restart_every_invocation_starts_witness :
  startCalls (restartStep (restartRun [Invoke 1; Invoke 2] initialBridge) (StopSettled 1))
  = S (startCalls (restartRun [Invoke 1; Invoke 2] initialBridge))
  /\ live (restartStep (restartRun [Invoke 1; Invoke 2] initialBridge) (StopSettled 1))
     = [2]
  /\ startCalls (restartStep (restartRun [Invoke 1; Invoke 2] initialBridge)
                   (StopRejected 2))
     = startCalls (restartRun [Invoke 1; Invoke 2] initialBridge)
  /\ startCalls (restartRun (overlapping false) initialBridge) = 3.
Proof.
  destruct (restart_every_invocation_starts [Invoke 1; Invoke 2] initialBridge eq_refl)
    as (_ & _ & _ & _ & Hresume & Habort & _).
  destruct (restart_every_invocation_starts [] initialBridge eq_refl)
    as (_ & _ & _ & _ & _ & _ & Hboth).
  destruct (Hresume 1 eq_refl) as (Hstart & _ & Hlive & _).
  destruct (Habort 2 eq_refl) as (Hsame & _).
  destruct (Hboth false) as (Htwice & _).
  split; [ exact Hstart | split; [ exact Hlive | split; [ exact Hsame | exact Htwice ] ] ].
Defined.

End Restart.

(** ** Strings *)

Section Strings.

Lemma split_not_nil sep s : split sep s <> [].
Proof.
  destruct s as [ | c s ]; cbn; [ discriminate | ].
  destruct (Ascii.eqb c sep); [ discriminate | ].
  destruct (split sep s); discriminate.
Qed.

Lemma split_length_pos sep s : 1 <= List.length (split sep s).
Proof.
  pose proof (split_not_nil sep s).
  destruct (split sep s); [ contradiction | cbn; lia ].
Qed.

Lemma span_fst_forallb p s a b :
  span p s = (a, b) -> JsString.forallb p a = true.
Proof.
  revert a b. induction s as [ | c s IH ]; cbn; intros a b H.
  - now inversion H.
  - destruct (p c) eqn:Hc.
    + destruct (span p s) as [a' b'] eqn:Hs. inversion H; subst; cbn.
      rewrite Hc. now apply (IH a' b).
    + now inversion H.
Qed.

Lemma span_snd_forallb q p s a b :
  span p s = (a, b) -> JsString.forallb q s = true -> JsString.forallb q b = true.
Proof.
  revert a b. induction s as [ | c s IH ]; cbn; intros a b H Hq.
  - now inversion H.
  - apply andb_prop in Hq as [Hc Hq].
    destruct (p c).
    + destruct (span p s) as [a' b'] eqn:Hs. inversion H; subst.
      now apply (IH a' b).
    + inversion H; subst; cbn. now rewrite Hc, Hq.
Qed.

Lemma forallb_append q a b :
  JsString.forallb q (a ++ b)%string = JsString.forallb q a && JsString.forallb q b.
Proof.
  induction a as [ | c a IH ]; cbn; [ reflexivity | ].
  now rewrite IH, andb_assoc.
Qed.

Lemma forallb_weaken (p q : ascii -> bool) s :
  (forall c, p c = true -> q c = true) ->
  JsString.forallb p s = true -> JsString.forallb q s = true.
Proof.
  intros Hpq. induction s as [ | c s IH ]; cbn; [ reflexivity | ].
  intros H. apply andb_prop in H as [Hc Hs]. now rewrite (Hpq c Hc), IH.
Qed.

End Strings.

(** ** The order of coerced versions *)

Section Versions.
Import Semver.

Definition digitOrDot (c : ascii) : bool := isDigit c || Ascii.eqb c dot.

Lemma digitOrDot_not_hyphen c : digitOrDot c = true -> Ascii.eqb c hyphen = false.
Proof.
  unfold digitOrDot, isDigit, dot, hyphen.
  destruct (Ascii.eqb_spec c (ascii_of_nat 45)) as [-> | ]; [ | reflexivity ].
  cbn. discriminate.
Qed.

Lemma digitOrDot_not_plus c : digitOrDot c = true -> Ascii.eqb c plus = false.
Proof.
  unfold digitOrDot, isDigit, dot, plus.
  destruct (Ascii.eqb_spec c (ascii_of_nat 43)) as [-> | ]; [ | reflexivity ].
  cbn. discriminate.
Qed.

Lemma parseTail_digitOrDot s pre b :
  JsString.forallb digitOrDot s = true ->
  parseTail s = Some (pre, b) -> pre = [] /\ b = [].
Proof.
  destruct s as [ | c s ]; cbn [JsString.forallb parseTail].
  - intros _ H. now inversion H.
  - intros H. pose proof H as H'. apply andb_prop in H as [Hc _].
    rewrite (digitOrDot_not_hyphen c Hc).
    unfold parseBuild. rewrite (digitOrDot_not_plus c Hc).
    discriminate.
Qed.

Lemma parseComponent_digitOrDot s n r :
  JsString.forallb digitOrDot s = true ->
  parseComponent s = Some (n, r) -> JsString.forallb digitOrDot r = true.
Proof.
  unfold parseComponent. intros Hs.
  destruct (span isDigit s) as [ds rest] eqn:Hspan.
  destruct (numericIdentifier ds); [ | discriminate ].
  intros H. inversion H; subst. now apply (span_snd_forallb _ _ _ _ _ Hspan).
Qed.

Lemma expectDot_digitOrDot s r :
  JsString.forallb digitOrDot s = true ->
  expectDot s = Some r -> JsString.forallb digitOrDot r = true.
Proof.
  destruct s as [ | c s ]; cbn [JsString.forallb expectDot];
    [ intros _ H; discriminate H | ].
  intros H. apply andb_prop in H as [_ Hs].
  destruct (Ascii.eqb c dot); [ | discriminate ].
  intros K. now inversion K; subst.
Qed.

(** A string of digits and dots that matches FULL has neither prerelease
    nor build identifiers. *)
Lemma matchFull_digitOrDot s v :
  JsString.forallb digitOrDot s = true ->
  matchFull s = Some v -> prerelease v = [] /\ build v = [].
Proof.
  intros Hs. unfold matchFull.
  assert (H0 : JsString.forallb digitOrDot
                 match s with
                 | String c s' => if code c =? 118 then s' else s
                 | EmptyString => s
                 end = true).
  { destruct s as [ | c s' ]; [ reflexivity | ].
    destruct (code c =? 118); [ | assumption ].
    cbn in Hs. now apply andb_prop in Hs as [_ Hs]. }
  revert H0. generalize (match s with
                         | String c s' => if code c =? 118 then s' else s
                         | EmptyString => s
                         end). clear s Hs. intros s Hs.
  destruct (parseComponent s) as [ [ma r1] | ] eqn:E1; [ | discriminate ].
  apply (parseComponent_digitOrDot _ _ _ Hs) in E1.
  destruct (expectDot r1) as [ r1' | ] eqn:E2; [ | discriminate ].
  apply (expectDot_digitOrDot _ _ E1) in E2.
  destruct (parseComponent r1') as [ [mi r2] | ] eqn:E3; [ | discriminate ].
  apply (parseComponent_digitOrDot _ _ _ E2) in E3.
  destruct (expectDot r2) as [ r2' | ] eqn:E4; [ | discriminate ].
  apply (expectDot_digitOrDot _ _ E3) in E4.
  destruct (parseComponent r2') as [ [pa r3] | ] eqn:E5; [ | discriminate ].
  apply (parseComponent_digitOrDot _ _ _ E4) in E5.
  destruct (parseTail r3) as [ [pre b] | ] eqn:E6; [ | discriminate ].
  apply (parseTail_digitOrDot _ _ _ E5) in E6 as [-> ->].
  intros H. inversion H; subst. now split.
Qed.

Lemma digitRun_digits s m r :
  digitRun s = Some (m, r) -> JsString.forallb digitOrDot m = true.
Proof.
  unfold digitRun. destruct (span isDigit s) as [ds rest] eqn:Hspan.
  destruct ((1 <=? String.length ds) && (String.length ds <=? MAX_SAFE_COMPONENT_LENGTH));
    [ | discriminate ].
  intros H. inversion H; subst.
  apply (forallb_weaken isDigit).
  - intros c Hc. unfold digitOrDot. now rewrite Hc.
  - now apply (span_fst_forallb _ _ _ _ Hspan).
Qed.

Lemma dotGroup_digits s m r :
  dotGroup s = Some (m, r) -> JsString.forallb digitOrDot m = true.
Proof.
  destruct s as [ | c s ]; cbn [dotGroup]; [ discriminate | ].
  destruct (Ascii.eqb c dot); [ apply digitRun_digits | discriminate ].
Qed.

Lemma coerceSearch_digits skipping s m r :
  coerceSearch skipping s = Some (m, r) -> JsString.forallb digitOrDot m = true.
Proof.
  revert skipping. induction s as [ | c s IH ]; cbn [coerceSearch]; intros skipping;
    [ discriminate | ].
  destruct (isDigit c); [ | apply IH ].
  destruct skipping; [ apply IH | ].
  destruct (digitRun (String c s)) as [ [m' r'] | ] eqn:E; [ | apply IH ].
  intros H. inversion H; subst. now apply (digitRun_digits _ _ _ E).
Qed.

Lemma coerceMatch_digits s m1 m2 m3 :
  coerceMatch s = Some (m1, m2, m3) ->
  JsString.forallb digitOrDot (m1 ++ "." ++ m2 ++ "." ++ m3)%string = true.
Proof.
  unfold coerceMatch.
  destruct (coerceSearch false s) as [ [a r1] | ] eqn:E1; [ | discriminate ].
  apply coerceSearch_digits in E1.
  destruct (dotGroup r1) as [ [b r2] | ] eqn:E2.
  - apply dotGroup_digits in E2.
    destruct (dotGroup r2) as [ [c r3] | ] eqn:E3.
    + apply dotGroup_digits in E3.
      intros H. inversion H; subst.
      rewrite !forallb_append, E1, E2, E3. reflexivity.
    + intros H. inversion H; subst.
      rewrite !forallb_append, E1, E2. reflexivity.
  - intros H. inversion H; subst.
    rewrite !forallb_append, E1. reflexivity.
Qed.

(** [coerce] drops prerelease and build identifiers. *)
Lemma coerce_plain s v : coerce s = Some v -> prerelease v = [] /\ build v = [].
Proof.
  unfold coerce, parse.
  destruct (coerceMatch s) as [ [ [m1 m2] m3] | ] eqn:E; [ | discriminate ].
  apply coerceMatch_digits in E.
  destruct (MAX_LENGTH <? _); [ discriminate | ].
  destruct (matchFull (m1 ++ "." ++ m2 ++ "." ++ m3)) as [ w | ] eqn:Hm; [ | discriminate ].
  destruct (rangeError w); [ discriminate | ].
  intros H. inversion H; subst. now apply (matchFull_digitOrDot _ _ E Hm).
Qed.

Definition plain (v : SemVer) : Prop := prerelease v = [].















Lemma allSome_coerce_plain ss vs :
  allSome (List.map coerce ss) = Some vs -> Forall plain vs.
Proof.
  revert vs. induction ss as [ | s ss IH ]; cbn; intros vs H.
  - inversion H. constructor.
  - destruct (coerce s) as [ v | ] eqn:Hv; [ | discriminate ].
    destruct (allSome (List.map coerce ss)) as [ vs' | ]; [ | discriminate ].
    inversion H; subst. constructor; [ | now apply IH ].
    now apply coerce_plain in Hv as [Hp _].
Qed.


End Versions.

(** ** The update check *)

Section VersionGate.
Import Semver GoLanguageServer.

(** A [gopls] that prints a version line and a sum line, and a proxy that
    lists three versions. *)
Definition goplsOutput012 : string :=
  join LF [ "golang.org/x/tools/gopls 0.1.2";
            "    golang.org/x/tools/gopls@v0.1.2 h1:CB5ECiPysqZrwxcyRjN+exyZpY0gODTZvNiqQi3lpeo=";
            "" ].

Definition registryList : string := join LF ["v0.1.3"; "v0.1.1"; "v0.0.9"].

Definition envGopls012 : Environment :=
  mkEnvironment (fun _ _ => ExecOk goplsOutput012) (fun _ => Resolved (Some registryList)).

(** A [gopls] built in GOPATH mode prints one line. *)
Definition envOneLine : Environment :=
  mkEnvironment (fun _ _ => ExecOk "version v0.1.0, built in $GOPATH mode")
    (fun _ => Resolved (Some registryList)).

Definition v012 : SemVer := mkSemVer 0 1 2 [] [].
Definition v013 : SemVer := mkSemVer 0 1 3 [] [].
Definition v011 : SemVer := mkSemVer 0 1 1 [] [].
Definition v009 : SemVer := mkSemVer 0 0 9 [] [].

(** Checks of the embedding on concrete inputs. *)

Example trim_split_lines :
  split LF (trim (join LF ["a"; "b"; ""; ""])) = ["a"; "b"].
Proof. reflexivity. Qed.

Example split_empty_string : split LF "" = [""].
Proof. reflexivity. Qed.

Example trim_no_break_space :
  trim (String (ascii_of_nat 160) ("a b" ++ String (ascii_of_nat 9) EmptyString)) = "a b".
Proof. reflexivity. Qed.

Example coerce_v013 : coerce "v0.1.3" = Some v013.
Proof. reflexivity. Qed.

Example coerce_short : coerce "go1.12" = Some (mkSemVer 1 12 0 [] []).
Proof. reflexivity. Qed.

Example coerce_fourth_component : coerce "1.2.3.4" = Some (mkSemVer 1 2 3 [] []).
Proof. reflexivity. Qed.

Example coerce_leading_zero : coerce "v01.2.3" = None.
Proof. reflexivity. Qed.

Example coerce_long_run :
  coerce "a12345678901234567890.5b7" = Some (mkSemVer 5 0 0 [] []).
Proof. reflexivity. Qed.

Example coerce_no_digits : coerce "(devel)" = None.
Proof. reflexivity. Qed.

Example new_SemVer_prerelease :
  new_SemVer "v0.2.0-pre1+build.7"
  = Version (mkSemVer 0 2 0 [PStr "pre1"] ["build"; "7"]).
Proof. reflexivity. Qed.

Example new_SemVer_devel : new_SemVer "(devel)" = Throws "Invalid Version: (devel)".
Proof. reflexivity. Qed.

Example new_SemVer_large_major :
  new_SemVer "9007199254740992.0.0" = Throws "Invalid major version".
Proof. reflexivity. Qed.

Example prerelease_sorts_first :
  compare (mkSemVer 0 2 0 [PStr "pre1"] []) (mkSemVer 0 2 0 [] []) = Lt.
Proof. reflexivity. Qed.

Example sort_registry :
  sort_rcompare (List.map coerce (split LF (trim registryList)))
  = Resolved [Some v013; Some v011; Some v009].
Proof. reflexivity. Qed.

Example goplsVersion_two_lines : goplsVersion envGopls012 "/go/bin/gopls" = Some "v0.1.2".
Proof. reflexivity. Qed.

Example goplsVersion_devel :
  goplsVersion
    (mkEnvironment
       (fun _ _ => ExecOk (join LF ["version devel"; "    golang.org/x/tools@(devel)"]))
       (fun _ => Rejected (NetworkError "offline")))
    "/go/bin/gopls"
  = Some "(devel)".
Proof. reflexivity. Qed.

Example goplsVersion_three_lines :
  goplsVersion
    (mkEnvironment (fun _ _ => ExecOk (join LF ["a"; "b@v1.0.0 h1:x"; "c"]))
       (fun _ => Rejected (NetworkError "offline")))
    "/go/bin/gopls"
  = None.
Proof. reflexivity. Qed.

Lemma truthy_Some u : u <> EmptyString -> truthy (Some u) = true.
Proof. destruct u; [ contradiction | reflexivity ]. Qed.


Lemma one_line_goplsVersion env path output :
  execFile env path ["version"] = ExecOk output ->
  List.length (split LF (trim output)) = 1 ->
  goplsVersion env path = None.
Proof.
  intros Hexec Hlen. unfold goplsVersion. rewrite Hexec, Hlen. reflexivity.
Qed.

(** C6 as stated fails: on one line of output the version is unparsable,
    and the update check resolves to true, not to false. *)
Lemma one_line_output_forces_update :
  List.length (split LF (trim "version v0.1.0, built in $GOPATH mode")) = 1
  /\ goplsVersion envOneLine "/go/bin/gopls" = None
  /\ shouldUpdateLanguageServer envOneLine gopls "/go/bin/gopls" = Resolved true.
Proof. repeat split. Qed.

(** C6, amended: when the output of the version sub-command is exactly one
    line, [goplsVersion] returns null and, for [gopls], the update check
    resolves to true: an update is recommended. *)
Theorem one_line_version_output :
  forall env tool path output,
    name tool = "gopls" ->
    execFile env path ["version"] = ExecOk output ->
    List.length (split LF (trim output)) = 1 ->
    goplsVersion env path = None
    /\ shouldUpdateLanguageServer env tool path = Resolved true.
Proof.
  intros env tool path output Hn Hexec Hlen.
  pose proof (one_line_goplsVersion env path output Hexec Hlen) as Hv.
  split; [ assumption | ].
  unfold shouldUpdateLanguageServer. rewrite Hn, Hv. reflexivity.
Qed.

Lemma one_line_version_output_witness :
  goplsVersion envOneLine "/go/bin/gopls" = None
  /\ shouldUpdateLanguageServer envOneLine gopls "/go/bin/gopls" = Resolved true.
Proof.
  apply (one_line_version_output envOneLine gopls "/go/bin/gopls"
           "version v0.1.0, built in $GOPATH mode"); reflexivity.
Defined.

(** X2.  Only [gopls] is ever checked for updates. *)
Theorem shouldUpdate_other_tools :
  forall env tool path,
    name tool <> "gopls" ->
    shouldUpdateLanguageServer env tool path = Resolved false.
Proof.
  intros env tool path Hn. unfold shouldUpdateLanguageServer.
  apply String.eqb_neq in Hn. now rewrite Hn.
Qed.

Lemma shouldUpdate_other_tools_witness :
  shouldUpdateLanguageServer envGopls012 goreturns "/go/bin/goreturns" = Resolved false.
Proof.
  apply (shouldUpdate_other_tools envGopls012 goreturns "/go/bin/goreturns").
  discriminate.
Defined.

End VersionGate.

(** ** Linting *)

Section Linting.
Import GoLint.

Definition sampleHost : Host :=
  mkHost (fun p => p) (fun _ => None) (fun _ => "/src") [("GOPATH", "/go")] ":".

Definition sampleRequest : Request :=
  mkRequest "/src/a.go" (mkLintConfig None None None) false.

Definition golintRun : ToolRun := mkToolRun [] "/src" "golint" [("GOPATH", "/go")].

Definition warningA : ICheckResult :=
  mkCheckResult "/src/a.go" 3 "exported function F should have comment" "warning".

Definition warningB : ICheckResult :=
  mkCheckResult "/src/a.go" 9 "don't use underscores in Go names" "warning".

Definition commandOf (host : Host) (req : Request) : ToolRun :=
  lintCommand host (fileUri req) (goConfig req) (lintWorkspace req).

(** A request that finds [running] set cancels, then launches. *)
Lemma goLint_running host s id req :
  running s = true ->
  effects (step host s (LintRequested id req))
  = effects s ++ [Cancel; RunTool id (commandOf host req) true].
Proof.
  intros Hrun. cbn [step]. unfold goLint. rewrite Hrun.
  cbn. rewrite <- app_assoc. reflexivity.
Qed.

Lemma goLint_idle host s id req :
  running s = false ->
  effects (step host s (LintRequested id req))
  = effects s ++ [RunTool id (commandOf host req) (cancellationRequested s)].
Proof.
  intros Hrun. cbn [step]. unfold goLint. rewrite Hrun. reflexivity.
Qed.

(** A run that resolves has its result handed to the diagnostics. *)
Lemma toolSettled_resolved host s id warnings :
  existsb (Nat.eqb id) (outstanding s) = true ->
  effects (step host s (ToolSettled id (Resolved warnings)))
  = effects s ++ [HandleDiagnosticErrors id warnings].
Proof. intros Hout. cbn [step]. rewrite Hout. reflexivity. Qed.

(** C7 as stated fails: the second request is issued while the first is
    running and cancels it, yet when the first run settles its result is
    handed to the diagnostics like any other. *)
Lemma first_lint_result_is_applied :
  effects
    (run sampleHost
       [ LintRequested 1 sampleRequest; LintRequested 2 sampleRequest;
         ToolSettled 1 (Resolved [warningA]); ToolSettled 2 (Resolved [warningB]) ]
       initial)
  = [ RunTool 1 golintRun false; Cancel; RunTool 2 golintRun true;
      HandleDiagnosticErrors 1 [warningA]; HandleDiagnosticErrors 2 [warningB] ].
Proof. reflexivity. Qed.

(** C7, amended: a lint request issued while [running] is set signals
    cancellation before it launches its own tool run; no result is
    discarded: the result of every run that resolves is handed to the
    diagnostics, so of two overlapping requests both results are applied, in
    the order in which the runs settle. *)
Theorem lint_cancels_and_applies_every_result :
  forall host s,
    (forall id req,
        running s = true ->
        exists token,
          effects (step host s (LintRequested id req))
          = effects s ++ [Cancel; RunTool id (commandOf host req) token])
    /\ (forall id req,
          running s = false ->
          exists token,
            effects (step host s (LintRequested id req))
            = effects s ++ [RunTool id (commandOf host req) token])
    /\ (forall id warnings,
          existsb (Nat.eqb id) (outstanding s) = true ->
          effects (step host s (ToolSettled id (Resolved warnings)))
          = effects s ++ [HandleDiagnosticErrors id warnings])
    /\ (forall req1 req2 r1 r2,
          exists t1 t2,
            effects
              (run host
                 [ LintRequested 1 req1; LintRequested 2 req2;
                   ToolSettled 1 (Resolved r1); ToolSettled 2 (Resolved r2) ]
                 initial)
            = [ RunTool 1 (commandOf host req1) t1; Cancel;
                RunTool 2 (commandOf host req2) t2;
                HandleDiagnosticErrors 1 r1; HandleDiagnosticErrors 2 r2 ]
            /\ effects
                 (run host
                    [ LintRequested 1 req1; LintRequested 2 req2;
                      ToolSettled 2 (Resolved r2); ToolSettled 1 (Resolved r1) ]
                    initial)
               = [ RunTool 1 (commandOf host req1) t1; Cancel;
                   RunTool 2 (commandOf host req2) t2;
                   HandleDiagnosticErrors 2 r2; HandleDiagnosticErrors 1 r1 ]).
Proof.
  intros host s. split; [ | split; [ | split ] ].
  - intros id req Hrun. eexists. now apply goLint_running.
  - intros id req Hrun. eexists. now apply goLint_idle.
  - intros id warnings. apply toolSettled_resolved.
  - intros req1 req2 r1 r2. do 2 eexists. split; reflexivity.
Qed.

Lemma lint_cancels_and_applies_every_result_witness :
  (exists token,
      effects
        (step sampleHost (step sampleHost initial (LintRequested 1 sampleRequest))
           (LintRequested 2 sampleRequest))
      = effects (step sampleHost initial (LintRequested 1 sampleRequest))
        ++ [Cancel; RunTool 2 (commandOf sampleHost sampleRequest) token])
  /\ effects
       (step sampleHost (step sampleHost initial (LintRequested 1 sampleRequest))
          (ToolSettled 1 (Resolved [warningA])))
     = effects (step sampleHost initial (LintRequested 1 sampleRequest))
       ++ [HandleDiagnosticErrors 1 [warningA]].
Proof.
  destruct (lint_cancels_and_applies_every_result sampleHost
              (step sampleHost initial (LintRequested 1 sampleRequest)))
    as (Hcancel & _ & Happly & _).
  split.
  - apply Hcancel. reflexivity.
  - apply Happly. reflexivity.
Defined.

End Linting.

(** ** Checks on save *)

Section ChecksOnSave.
Import GoCheck.

(** A setting that turns a check on: [true], or a string other than the
    empty string and [off]. *)
Definition enabledOnSave (v : JsValue) : bool :=
  match v with
  | JUndefined => false
  | JBool b => b
  | JString s => negb (String.eqb s "") && negb (String.eqb s "off")
  end.

(** A setting that asks for the whole workspace. *)
Definition workspaceWide (v : JsValue) : bool :=
  match v with
  | JString s => String.eqb s "workspace"
  | _ => false
  end.

(** A setting that is set: [true], or a string other than the empty one. *)
Definition isSet (v : JsValue) : bool :=
  match v with
  | JUndefined => false
  | JBool b => b
  | JString s => negb (String.eqb s "")
  end.

(** The checks a configuration asks for, in the order build, lint, vet. *)
Definition enabledChecks (goConfig : CheckConfig) : list Call :=
  (if enabledOnSave (buildOnSave goConfig)
   then [GoBuild (workspaceWide (buildOnSave goConfig))] else [])
  ++ (if enabledOnSave (lintOnSave goConfig)
      then [GoLint (workspaceWide (lintOnSave goConfig))] else [])
  ++ (if enabledOnSave (vetOnSave goConfig)
      then [GoVet (workspaceWide (vetOnSave goConfig))] else []).

Definition isTest (c : Call) : bool :=
  match c with
  | GoTest _ => true
  | _ => false
  end.

Lemma onSave_enabledOnSave v : onSave v = enabledOnSave v.
Proof.
  destruct v as [ | b | s ]; [ reflexivity | now destruct b | ].
  destruct s as [ | c s ]; reflexivity.
Qed.

Lemma truthy_isSet v : truthy v = isSet v.
Proof. destruct v as [ | b | [ | c s ] ]; reflexivity. Qed.

Lemma check_calls goRuntimePath goConfig :
  JsString.truthy (Some goRuntimePath) = true ->
  let started := check (Some goRuntimePath) goConfig in
  messages started = []
  /\ filter (fun c => negb (isTest c)) (calls started) = enabledChecks goConfig
  /\ List.map (nth_error (calls started)) (runningToolsPromises started)
     = List.map Some (enabledChecks goConfig)
  /\ filter isTest (calls started)
     = if isSet (testOnSave goConfig) || isSet (coverOnSave goConfig)
       then [GoTest (isSet (coverOnSave goConfig))] else [].
Proof.
  intros Hgo. unfold check, enabledChecks. rewrite Hgo. cbn [negb].
  rewrite !onSave_enabledOnSave, !truthy_isSet.
  change (strictEq (buildOnSave goConfig) "workspace")
    with (workspaceWide (buildOnSave goConfig)).
  change (strictEq (lintOnSave goConfig) "workspace")
    with (workspaceWide (lintOnSave goConfig)).
  change (strictEq (vetOnSave goConfig) "workspace")
    with (workspaceWide (vetOnSave goConfig)).
  unfold runTest. rewrite !truthy_isSet.
  destruct (enabledOnSave (buildOnSave goConfig)), (isSet (testOnSave goConfig)),
    (enabledOnSave (lintOnSave goConfig)), (enabledOnSave (vetOnSave goConfig)),
    (isSet (coverOnSave goConfig)); cbn; repeat split.
Qed.

Lemma settlementOf_skip h h' p schedule :
  h' <> h -> settlementOf h ((h', p) :: schedule) = settlementOf h schedule.
Proof. intros Hne. cbn. apply Nat.eqb_neq in Hne. now rewrite Hne. Qed.

(** While no promise of the array is rejected, [Promise.all] is not. *)
Lemma firstRejection_none promises schedule :
  forall settled,
    (forall h, In h promises -> existsb (Nat.eqb h) settled = false ->
               forall e, settlementOf h schedule <> Some (Rejected e)) ->
    firstRejection promises settled schedule = None.
Proof.
  induction schedule as [ | [h' p] schedule IH ]; intros settled Hok;
    [ reflexivity | ].
  cbn [firstRejection].
  destruct (existsb (Nat.eqb h') settled) eqn:Hs.
  - apply IH. intros h Hin Hh e.
    rewrite <- (settlementOf_skip h h' p); [ now apply Hok | ].
    intros ->. congruence.
  - assert (Hnext : forall h, In h promises ->
                      existsb (Nat.eqb h) (h' :: settled) = false ->
                      forall e, settlementOf h schedule <> Some (Rejected e)).
    { intros h Hin Hh e. cbn [existsb] in Hh. apply orb_false_iff in Hh as [Hne Hh].
      apply Nat.eqb_neq in Hne.
      rewrite <- (settlementOf_skip h h' p) by congruence. now apply Hok. }
    destruct p as [ r | e ]; [ now apply IH | ].
    destruct (existsb (Nat.eqb h') promises) eqn:Hp; [ | now apply IH ].
    exfalso. apply existsb_exists in Hp as (x & Hin & Hx).
    apply Nat.eqb_eq in Hx. subst x.
    apply (Hok h' Hin Hs e). cbn. now rewrite Nat.eqb_refl.
Qed.

(** The first rejection, in time, of a promise of the array rejects
    [Promise.all]. *)
Lemma firstRejection_first promises before h e after :
  In h promises ->
  (forall s, In s before ->
             fst s <> h /\ (In (fst s) promises -> exists r, snd s = Resolved r)) ->
  forall settled,
    existsb (Nat.eqb h) settled = false ->
    firstRejection promises settled (before ++ (h, Rejected e) :: after) = Some e.
Proof.
  intros Hin. induction before as [ | [h' p] before IH ]; intros Hbefore settled Hs.
  - cbn. rewrite Hs.
    replace (existsb (Nat.eqb h) promises) with true; [ reflexivity | ].
    symmetry. apply existsb_exists. exists h. split; [ exact Hin | apply Nat.eqb_refl ].
  - assert (Hrest : forall s, In s before ->
              fst s <> h /\ (In (fst s) promises -> exists r, snd s = Resolved r))
      by (intros s Hs'; apply Hbefore; now right).
    destruct (Hbefore (h', p) (or_introl eq_refl)) as [Hne Hres]. cbn [fst snd] in *.
    assert (Hs' : existsb (Nat.eqb h) (h' :: settled) = false).
    { cbn. rewrite Hs, orb_false_r. apply Nat.eqb_neq. congruence. }
    cbn [app firstRejection].
    destruct (existsb (Nat.eqb h') settled); [ now apply IH | ].
    destruct p as [ r | e' ]; [ now apply IH | ].
    destruct (existsb (Nat.eqb h') promises) eqn:Hp; [ | now apply IH ].
    exfalso. apply existsb_exists in Hp as (x & Hx & Heq).
    apply Nat.eqb_eq in Heq. subst x.
    destruct (Hres Hx) as [r Hr]. discriminate Hr.
Qed.

Lemma valuesOf_fulfilled promises schedule resultSets :
  Forall2 (fun h r => settlementOf h schedule = Some (Resolved r)) promises resultSets ->
  valuesOf promises schedule = Some resultSets.
Proof.
  induction 1 as [ | h r promises resultSets Hh _ IH ]; [ reflexivity | ].
  cbn [valuesOf]. now rewrite Hh, IH.
Qed.

Definition onSavePackage : CheckConfig :=
  mkCheckConfig (JString "package") JUndefined (JString "package")
    (JString "package") JUndefined.

Definition buildError : ICheckResult :=
  mkCheckResult "/src/a.go" 5 "undefined: x" "error".

Definition vetWarning : ICheckResult :=
  mkCheckResult "/src/a.go" 7 "unreachable code" "warning".

Definition lintFailure : JsError := ToolError "golint: unexpected output".

(** Build and vet are fulfilled, then the linter's promise is rejected. *)
Definition lintRejectsLast : list Settlement :=
  [(0, Resolved [buildError]); (2, Resolved [vetWarning]); (1, Rejected lintFailure)].

(** Vet is fulfilled first, then build, then the linter. *)
Definition allFulfilled : list Settlement :=
  [(2, Resolved [vetWarning]); (0, Resolved [buildError]); (1, Resolved [])].

(** C8 as stated fails: build, lint and vet are all started, build and vet
    are fulfilled with their results, the linter's promise is rejected, and
    the batch rejects instead of resolving with the results of build and
    vet. *)
Lemma rejected_lint_rejects_batch :
  calls (check (Some "/usr/local/go/bin/go") onSavePackage)
  = [GoBuild false; GoLint false; GoVet false]
  /\ runningToolsPromises (check (Some "/usr/local/go/bin/go") onSavePackage) = [0; 1; 2]
  /\ settlementOf 0 lintRejectsLast = Some (Resolved [buildError])
  /\ settlementOf 2 lintRejectsLast = Some (Resolved [vetWarning])
  /\ batch (runningToolsPromises (check (Some "/usr/local/go/bin/go") onSavePackage))
       lintRejectsLast
     = BatchRejected lintFailure.
Proof. repeat split. Qed.

(** C8, amended: with the go binary found, [check] starts every check that
    is turned on (build, lint, vet; a setting turns its check on when it is
    [true] or a string other than the empty one and [off]) before it awaits
    anything, so whatever becomes of the others; the batch awaits exactly
    these, in the order build, lint, vet, and the tests are started at most
    once and are not part of it.  The batch resolves with the concatenation
    of the result sets in that order once the promise of every started
    check is fulfilled; it rejects with the first rejection, in time, of
    one of them. *)
Theorem check_batch :
  forall goRuntimePath goConfig,
    JsString.truthy (Some goRuntimePath) = true ->
    let started := check (Some goRuntimePath) goConfig in
    messages started = []
    /\ filter (fun c => negb (isTest c)) (calls started) = enabledChecks goConfig
    /\ List.map (nth_error (calls started)) (runningToolsPromises started)
       = List.map Some (enabledChecks goConfig)
    /\ filter isTest (calls started)
       = (if isSet (testOnSave goConfig) || isSet (coverOnSave goConfig)
          then [GoTest (isSet (coverOnSave goConfig))] else [])
    /\ (forall schedule resultSets,
          Forall2 (fun h r => settlementOf h schedule = Some (Resolved r))
            (runningToolsPromises started) resultSets ->
          batch (runningToolsPromises started) schedule
          = BatchResolved (List.concat resultSets))
    /\ (forall before h e after,
          In h (runningToolsPromises started) ->
          (forall s, In s before ->
                     fst s <> h
                     /\ (In (fst s) (runningToolsPromises started) ->
                         exists r, snd s = Resolved r)) ->
          batch (runningToolsPromises started) (before ++ (h, Rejected e) :: after)
          = BatchRejected e).
Proof.
  intros goRuntimePath goConfig Hgo started.
  destruct (check_calls goRuntimePath goConfig Hgo) as (Hm & Hc & Hr & Ht).
  fold started in Hm, Hc, Hr, Ht.
  split; [ exact Hm | ]. split; [ exact Hc | ]. split; [ exact Hr | ].
  split; [ exact Ht | ]. split.
  - intros schedule resultSets Hall. unfold batch.
    rewrite firstRejection_none, (valuesOf_fulfilled _ _ _ Hall); [ reflexivity | ].
    intros h Hin _ e He.
    clear - Hall Hin He. induction Hall as [ | h0 r l l' Hh _ IH ]; [ destruct Hin | ].
    destruct Hin as [ -> | Hin ]; [ congruence | now apply IH ].
  - intros before h e after Hin Hbefore. unfold batch.
    now rewrite (firstRejection_first _ before h e after Hin Hbefore []).
Qed.

Lemma check_batch_witness :
  batch (runningToolsPromises (check (Some "/usr/local/go/bin/go") onSavePackage))
    allFulfilled
  = BatchResolved [buildError; vetWarning]
  /\ batch (runningToolsPromises (check (Some "/usr/local/go/bin/go") onSavePackage))
       ([(2, Resolved [vetWarning])] ++ (1, Rejected lintFailure)
        :: [(0, Resolved [buildError])])
     = BatchRejected lintFailure
  /\ filter (fun c => negb (isTest c))
       (calls (check (Some "/usr/local/go/bin/go") onSavePackage))
     = [GoBuild false; GoLint false; GoVet false].
Proof.
  destruct (check_batch "/usr/local/go/bin/go" onSavePackage eq_refl)
    as (_ & Hcalls & _ & _ & Hresolved & Hrejected).
  split; [ | split ].
  - apply (Hresolved allFulfilled [[buildError]; []; [vetWarning]]).
    repeat constructor.
  - apply (Hrejected [(2, Resolved [vetWarning])] 1 lintFailure
             [(0, Resolved [buildError])]).
    + right; left; reflexivity.
    + intros s [ <- | [] ]. split; [ discriminate | ].
      intros _. now exists [vetWarning].
  - exact Hcalls.
Defined.

End ChecksOnSave.

(** ** The update prompt *)

Section UpdatePrompt.
Import GoInstallTools.

Lemma Tool_eqb_eq a b : Tool_eqb a b = true <-> a = b.
Proof.
  unfold Tool_eqb. destruct a as [n1 p1 i1 d1], b as [n2 p2 i2 d2]; cbn.
  rewrite !andb_true_iff, !String.eqb_eq, Bool.eqb_true_iff.
  split.
  - intros [[[-> ->] ->] ->]. reflexivity.
  - intros H. inversion H. auto.
Qed.

Lemma Tool_eqb_refl a : Tool_eqb a a = true.
Proof. now apply Tool_eqb_eq. Qed.

Lemma containsTool_app l t x :
  containsTool (l ++ [x]) t = containsTool l t || Tool_eqb t x.
Proof.
  unfold containsTool. rewrite existsb_app. cbn. now rewrite orb_false_r.
Qed.

Lemma containsTool_removeTool l t x :
  containsTool l t = false -> containsTool (removeTool x l) t = false.
Proof.
  unfold containsTool. induction l as [ | y l IH ]; cbn; [ reflexivity | ].
  intros H. apply orb_false_iff in H as [Hy Hl].
  destruct (Tool_eqb x y); [ assumption | ].
  cbn. now rewrite Hy, IH.
Qed.

Variable getTool : string -> option Tool.

(** Once declined, always declined. *)
Lemma step_declined tool s e :
  containsTool (declinedUpdates s) tool = true ->
  containsTool (declinedUpdates (step getTool s e)) tool = true.
Proof.
  intros H. destruct e as [ n | t | t sel ]; cbn [step].
  - unfold promptForUpdatingTool.
    destruct (getTool n) as [ t | ]; [ | assumption ].
    destruct (containsTool (declinedUpdates s) t); assumption.
  - destruct (containsTool (awaitingGoVersion s) t); assumption.
  - destruct (containsTool (openPrompts s) t); [ | assumption ].
    unfold selected; cbn [declinedUpdates].
    now rewrite containsTool_app, H.
Qed.

Lemma run_declined tool es :
  forall s,
    containsTool (declinedUpdates s) tool = true ->
    containsTool (declinedUpdates (run getTool es s)) tool = true.
Proof.
  induction es as [ | e es IH ]; intros s H; [ assumption | ].
  apply IH. now apply step_declined.
Qed.

(** The state of a tool whose prompt was answered. *)
Definition settled (tool : Tool) (s : State) : Prop :=
  containsTool (declinedUpdates s) tool = true
  /\ containsTool (awaitingGoVersion s) tool = false
  /\ containsTool (openPrompts s) tool = false.

Lemma step_settled tool s e :
  settled tool s ->
  settled tool (step getTool s e)
  /\ promptsShown tool (step getTool s e) = promptsShown tool s.
Proof.
  intros (Hd & Ha & Ho).
  assert (Hd' := step_declined tool s e Hd).
  assert (Hne : forall t l, containsTool l t = true -> containsTool l tool = false ->
                            Tool_eqb tool t = false).
  { intros t l Ht Hl. destruct (Tool_eqb tool t) eqn:E; [ | reflexivity ].
    apply Tool_eqb_eq in E. subst t. congruence. }
  unfold settled.
  destruct e as [ n | t | t sel ]; cbn [step] in *.
  - unfold promptForUpdatingTool in *.
    destruct (getTool n) as [ t | ]; [ | now repeat split ].
    destruct (containsTool (declinedUpdates s) t) eqn:Ht; [ now repeat split | ].
    cbn [declinedUpdates awaitingGoVersion openPrompts] in *.
    repeat split; try assumption.
    rewrite containsTool_app, Ha. cbn [orb].
    destruct (Tool_eqb tool t) eqn:E; [ | reflexivity ].
    apply Tool_eqb_eq in E. subst t. congruence.
  - destruct (containsTool (awaitingGoVersion s) t) eqn:Ht; [ | now repeat split ].
    pose proof (Hne t _ Ht Ha) as E.
    unfold goVersionResolved in *.
    cbn [declinedUpdates awaitingGoVersion openPrompts] in *.
    repeat split; try assumption.
    + now apply containsTool_removeTool.
    + now rewrite containsTool_app, Ho, E.
    + unfold promptsShown; cbn [effects].
      rewrite filter_app, length_app. cbn [filter isPromptFor]. rewrite E.
      cbn [List.length]. lia.
  - destruct (containsTool (openPrompts s) t) eqn:Ht; [ | now repeat split ].
    unfold selected in *.
    cbn [declinedUpdates awaitingGoVersion openPrompts] in *.
    repeat split; try assumption.
    + now apply containsTool_removeTool.
    + unfold promptsShown; cbn [effects].
      rewrite filter_app, length_app.
      destruct sel as [ sel | ]; [ destruct (String.eqb sel "Update") | ];
        cbn [filter isPromptFor List.length]; lia.
Qed.

Lemma run_settled tool es :
  forall s,
    settled tool s ->
    settled tool (run getTool es s)
    /\ promptsShown tool (run getTool es s) = promptsShown tool s.
Proof.
  induction es as [ | e es IH ]; intros s H; [ now split | ].
  destruct (step_settled tool s e H) as [H1 H2].
  destruct (IH _ H1) as [K1 K2]. cbn [run fold_left] in *.
  unfold run in *. split; [ assumption | congruence ].
Qed.

Lemma removeTool_last l t :
  containsTool l t = false -> removeTool t (l ++ [t]) = l.
Proof.
  unfold containsTool. induction l as [ | y l IH ]; cbn.
  - intros _. now rewrite Tool_eqb_refl.
  - intros H. apply orb_false_iff in H as [Hy Hl]. rewrite Hy. now rewrite IH.
Qed.

(** One call and its answer, for a tool that was not asked about yet. *)
Lemma answered_round toolName tool selection s :
  getTool toolName = Some tool ->
  containsTool (declinedUpdates s) tool = false ->
  containsTool (awaitingGoVersion s) tool = false ->
  containsTool (openPrompts s) tool = false ->
  settled tool
    (run getTool [Call toolName; GoVersionResolved tool; Selected tool selection] s)
  /\ promptsShown tool
       (run getTool [Call toolName; GoVersionResolved tool; Selected tool selection] s)
     = promptsShown tool s + 1.
Proof.
  intros Hget Hd Ha Ho. cbn [run fold_left step].
  unfold promptForUpdatingTool. rewrite Hget, Hd.
  cbn [awaitingGoVersion]. rewrite containsTool_app, Tool_eqb_refl, orb_true_r.
  unfold goVersionResolved. cbn [declinedUpdates awaitingGoVersion openPrompts effects].
  rewrite containsTool_app, Tool_eqb_refl, orb_true_r.
  rewrite (removeTool_last _ _ Ha).
  unfold selected, settled, promptsShown.
  cbn [declinedUpdates awaitingGoVersion openPrompts effects].
  rewrite (removeTool_last _ _ Ho), containsTool_app, Tool_eqb_refl, orb_true_r.
  repeat split; try assumption.
  rewrite !filter_app, !length_app. cbn [filter isPromptFor]. rewrite Tool_eqb_refl.
  destruct selection as [ sel | ]; [ destruct (String.eqb sel "Update") | ];
    cbn [filter isPromptFor List.length]; lia.
Qed.

(** C9, amended: whatever the user selects in the update prompt of a tool
    (the Update button included, or nothing), the tool is added to
    [declinedUpdates]; from then on every call of [promptForUpdatingTool]
    for that tool returns at once and shows nothing; so when the first call
    for a tool is answered before the next one is made, its prompt is shown
    exactly once, whatever follows. *)
Theorem promptForUpdatingTool_once :
  forall toolName tool,
    getTool toolName = Some tool ->
    (forall s selection,
        containsTool (openPrompts s) tool = true ->
        containsTool (declinedUpdates (step getTool s (Selected tool selection))) tool = true)
    /\ (forall s es,
          containsTool (declinedUpdates s) tool = true ->
          promptForUpdatingTool getTool toolName (run getTool es s) = run getTool es s)
    /\ (forall s selection es,
          containsTool (declinedUpdates s) tool = false ->
          containsTool (awaitingGoVersion s) tool = false ->
          containsTool (openPrompts s) tool = false ->
          promptsShown tool
            (run getTool
               (Call toolName :: GoVersionResolved tool :: Selected tool selection :: es) s)
          = promptsShown tool s + 1).
Proof.
  intros toolName tool Hget. split; [ | split ].
  - intros s selection Hopen. cbn [step]. rewrite Hopen.
    unfold selected; cbn [declinedUpdates].
    now rewrite containsTool_app, Tool_eqb_refl, orb_true_r.
  - intros s es Hd. unfold promptForUpdatingTool.
    now rewrite Hget, (run_declined tool es s Hd).
  - intros s selection es Hd Ha Ho.
    destruct (answered_round toolName tool selection s Hget Hd Ha Ho) as [Hs Hn].
    change (run getTool (Call toolName :: GoVersionResolved tool
                           :: Selected tool selection :: es) s)
      with (run getTool es
              (run getTool [Call toolName; GoVersionResolved tool; Selected tool selection]
                 s)).
    destruct (run_settled tool es _ Hs) as [_ ->]. exact Hn.
Qed.

End UpdatePrompt.

Section UpdatePromptSample.
Import GoInstallTools.

(** The table of known tools, cut down to the two that are prompted for. *)
Definition getToolSample (toolName : string) : option Tool :=
  if String.eqb toolName "gopls" then Some gopls
  else if String.eqb toolName "goreturns" then Some goreturns
  else None.

(** C9 as stated fails: two calls for the same tool before the first
    prompt is answered both pass the [declinedUpdates] test, and the prompt
    is shown twice. *)
Lemma overlapping_calls_prompt_twice :
  promptsShown goreturns
    (run getToolSample
       [ Call "goreturns"; Call "goreturns";
         GoVersionResolved goreturns; GoVersionResolved goreturns ]
       initial) = 2.
Proof. reflexivity. Qed.

Lemma promptForUpdatingTool_once_witness :
  containsTool
    (declinedUpdates
       (run getToolSample
          [Call "gopls"; GoVersionResolved gopls; Selected gopls (Some "Update")]
          initial)) gopls = true
  /\ promptsShown gopls
       (run getToolSample
          [ Call "gopls"; GoVersionResolved gopls; Selected gopls (Some "Update");
            Call "gopls"; GoVersionResolved gopls; Call "gopls" ]
          initial) = promptsShown gopls initial + 1.
Proof.
  destruct (promptForUpdatingTool_once getToolSample "gopls" gopls eq_refl)
    as (Hadd & _ & Honce).
  split.
  - apply (Hadd (run getToolSample [Call "gopls"; GoVersionResolved gopls] initial)
             (Some "Update")).
    reflexivity.
  - apply (Honce initial (Some "Update")
             [Call "gopls"; GoVersionResolved gopls; Call "gopls"]);
      reflexivity.
Defined.

End UpdatePromptSample.

(** ** Formatting *)

Section Formatting.
Import GoFormat.

Definition gofmtWriteTwice : FormatConfig := mkFormatConfig (Some "gofmt") ["-w"; "-w"].

Definition sampleDocument : TextDocument :=
  mkTextDocument "/src/a.go" "package main" ["func main() {}"].

Fixpoint occurrences (x : string) (l : list string) : nat :=
  match l with
  | [] => 0
  | y :: l' => (if String.eqb y x then 1 else 0) + occurrences x l'
  end.

Lemma indexOf_None x l : indexOf x l = None -> occurrences x l = 0.
Proof.
  induction l as [ | y l IH ]; cbn; [ reflexivity | ].
  destruct (String.eqb y x); [ discriminate | ].
  destruct (indexOf x l); [ discriminate | ]. intros _. now apply IH.
Qed.

(** [splice] at the index [indexOf] found takes out one occurrence. *)
Lemma splice1_indexOf x l i :
  indexOf x l = Some i -> S (occurrences x (splice1 i l)) = occurrences x l.
Proof.
  revert i. induction l as [ | y l IH ]; cbn; intros i; [ discriminate | ].
  destruct (String.eqb y x) eqn:E.
  - intros H. inversion H; subst. reflexivity.
  - destruct (indexOf x l) as [ j | ]; [ | discriminate ].
    intros H. inversion H; subst. cbn. rewrite E. cbn. now apply IH.
Qed.

Lemma occurrences_app x l1 l2 :
  occurrences x (l1 ++ l2) = occurrences x l1 + occurrences x l2.
Proof. induction l1 as [ | y l1 IH ]; cbn; [ reflexivity | rewrite IH; lia ]. Qed.

(** The formatter is run with one [-w] less than the settings hold. *)
Lemma formatArgs_occurrences goConfig filename :
  filename <> "-w" ->
  occurrences "-w" (formatArgs goConfig filename)
  = occurrences "-w" (formatFlags goConfig) - 1.
Proof.
  intros Hf. unfold formatArgs.
  assert (Hsrc : occurrences "-w" ["-srcdir"; filename] = 0).
  { cbn. apply String.eqb_neq in Hf. now rewrite Hf. }
  assert (Hflags :
    occurrences "-w"
      match indexOf "-w" (formatFlags goConfig) with
      | Some i => splice1 i (formatFlags goConfig)
      | None => formatFlags goConfig
      end = occurrences "-w" (formatFlags goConfig) - 1).
  { destruct (indexOf "-w" (formatFlags goConfig)) as [ i | ] eqn:E.
    - pose proof (splice1_indexOf _ _ _ E). lia.
    - rewrite (indexOf_None _ _ E). reflexivity. }
  destruct (String.eqb (toolOrDefault goConfig) "goimports"
            || String.eqb (toolOrDefault goConfig) "goreturns").
  - rewrite occurrences_app, Hsrc, Hflags. lia.
  - exact Hflags.
Qed.

(** X3.  With at most one [-w] in the settings the formatter is run without
    it. *)
Theorem formatArgs_drops_single_w :
  forall goConfig filename,
    filename <> "-w" ->
    occurrences "-w" (formatFlags goConfig) <= 1 ->
    occurrences "-w" (formatArgs goConfig filename) = 0.
Proof.
  intros goConfig filename Hf Hone.
  rewrite (formatArgs_occurrences goConfig filename Hf). lia.
Qed.

Lemma formatArgs_drops_single_w_witness :
  occurrences "-w" (formatArgs (mkFormatConfig (Some "goimports") ["-w"; "-e"]) "/src/a.go")
  = 0.
Proof.
  apply (formatArgs_drops_single_w (mkFormatConfig (Some "goimports") ["-w"; "-e"])
           "/src/a.go").
  - discriminate.
  - cbn. lia.
Defined.

(** A formatter run that succeeds yields one edit, from the start of the
    document to the end of its last line, whose text is the formatter's
    output. *)
Lemma formatDocument_single_edit :
  forall goConfig document stdout rest,
    snd (formatDocument goConfig document (ExecSuccess stdout :: rest))
    = Edits [mkTextEdit (mkRange (mkPosition 0 0) (fileEnd document)) stdout].
Proof. reflexivity. Qed.

(** C10 fails on the code: with [-w] twice in the settings, the formatter
    is run with [-w]. *)
Lemma formatDocument_passes_second_w :
  formatFlags gofmtWriteTwice = ["-w"; "-w"]
  /\ formatArgs gofmtWriteTwice (fileName sampleDocument) = ["-w"]
  /\ fst (formatDocument gofmtWriteTwice sampleDocument [ExecSuccess "package main"])
     = [ExecFile "gofmt" ["-w"]].
Proof. repeat split. Qed.

End Formatting.

(** ** Locating the language server *)

Section LanguageServerPath.
Import GoLanguageServer.

Lemma find_none_forall {A : Type} (p : A -> bool) (l : list A) :
  find p l = None <-> forall x, In x l -> p x = false.
Proof.
  induction l as [ | y l IH ]; cbn.
  - split; [ intros _ x [] | reflexivity ].
  - destruct (p y) eqn:Hy.
    + split; [ discriminate | ]. intros H. rewrite (H y (or_introl eq_refl)) in Hy.
      discriminate.
    + rewrite IH. split.
      * intros H x [<- | Hx]; auto.
      * intros H x Hx. apply H. now right.
Qed.

(** X4.  The folders have the same GOPATH exactly when every two of them do; no
    folders, one folder and an absent folder list count as the same. *)
Theorem allFoldersHaveSameGopath_iff :
  forall getCurrentGoPath folders,
    allFoldersHaveSameGopath getCurrentGoPath None = true
    /\ (allFoldersHaveSameGopath getCurrentGoPath (Some folders) = true
        <-> forall a b, In a folders -> In b folders ->
                        getCurrentGoPath a = getCurrentGoPath b).
Proof.
  intros g folders. split; [ reflexivity | ].
  unfold allFoldersHaveSameGopath.
  destruct folders as [ | x [ | y rest ] ].
  - cbn. split; [ intros _ a b [] | reflexivity ].
  - cbn. split; [ | reflexivity ].
    intros _ a b [<- | []] [<- | []]. reflexivity.
  - cbn [List.length Nat.leb nth].
    set (folders := x :: y :: rest).
    destruct (find (fun z => negb (String.eqb (g x) (g z))) folders) as [ w | ] eqn:Hfind.
    + split; [ discriminate | ]. intros Hall.
      apply find_some in Hfind as [Hw Hneq].
      rewrite (Hall x w (or_introl eq_refl) Hw), String.eqb_refl in Hneq.
      discriminate.
    + split; [ intros _ | reflexivity ].
      assert (Hx : forall z, In z folders -> g x = g z).
      { intros z Hz. pose proof (proj1 (find_none_forall _ _) Hfind z Hz) as H.
        apply negb_false_iff in H. now apply String.eqb_eq. }
      intros a b Ha Hb. now rewrite <- (Hx a Ha), <- (Hx b Hb).
Qed.

(** The two information messages that are worded differently in
    [goInstallTools.ts]: the latter has no hyphens in the first, and no full
    stop at the end of the second. *)
Definition reword (n : Notice) : Notice :=
  match n with
  | InformationMessage text =>
      if String.eqb text
           "The Go language server is currently not supported in a multi-root set-up with different GOPATHs."
      then InformationMessage
             "The Go language server is not supported in a multi root set up with different GOPATHs."
      else if String.eqb text "Reload VS Code window after installing the Go language server."
      then InformationMessage "Reload VS Code window after installing the Go language server"
      else n
  | other => other
  end.

(** X5.  The two copies of [getLanguageServerToolPath] return the same path,
    and show the same notices in the same order but for the wording of two
    information messages: the message about different GOPATHs, and the
    message to reload the window, which ends in a full stop in
    [goLanguageServer.ts] only.  Error messages and prompts for a missing
    tool are the same; and an absolute [gopls] path wins over
    [go-langserver]. *)
Theorem getLanguageServerToolPath_copies_agree :
  forall host,
    toolPath (getLanguageServerToolPath host)
    = toolPath (getLanguageServerToolPath_installTools host)
    /\ notices (getLanguageServerToolPath_installTools host)
       = List.map reword (notices (getLanguageServerToolPath host))
    /\ (forall text,
          In (ErrorMessage text) (notices (getLanguageServerToolPath host))
          <-> In (ErrorMessage text) (notices (getLanguageServerToolPath_installTools host)))
    /\ (forall toolName,
          In (PromptForMissingTool toolName) (notices (getLanguageServerToolPath host))
          <-> In (PromptForMissingTool toolName)
                (notices (getLanguageServerToolPath_installTools host)))
    /\ (useLanguageServerSetting host = true ->
        allFoldersHaveSameGopath (getCurrentGoPath host) (workspaceFolders host) = true ->
        isAbsolute host (getBinPath host "gopls") = true ->
        getLanguageServerToolPath host = mkToolPath (Some (getBinPath host "gopls")) []).
Proof.
  intros host.
  assert (Hsame : toolPath (getLanguageServerToolPath host)
                  = toolPath (getLanguageServerToolPath_installTools host)
                  /\ notices (getLanguageServerToolPath_installTools host)
                     = List.map reword (notices (getLanguageServerToolPath host))).
  { unfold getLanguageServerToolPath, getLanguageServerToolPath_installTools,
      languageServerOfChoice.
    destruct (useLanguageServerSetting host); cbn [negb]; [ | now split ].
    destruct (allFoldersHaveSameGopath (getCurrentGoPath host) (workspaceFolders host));
      cbn [negb]; [ | now split ].
    destruct (isAbsolute host (getBinPath host "gopls")); [ now split | ].
    destruct (isAbsolute host (getBinPath host "go-langserver")); [ now split | ].
    destruct (alternateTools host) as [ alt | ]; [ | now split ].
    destruct (altGopls alt), (altGoLangserver alt);
      match goal with
      | |- context [supportedServer ?c] => destruct (supportedServer c)
      end; now split. }
  destruct Hsame as [Hpath Hnotices].
  split; [ exact Hpath | ]. split; [ exact Hnotices | ].
  assert (Hkeep : forall n,
             (forall text, n <> InformationMessage text) ->
             In n (notices (getLanguageServerToolPath host))
             <-> In n (notices (getLanguageServerToolPath_installTools host))).
  { intros n Hn. rewrite Hnotices, in_map_iff. split.
    - intros H. exists n. split; [ | exact H ].
      destruct n; [ now destruct (Hn text) | reflexivity | reflexivity ].
    - intros (m & Hm & Hin). destruct m as [ text | text | toolName ].
      + exfalso. cbn [reword] in Hm.
        destruct (String.eqb text _); [ symmetry in Hm; now apply Hn in Hm | ].
        destruct (String.eqb text _); symmetry in Hm; now apply Hn in Hm.
      + cbn [reword] in Hm. now subst n.
      + cbn [reword] in Hm. now subst n. }
  split; [ intros text; apply Hkeep; discriminate | ].
  split; [ intros toolName; apply Hkeep; discriminate | ].
  intros Hon Hsamepath Habs. unfold getLanguageServerToolPath.
  now rewrite Hon, Hsamepath, Habs.
Qed.

Lemma getLanguageServerToolPath_copies_agree_witness :
  getLanguageServerToolPath
    (mkToolPathHost true (Some ["/w/a"; "/w/b"]) (fun _ => "/go")
       (fun tool => ("/go/bin/" ++ tool)%string) (fun _ => true) None (fun _ => None))
  = mkToolPath (Some "/go/bin/gopls") [].
Proof.
  apply (proj2 (proj2 (proj2 (proj2
           (getLanguageServerToolPath_copies_agree
              (mkToolPathHost true (Some ["/w/a"; "/w/b"]) (fun _ => "/go")
                 (fun tool => ("/go/bin/" ++ tool)%string) (fun _ => true) None
                 (fun _ => None)))))));
    reflexivity.
Defined.

Definition isLiveErrorsListener (d : Disposable) : bool :=
  match d with LiveErrorsListener => true | _ => false end.

Definition liveErrorsListeners (s : Session) : nat :=
  List.length (filter isLiveErrorsListener (subscriptions s)).

Lemma liveErrorsListeners_push d s :
  liveErrorsListeners (push d s)
  = liveErrorsListeners s + (if isLiveErrorsListener d then 1 else 0).
Proof.
  unfold liveErrorsListeners, push; cbn [subscriptions].
  rewrite filter_app, length_app; cbn. destruct (isLiveErrorsListener d); reflexivity.
Qed.

Lemma liveErrorsListeners_when b k s :
  (forall s', liveErrorsListeners (k s') = liveErrorsListeners s') ->
  liveErrorsListeners (when b k s) = liveErrorsListeners s.
Proof. intros Hk. unfold when. destruct b; [ apply Hk | reflexivity ]. Qed.

Lemma liveErrorsListeners_registerFallback f s :
  liveErrorsListeners (registerFallback f s) = liveErrorsListeners s.
Proof. unfold registerFallback. rewrite liveErrorsListeners_push. cbn. lia. Qed.

Lemma liveErrorsListeners_registerCompletionFallback s :
  liveErrorsListeners (registerCompletionFallback s) = liveErrorsListeners s.
Proof.
  unfold registerCompletionFallback.
  rewrite liveErrorsListeners_registerFallback, liveErrorsListeners_push. cbn. lia.
Qed.

Lemma liveErrorsListeners_onReady config initializeResult s :
  liveErrorsListeners (onReady config initializeResult s) = liveErrorsListeners s.
Proof.
  unfold onReady.
  destruct initializeResult as [ [ [ caps | ] ] | ]; cbn [capabilities];
    try reflexivity.
  unfold steps; cbn [fold_left].
  repeat (rewrite liveErrorsListeners_when;
          [ | intros; first [ apply liveErrorsListeners_registerCompletionFallback
                            | apply liveErrorsListeners_registerFallback ] ]).
  reflexivity.
Qed.

(** X6.  Live diagnostics through gotype and the diagnostics of gopls exclude
    each other: when [registerLanguageFeatures] resolves, the listener for
    live errors is subscribed exactly once, except when the server is
    enabled, is [gopls] and has its diagnostics toggled on; then it is not
    subscribed. *)
Theorem live_errors_listener_unless_gopls_diagnostics :
  forall env goConfig path tool initializeResult activation,
    registerLanguageFeatures env goConfig path tool initializeResult emptySession
    = Resolved activation ->
    liveErrorsListeners (session activation)
    = if useLanguageServer goConfig && String.eqb (name tool) "gopls"
         && diagnostics_ (languageServerExperimentalFeatures goConfig)
      then 0 else 1.
Proof.
  intros env goConfig path tool initializeResult activation.
  unfold registerLanguageFeatures, parseLanguageServerConfig.
  cbn [enabled features diagnostics].
  destruct (useLanguageServer goConfig); cbn [negb andb].
  - destruct (shouldUpdateLanguageServer env tool path) as [ update | e ];
      [ | discriminate ].
    intros H. inversion H; subst; cbn [session].
    rewrite liveErrorsListeners_onReady.
    destruct (String.eqb (name tool) "gopls"
              && diagnostics_ (languageServerExperimentalFeatures goConfig));
      reflexivity.
  - intros H. inversion H; subst; cbn [session]. reflexivity.
Qed.

(** The server enabled, with every experimental feature on. *)
Definition serverOn : GoConfig :=
  mkGoConfig true None
    (mkExperimentalFeatures true true true true true true true true true true
       true true true).

(** The server enabled, without its diagnostics. *)
Definition serverOnNoDiagnostics : GoConfig :=
  mkGoConfig true None
    (mkExperimentalFeatures true false true true true true true true true true
       true true true).

Lemma live_errors_listener_unless_gopls_diagnostics_witness :
  (exists activation,
      registerLanguageFeatures envGopls012 serverOn "/go/bin/gopls" gopls
        (ready fullCapabilities) emptySession
      = Resolved activation
      /\ liveErrorsListeners (session activation) = 0)
  /\ (exists activation,
        registerLanguageFeatures envGopls012 serverOnNoDiagnostics "/go/bin/gopls" gopls
          (ready fullCapabilities) emptySession
        = Resolved activation
        /\ liveErrorsListeners (session activation) = 1)
  /\ (exists activation,
        registerLanguageFeatures envGopls012 serverOff "/go/bin/gopls" gopls None
          emptySession
        = Resolved activation
        /\ liveErrorsListeners (session activation) = 1).
Proof.
  split; [ | split ].
  - eexists. split; [ reflexivity | ].
    exact (live_errors_listener_unless_gopls_diagnostics envGopls012 serverOn
             "/go/bin/gopls" gopls (ready fullCapabilities) _ eq_refl).
  - eexists. split; [ reflexivity | ].
    exact (live_errors_listener_unless_gopls_diagnostics envGopls012
             serverOnNoDiagnostics "/go/bin/gopls" gopls (ready fullCapabilities) _
             eq_refl).
  - eexists. split; [ reflexivity | ].
    exact (live_errors_listener_unless_gopls_diagnostics envGopls012 serverOff
             "/go/bin/gopls" gopls None _ eq_refl).
Defined.

End LanguageServerPath.

(** ** More on strings *)

Section StringFacts.

Definition isNot (x : ascii) (c : ascii) : bool := negb (Ascii.eqb c x).

Definition notWhiteSpace (c : ascii) : bool := negb (isWhiteSpace c).

Lemma split_no_sep sep a :
  JsString.forallb (isNot sep) a = true -> split sep a = [a].
Proof.
  induction a as [ | c a IH ]; cbn; [ reflexivity | ].
  unfold isNot at 1. intros H. apply andb_prop in H as [Hc Ha].
  apply negb_true_iff in Hc. rewrite Hc, (IH Ha). reflexivity.
Qed.

Lemma split_app_sep sep a b :
  JsString.forallb (isNot sep) a = true ->
  split sep (a ++ String sep b)%string = a :: split sep b.
Proof.
  induction a as [ | c a IH ]; cbn.
  - intros _. now rewrite Ascii.eqb_refl.
  - unfold isNot at 1. intros H. apply andb_prop in H as [Hc Ha].
    apply negb_true_iff in Hc. rewrite Hc, (IH Ha). reflexivity.
Qed.

Lemma trimStart_app_ws w b :
  JsString.forallb isWhiteSpace w = true -> trimStart (w ++ b)%string = trimStart b.
Proof.
  induction w as [ | c w IH ]; cbn; [ reflexivity | ].
  intros H. apply andb_prop in H as [Hc Hw]. now rewrite Hc, IH.
Qed.

Lemma trimStart_head c b : isWhiteSpace c = false -> trimStart (String c b) = String c b.
Proof. intros H. cbn. now rewrite H. Qed.

Lemma trimEnd_ws w : JsString.forallb isWhiteSpace w = true -> trimEnd w = EmptyString.
Proof.
  induction w as [ | c w IH ]; cbn; [ reflexivity | ].
  intros H. apply andb_prop in H as [Hc Hw]. now rewrite (IH Hw), Hc.
Qed.

Lemma trimEnd_solid k :
  JsString.forallb notWhiteSpace k = true -> trimEnd k = k.
Proof.
  induction k as [ | c k IH ]; cbn; [ reflexivity | ].
  unfold notWhiteSpace at 1. intros H. apply andb_prop in H as [Hc Hk].
  apply negb_true_iff in Hc. rewrite (IH Hk), Hc. destruct k; reflexivity.
Qed.

Lemma trimEnd_app_solid a k :
  k <> EmptyString -> JsString.forallb notWhiteSpace k = true ->
  trimEnd (a ++ k)%string = (a ++ k)%string.
Proof.
  intros Hne Hk. induction a as [ | c a IH ]; cbn.
  - now apply trimEnd_solid.
  - rewrite IH. destruct (a ++ k)%string eqn:E; [ | reflexivity ].
    destruct a; cbn in E; [ contradiction | discriminate ].
Qed.

Lemma trimEnd_app_ws a w :
  JsString.forallb isWhiteSpace w = true -> trimEnd (a ++ w)%string = trimEnd a.
Proof.
  intros Hw. induction a as [ | c a IH ]; cbn.
  - now apply trimEnd_ws.
  - now rewrite IH.
Qed.

Lemma forallb_imp (p q : ascii -> bool) s :
  (forall c, p c = true -> q c = true) ->
  JsString.forallb p s = true -> JsString.forallb q s = true.
Proof. apply forallb_weaken. Qed.

Lemma append_assoc (a b c : string) : ((a ++ b) ++ c = a ++ (b ++ c))%string.
Proof. induction a as [ | x a IH ]; cbn; [ reflexivity | now rewrite IH ]. Qed.


Lemma length_append (a b : string) :
  String.length (a ++ b) = String.length a + String.length b.
Proof. induction a as [ | x a IH ]; cbn; [ reflexivity | now rewrite IH ]. Qed.

Lemma take_append a b : take (String.length a) (a ++ b) = a.
Proof. induction a as [ | x a IH ]; cbn; [ now destruct b | now rewrite IH ]. Qed.

Lemma drop_append a b : drop (String.length a) (a ++ b) = b.
Proof. induction a as [ | x a IH ]; cbn; [ now destruct b | exact IH ]. Qed.

Lemma take_drop n s : (take n s ++ drop n s)%string = s.
Proof.
  revert s. induction n as [ | n IH ]; intros [ | c s ]; cbn; try reflexivity.
  now rewrite IH.
Qed.

Lemma length_take n s : String.length (take n s) = Nat.min n (String.length s).
Proof.
  revert s. induction n as [ | n IH ]; intros [ | c s ]; cbn; try reflexivity.
  now rewrite IH.
Qed.

Lemma length_drop n s : String.length (drop n s) = String.length s - n.
Proof.
  revert s. induction n as [ | n IH ]; intros [ | c s ]; cbn; try reflexivity.
  apply IH.
Qed.

Lemma startsWith_append p t : startsWith (p ++ t) p = true.
Proof.
  induction p as [ | c p IH ]; cbn; [ now destruct t | ].
  now rewrite Ascii.eqb_refl, IH.
Qed.

Lemma startsWith_refl s : startsWith s s = true.
Proof.
  induction s as [ | c s IH ]; cbn; [ reflexivity | now rewrite Ascii.eqb_refl, IH ].
Qed.



Lemma startsWith_short s p : String.length s < String.length p -> startsWith s p = false.
Proof.
  revert s. induction p as [ | c p IH ]; intros s; cbn; [ lia | ].
  destruct s as [ | d s ]; [ reflexivity | ]. cbn. intros H.
  rewrite (IH s); [ apply andb_false_r | lia ].
Qed.

Lemma endsWith_append a t : endsWith (a ++ t) t = true.
Proof.
  unfold endsWith. rewrite length_append.
  replace (String.length a + String.length t - String.length t) with (String.length a) by lia.
  rewrite drop_append, String.eqb_refl.
  replace (String.length t <=? String.length a + String.length t) with true; [ reflexivity | ].
  symmetry. apply Nat.leb_le. lia.
Qed.

Lemma endsWith_split s t :
  endsWith s t = true -> s = (take (String.length s - String.length t) s ++ t)%string.
Proof.
  unfold endsWith. intros H. apply andb_prop in H as [_ H].
  apply String.eqb_eq in H.
  pose proof (take_drop (String.length s - String.length t) s) as K.
  rewrite H in K. now symmetry.
Qed.

Lemma lastIndexOf_from_short i s t :
  String.length s < String.length t -> lastIndexOf_from i s t = None.
Proof.
  revert i. induction s as [ | c s IH ]; intros i H; cbn [lastIndexOf_from].
  - now rewrite startsWith_short.
  - rewrite IH by (cbn in H; lia).
    now rewrite startsWith_short.
Qed.

(** The last occurrence of a suffix that was appended is where it was
    appended. *)
Lemma lastIndexOf_from_append i a t :
  t <> EmptyString ->
  lastIndexOf_from i (a ++ t) t = Some (i + String.length a).
Proof.
  intros Ht. revert i. induction a as [ | c a IH ]; intros i.
  - cbn [append String.length]. rewrite Nat.add_0_r.
    destruct t as [ | d t ]; [ contradiction | ].
    cbn [lastIndexOf_from]. rewrite lastIndexOf_from_short by (cbn; lia).
    now rewrite startsWith_refl.
  - cbn [append lastIndexOf_from String.length]. rewrite IH. f_equal. lia.
Qed.

Lemma lastIndexOf_append a t :
  t <> EmptyString -> lastIndexOf (a ++ t) t = Some (String.length a).
Proof. intros Ht. unfold lastIndexOf. now rewrite lastIndexOf_from_append. Qed.

End StringFacts.

(** ** More on the update check *)

Section VersionGateEdges.
Import Semver GoLanguageServer.

(** Neither white space nor the at sign. *)
Definition plainChar (c : ascii) : bool := notWhiteSpace c && isNot AT c.

(** White space that does not end the line. *)
Definition blankChar (c : ascii) : bool := isWhiteSpace c && isNot LF c.

(** The sum line that [gopls version] prints second. *)
Definition sumLine (indent modulePath version checksum : string) : string :=
  (indent ++ (modulePath ++ String AT version) ++ String SPACE checksum)%string.

Lemma trim_sumLine indent modulePath version checksum :
  JsString.forallb blankChar indent = true ->
  JsString.forallb plainChar modulePath = true ->
  JsString.forallb plainChar version = true ->
  checksum <> EmptyString ->
  JsString.forallb notWhiteSpace checksum = true ->
  trim (sumLine indent modulePath version checksum)
  = ((modulePath ++ String AT version) ++ String SPACE checksum)%string.
Proof.
  intros Hi Hm Hv Hne Hc. unfold trim, sumLine.
  rewrite trimStart_app_ws
    by (apply (forallb_imp blankChar); [ | assumption ];
        intros c H; unfold blankChar in H; now apply andb_prop in H as [H _]).
  assert (Hstart :
    trimStart ((modulePath ++ String AT version) ++ String SPACE checksum)
    = ((modulePath ++ String AT version) ++ String SPACE checksum)%string).
  { destruct modulePath as [ | c m ]; cbn [append].
    - apply trimStart_head. reflexivity.
    - apply trimStart_head. cbn in Hm. apply andb_prop in Hm as [Hc0 _].
      unfold plainChar, notWhiteSpace in Hc0. apply andb_prop in Hc0 as [Hc0 _].
      now apply negb_true_iff in Hc0. }
  rewrite Hstart.
  replace ((modulePath ++ String AT version) ++ String SPACE checksum)%string
    with (((modulePath ++ String AT version) ++ String SPACE EmptyString) ++ checksum)%string
    by (now rewrite append_assoc).
  now apply trimEnd_app_solid.
Qed.

Lemma plain_no_space s :
  JsString.forallb plainChar s = true -> JsString.forallb (isNot SPACE) s = true.
Proof.
  apply forallb_imp. intros c H. unfold plainChar, notWhiteSpace in H.
  apply andb_prop in H as [H _]. apply negb_true_iff in H.
  unfold isNot. destruct (Ascii.eqb_spec c SPACE) as [-> | ]; [ discriminate | reflexivity ].
Qed.

Lemma plain_no_at s :
  JsString.forallb plainChar s = true -> JsString.forallb (isNot AT) s = true.
Proof.
  apply forallb_imp. intros c H. unfold plainChar in H. now apply andb_prop in H as [_ H].
Qed.

Lemma plain_solid s :
  JsString.forallb plainChar s = true -> JsString.forallb notWhiteSpace s = true.
Proof.
  apply forallb_imp. intros c H. unfold plainChar in H. now apply andb_prop in H as [H _].
Qed.

Lemma solid_no_space s :
  JsString.forallb notWhiteSpace s = true -> JsString.forallb (isNot SPACE) s = true.
Proof.
  apply forallb_imp. intros c H. unfold notWhiteSpace in H. apply negb_true_iff in H.
  unfold isNot. destruct (Ascii.eqb_spec c SPACE) as [-> | ]; [ discriminate | reflexivity ].
Qed.

Lemma blank_no_LF s :
  JsString.forallb blankChar s = true -> JsString.forallb (isNot LF) s = true.
Proof.
  apply forallb_imp. intros c H. unfold blankChar in H. now apply andb_prop in H as [_ H].
Qed.

Lemma solid_no_LF s :
  JsString.forallb notWhiteSpace s = true -> JsString.forallb (isNot LF) s = true.
Proof.
  apply forallb_imp. intros c H. unfold notWhiteSpace in H. apply negb_true_iff in H.
  unfold isNot. destruct (Ascii.eqb_spec c LF) as [-> | ]; [ discriminate | reflexivity ].
Qed.

Lemma trim_moduleVersion modulePath version :
  JsString.forallb plainChar modulePath = true ->
  JsString.forallb plainChar version = true ->
  trim (modulePath ++ String AT version) = (modulePath ++ String AT version)%string.
Proof.
  intros Hm Hv. unfold trim.
  assert (Hsolid : JsString.forallb notWhiteSpace (modulePath ++ String AT version) = true).
  { rewrite forallb_append, (plain_solid _ Hm). cbn. now rewrite (plain_solid _ Hv). }
  assert (Hstart : trimStart (modulePath ++ String AT version)
                   = (modulePath ++ String AT version)%string).
  { destruct modulePath as [ | c m ]; cbn [append]; apply trimStart_head.
    - reflexivity.
    - cbn in Hsolid. apply andb_prop in Hsolid as [Hc _]. now apply negb_true_iff in Hc. }
  rewrite Hstart. now apply trimEnd_solid.
Qed.

Lemma trim_surrounded lead s tail :
  JsString.forallb isWhiteSpace lead = true ->
  JsString.forallb isWhiteSpace tail = true ->
  trim ((lead ++ s) ++ tail) = trim s.
Proof.
  intros Hlead Htail. unfold trim.
  rewrite append_assoc, (trimStart_app_ws lead _ Hlead).
  induction s as [ | c s IH ].
  - cbn [append trimStart].
    replace (trimStart tail) with EmptyString; [ reflexivity | ].
    clear - Htail. induction tail as [ | c t IH ]; [ reflexivity | ].
    cbn in Htail |- *. apply andb_prop in Htail as [Hc Ht]. rewrite Hc. now apply IH.
  - cbn [append trimStart]. destruct (isWhiteSpace c); [ exact IH | ].
    change (String c (s ++ tail)) with (String c s ++ tail)%string.
    apply trimEnd_app_ws, Htail.
Qed.

(** X7.  On the output shape the code expects, a first line with a visible
    character and then a sum line [<module path>@<version> <checksum>],
    [goplsVersion] returns what stands between the at sign and the blank,
    whatever white space (blank lines included) comes before the first
    line, indents the sum line and follows the output.  When only white
    space comes before the sum line, a blank first line included, the
    output is cut down to one line and [goplsVersion] returns null. *)
Theorem goplsVersion_extracts_version :
  forall env goplsPath lead c0 line0 indent modulePath version checksum tail,
    JsString.forallb isWhiteSpace lead = true ->
    isWhiteSpace c0 = false ->
    JsString.forallb (isNot LF) line0 = true ->
    JsString.forallb blankChar indent = true ->
    JsString.forallb plainChar modulePath = true ->
    JsString.forallb plainChar version = true ->
    checksum <> EmptyString ->
    JsString.forallb notWhiteSpace checksum = true ->
    JsString.forallb isWhiteSpace tail = true ->
    (execFile env goplsPath ["version"]
     = ExecOk ((lead ++ String c0 line0
                ++ String LF (sumLine indent modulePath version checksum)) ++ tail) ->
     goplsVersion env goplsPath = Some version)
    /\ (execFile env goplsPath ["version"]
        = ExecOk ((lead ++ String LF (sumLine indent modulePath version checksum))
                  ++ tail) ->
        goplsVersion env goplsPath = None).
Proof.
  intros env goplsPath lead c0 line0 indent modulePath version checksum tail
    Hlead Hc0 Hl0 Hi Hm Hv Hne Hc Ht.
  assert (Hsum : JsString.forallb (isNot LF) (sumLine indent modulePath version checksum) = true).
  { unfold sumLine. rewrite !forallb_append. cbn [JsString.forallb].
    rewrite (blank_no_LF _ Hi), (solid_no_LF _ (plain_solid _ Hm)),
      (solid_no_LF _ (plain_solid _ Hv)), (solid_no_LF _ Hc). reflexivity. }
  split; intros Hexec; unfold goplsVersion; rewrite Hexec.
  - assert (Htrim :
      trim ((lead ++ String c0 line0
             ++ String LF (sumLine indent modulePath version checksum)) ++ tail)
      = (String c0 line0 ++ String LF (sumLine indent modulePath version checksum))%string).
    { rewrite (trim_surrounded _ _ _ Hlead Ht).
      unfold trim. cbn [append]. rewrite (trimStart_head c0 _ Hc0).
      unfold sumLine.
      replace (String c0 (line0 ++ String LF
                 (indent ++ (modulePath ++ String AT version) ++ String SPACE checksum)))
        with ((String c0 (line0 ++ String LF
                 (indent ++ (modulePath ++ String AT version) ++ String SPACE EmptyString)))
              ++ checksum)%string.
      - now apply trimEnd_app_solid.
      - cbn [append]. f_equal. rewrite append_assoc. cbn [append]. f_equal. f_equal.
        rewrite !append_assoc. reflexivity. }
    rewrite Htrim.
    assert (Hnl0 : JsString.forallb (isNot LF) (String c0 line0) = true).
    { cbn [JsString.forallb]. rewrite Hl0, andb_true_r. unfold isNot.
      destruct (Ascii.eqb_spec c0 LF) as [-> | ]; [ discriminate | reflexivity ]. }
    rewrite (split_app_sep LF _ _ Hnl0).
    rewrite (split_no_sep LF _ Hsum).
    cbn [List.length at_ nth_error orEmpty].
    rewrite (trim_sumLine _ _ _ _ Hi Hm Hv Hne Hc).
    assert (Hmv : JsString.forallb (isNot SPACE) (modulePath ++ String AT version) = true).
    { rewrite forallb_append. cbn [JsString.forallb].
      now rewrite (plain_no_space _ Hm), (plain_no_space _ Hv). }
    rewrite (split_app_sep SPACE _ _ Hmv).
    cbn [nth_error orEmpty].
    rewrite (trim_moduleVersion _ _ Hm Hv).
    rewrite (split_app_sep AT _ _ (plain_no_at _ Hm)), (split_no_sep AT _ (plain_no_at _ Hv)).
    reflexivity.
  - assert (Htrim :
      trim ((lead ++ String LF (sumLine indent modulePath version checksum)) ++ tail)
      = ((modulePath ++ String AT version) ++ String SPACE checksum)%string).
    { replace (lead ++ String LF (sumLine indent modulePath version checksum))%string
        with ((lead ++ String LF EmptyString)
              ++ sumLine indent modulePath version checksum)%string
        by (rewrite append_assoc; reflexivity).
      rewrite trim_surrounded; [ now apply trim_sumLine | | exact Ht ].
      rewrite forallb_append, Hlead. reflexivity. }
    rewrite Htrim.
    assert (Hline : JsString.forallb (isNot LF)
                      ((modulePath ++ String AT version) ++ String SPACE checksum) = true).
    { rewrite !forallb_append. cbn [JsString.forallb].
      rewrite (solid_no_LF _ (plain_solid _ Hm)), (solid_no_LF _ (plain_solid _ Hv)),
        (solid_no_LF _ Hc). reflexivity. }
    rewrite (split_no_sep LF _ Hline). reflexivity.
Qed.

Lemma goplsVersion_extracts_version_witness :
  goplsVersion
    (mkEnvironment
       (fun _ _ =>
          ExecOk ((String LF "  "
                   ++ "golang.org/x/tools/gopls 0.1.3"
                   ++ String LF (sumLine "    " "golang.org/x/tools/gopls" "v0.1.3"
                                   "h1:CB5ECiPysqZrwxcyRjN+exyZpY0gODTZvNiqQi3lpeo="))
                  ++ String LF EmptyString))
       (fun _ => Rejected (NetworkError "offline")))
    "/go/bin/gopls"
  = Some "v0.1.3"
  /\ goplsVersion
       (mkEnvironment
          (fun _ _ =>
             ExecOk ((String LF "  "
                      ++ String LF (sumLine "    " "golang.org/x/tools/gopls" "v0.1.3"
                                      "h1:CB5ECiPysqZrwxcyRjN+exyZpY0gODTZvNiqQi3lpeo="))
                     ++ String LF EmptyString))
          (fun _ => Rejected (NetworkError "offline")))
       "/go/bin/gopls"
     = None.
Proof.
  assert (Hne : "h1:CB5ECiPysqZrwxcyRjN+exyZpY0gODTZvNiqQi3lpeo=" <> EmptyString)
    by discriminate.
  split.
  - apply (proj1 (goplsVersion_extracts_version _ "/go/bin/gopls" (String LF "  ") "g"
                    "olang.org/x/tools/gopls 0.1.3" "    " "golang.org/x/tools/gopls"
                    "v0.1.3" "h1:CB5ECiPysqZrwxcyRjN+exyZpY0gODTZvNiqQi3lpeo="
                    (String LF EmptyString)
                    eq_refl eq_refl eq_refl eq_refl eq_refl eq_refl Hne eq_refl eq_refl)).
    reflexivity.
  - apply (proj2 (goplsVersion_extracts_version _ "/go/bin/gopls" (String LF "  ") "g"
                    "olang.org/x/tools/gopls 0.1.3" "    " "golang.org/x/tools/gopls"
                    "v0.1.3" "h1:CB5ECiPysqZrwxcyRjN+exyZpY0gODTZvNiqQi3lpeo="
                    (String LF EmptyString)
                    eq_refl eq_refl eq_refl eq_refl eq_refl eq_refl Hne eq_refl eq_refl)).
    reflexivity.
Defined.

Lemma trim_ws data : JsString.forallb isWhiteSpace data = true -> trim data = EmptyString.
Proof.
  intros H. unfold trim.
  replace (trimStart data) with EmptyString; [ reflexivity | ].
  induction data as [ | c d IH ]; cbn; [ reflexivity | ].
  cbn in H. apply andb_prop in H as [Hc Hd]. rewrite Hc. now apply IH.
Qed.

(** X8.  The registry answer always splits into at least one entry, so the
    guard for an empty version array never fires.  For [gopls] with an
    installed version that [semver] accepts: on an answer of white space
    only the single entry coerces to null, the sort of the one-entry array
    compares nothing, and [semver.lt] on null throws, so the check rejects
    with the TypeError [Invalid Version: null]; on an answer that is not a
    string (undefined, for an empty body) [data.trim()] throws and the check
    rejects with that TypeError.  Neither resolves to false. *)
Theorem blank_registry_list_rejects :
  forall env tool path u su,
    name tool = "gopls" ->
    goplsVersion env path = Some u -> u <> EmptyString -> u <> "(devel)" ->
    new_SemVer u = Version su ->
    (forall data, List.length (List.map coerce (split LF (trim data))) <> 0)
    /\ (forall data,
          JsString.forallb isWhiteSpace data = true ->
          webRequest env ("https://proxy.golang.org/" ++ importPath tool ++ "/@v/list")
          = Resolved (Some data) ->
          List.map coerce (split LF (trim data)) = [None]
          /\ sort_rcompare [None] = Resolved [None]
          /\ lt u None = Rejected (TypeError "Invalid Version: null")
          /\ shouldUpdateLanguageServer env tool path
             = Rejected (TypeError "Invalid Version: null"))
    /\ (webRequest env ("https://proxy.golang.org/" ++ importPath tool ++ "/@v/list")
        = Resolved None ->
        shouldUpdateLanguageServer env tool path
        = Rejected (TypeError "Cannot read property 'trim' of undefined")).
Proof.
  intros env tool path u su Hn Hv Hne Hdev Hsu.
  apply String.eqb_neq in Hdev.
  assert (Hlt : lt u None = Rejected (TypeError "Invalid Version: null"))
    by (unfold lt; now rewrite Hsu).
  split; [ | split ].
  - intros data. rewrite length_map.
    pose proof (split_length_pos LF (trim data)). lia.
  - intros data Hblank Hweb.
    assert (Hentries : List.map coerce (split LF (trim data)) = [None])
      by (now rewrite (trim_ws data Hblank)).
    split; [ exact Hentries | ]. split; [ reflexivity | ]. split; [ exact Hlt | ].
    unfold shouldUpdateLanguageServer, listURL.
    rewrite Hn, Hv, (truthy_Some u Hne), Hweb, String.eqb_refl. cbn [negb orEmpty].
    rewrite Hdev, Hentries. exact Hlt.
  - intros Hweb. unfold shouldUpdateLanguageServer, listURL.
    rewrite Hn, Hv, (truthy_Some u Hne), Hweb, String.eqb_refl. cbn [negb orEmpty].
    now rewrite Hdev.
Qed.

Lemma blank_registry_list_rejects_witness :
  shouldUpdateLanguageServer
    (mkEnvironment (fun _ _ => ExecOk goplsOutput012)
       (fun _ => Resolved (Some (String LF EmptyString))))
    gopls "/go/bin/gopls"
  = Rejected (TypeError "Invalid Version: null").
Proof.
  destruct (blank_registry_list_rejects
              (mkEnvironment (fun _ _ => ExecOk goplsOutput012)
                 (fun _ => Resolved (Some (String LF EmptyString))))
              gopls "/go/bin/gopls" "v0.1.2" v012 eq_refl eq_refl)
    as (_ & Hblank & _); try discriminate; [ reflexivity | ].
  apply (Hblank (String LF EmptyString)); reflexivity.
Defined.

(** X9.  A registry fetch that fails is not skipped: for an enabled [gopls]
    with a version of its own, the rejection of the fetch rejects the update
    check and with it [registerLanguageFeatures], before the client is
    created. *)
Theorem failed_fetch_rejects_registration :
  forall env goConfig path tool initializeResult ctx u e,
    useLanguageServer goConfig = true ->
    name tool = "gopls" ->
    goplsVersion env path = Some u -> u <> EmptyString -> u <> "(devel)" ->
    webRequest env (listURL tool) = Rejected e ->
    shouldUpdateLanguageServer env tool path = Rejected e
    /\ registerLanguageFeatures env goConfig path tool initializeResult ctx = Rejected e.
Proof.
  intros env goConfig path tool initializeResult ctx u e Hon Hn Hv Hne Hdev Hweb.
  assert (Hcheck : shouldUpdateLanguageServer env tool path = Rejected e).
  { unfold shouldUpdateLanguageServer.
    rewrite Hn, Hv, (truthy_Some u Hne), Hweb, String.eqb_refl. cbn [negb orEmpty].
    apply String.eqb_neq in Hdev. now rewrite Hdev. }
  split; [ assumption | ].
  unfold registerLanguageFeatures, parseLanguageServerConfig. cbn [enabled].
  now rewrite Hon, Hcheck.
Qed.

Lemma failed_fetch_rejects_registration_witness :
  registerLanguageFeatures
    (mkEnvironment (fun _ _ => ExecOk goplsOutput012)
       (fun _ => Rejected (NetworkError "ECONNREFUSED")))
    (mkGoConfig true None (languageServerExperimentalFeatures serverOff))
    "/go/bin/gopls" gopls None emptySession
  = Rejected (NetworkError "ECONNREFUSED").
Proof.
  apply (failed_fetch_rejects_registration
           (mkEnvironment (fun _ _ => ExecOk goplsOutput012)
              (fun _ => Rejected (NetworkError "ECONNREFUSED")))
           (mkGoConfig true None (languageServerExperimentalFeatures serverOff))
           "/go/bin/gopls" gopls None emptySession "v0.1.2");
    first [ reflexivity | discriminate ].
Defined.

End VersionGateEdges.

(** ** The update check against the registry list *)

Section RegistryComparison.
Import Semver GoLanguageServer.

(** Versions as they are written, and what they denote: the vocabulary of
    the specification, independent of the [semver] package. *)







































(** White space, solid characters and lines. *)












(** Lines, their body and its trimming. *)
























End RegistryComparison.

(** ** The linter's command line and its cancellation token *)

Section LintArguments.
Import JsString GoLint.

Lemma contains_occurrences l x : contains l x = negb (occurrences x l =? 0).
Proof.
  unfold contains. induction l as [|y l IH]; [reflexivity|].
  cbn [existsb occurrences]. rewrite IH, (String.eqb_sym x y).
  destruct (String.eqb y x); reflexivity.
Qed.

Lemma occurrences_single x y :
  occurrences x [y] = if String.eqb y x then 1 else 0.
Proof. cbn [occurrences]. now rewrite Nat.add_0_r. Qed.

(** [--json] is dropped by the loop over the flags. *)
Lemma lintFlags_json host flags acc :
  occurrences "--json" (fold_left (lintFlag host) flags acc)
  = occurrences "--json" acc.
Proof.
  revert acc. induction flags as [|f flags IH]; intros acc; [reflexivity|].
  cbn [fold_left]. rewrite IH. unfold lintFlag.
  destruct (String.eqb f "--json") eqn:Hj; [reflexivity|].
  destruct (startsWith f configFlag).
  - rewrite occurrences_app, occurrences_single. cbn. lia.
  - rewrite occurrences_app, occurrences_single, Hj. lia.
Qed.

(** Every other flag that is not a [--config=] flag is passed as often as
    it is configured. *)
Lemma lintFlags_other host x flags acc :
  String.eqb x "--json" = false ->
  startsWith x configFlag = false ->
  occurrences x (fold_left (lintFlag host) flags acc)
  = occurrences x acc + occurrences x flags.
Proof.
  intros Hj Hc. revert acc. induction flags as [|f flags IH]; intros acc.
  - cbn. lia.
  - cbn [fold_left occurrences]. rewrite IH. unfold lintFlag.
    destruct (String.eqb f "--json") eqn:Hfj.
    + apply String.eqb_eq in Hfj. subst f.
      rewrite (String.eqb_sym "--json" x), Hj. cbn [Nat.add]. lia.
    + destruct (startsWith f configFlag) eqn:Hfc.
      * rewrite occurrences_app, occurrences_single.
        destruct (String.eqb f x) eqn:Hfx.
        { apply String.eqb_eq in Hfx. subst f. congruence. }
        destruct (String.eqb (configFlag ++ _) x) eqn:Hrx; [|cbn [Nat.add]; lia].
        apply String.eqb_eq in Hrx. subst x.
        rewrite startsWith_append in Hc. discriminate Hc.
      * rewrite occurrences_app, occurrences_single.
        destruct (String.eqb f x); lia.
Qed.

(** X10.  The argument list of the linter never holds [--json]; with
    gometalinter it holds [--aggregate] exactly once when the settings name
    it at most once (it is added when missing and never doubled), with any
    other linter as often as the settings name it; every other flag that is
    neither a [--config=] flag nor [./...] is passed exactly as often as the
    settings name it. *)
Theorem lintCommand_arguments :
  forall host fileUri goConfig lintWorkspace,
    let flags := match lintFlags goConfig with Some l => l | None => [] end in
    let command := lintCommand host fileUri goConfig lintWorkspace in
    occurrences "--json" (runArgs command) = 0
    /\ occurrences "--aggregate" (runArgs command)
       = (if String.eqb (runTool_ command) "gometalinter"
          then Nat.max 1 (occurrences "--aggregate" flags)
          else occurrences "--aggregate" flags)
    /\ (forall x,
          String.eqb x "--json" = false ->
          startsWith x configFlag = false ->
          String.eqb x "--aggregate" = false ->
          String.eqb x "./..." = false ->
          occurrences x (runArgs command) = occurrences x flags).
Proof.
  intros host uri cfg ws flags command. subst command.
  unfold lintCommand. fold flags. cbn [runArgs runTool_].
  set (args := fold_left (lintFlag host) flags []).
  assert (Hjson : occurrences "--json" args = 0)
    by (unfold args; now rewrite lintFlags_json).
  assert (Hagg : occurrences "--aggregate" args = occurrences "--aggregate" flags)
    by (unfold args; now rewrite lintFlags_other).
  rewrite contains_occurrences, Hagg.
  set (gml := String.eqb (orDefault (lintTool cfg) "golint") "gometalinter").
  set (inWs := ws && truthy (getWorkspaceFolderPath host uri)).
  split; [|split].
  - destruct gml, (occurrences "--aggregate" flags =? 0), inWs;
      cbn [andb negb]; rewrite ?occurrences_app, ?occurrences_single, Hjson;
      reflexivity.
  - destruct (occurrences "--aggregate" flags =? 0) eqn:Hz;
      [apply Nat.eqb_eq in Hz | apply Nat.eqb_neq in Hz];
      destruct gml, inWs; cbn [andb negb];
      rewrite ?occurrences_app, ?occurrences_single, Hagg;
      cbn -[Nat.max occurrences]; lia.
  - intros x Hj Hc Ha Hd.
    assert (Hx : occurrences x args = occurrences x flags)
      by (unfold args; now rewrite lintFlags_other).
    rewrite (String.eqb_sym x _) in Ha. rewrite (String.eqb_sym x _) in Hd.
    destruct gml, (occurrences "--aggregate" flags =? 0), inWs;
      cbn [andb negb];
      rewrite ?occurrences_app, ?occurrences_single, ?Ha, ?Hd, Hx;
      cbn [Nat.add]; lia.
Qed.

(** The effects a run of events adds carry a cancelled token. *)
Definition launchedCancelled (e : Effect) : bool :=
  match e with
  | RunTool _ _ tokenCancelled => tokenCancelled
  | _ => true
  end.

Lemma step_keeps_cancellation host s e :
  cancellationRequested s = true ->
  cancellationRequested (step host s e) = true
  /\ exists new,
       effects (step host s e) = effects s ++ new
       /\ List.forallb launchedCancelled new = true.
Proof.
  intros Hc. destruct e as [id req|id result]; cbn [step].
  - unfold goLint. destruct (running s); cbn; rewrite ?Hc; split; try reflexivity.
    + exists [Cancel; RunTool id (lintCommand host (fileUri req) (goConfig req)
                                   (lintWorkspace req)) true].
      split; [now rewrite <- app_assoc | reflexivity].
    + eexists. split; reflexivity.
  - destruct (existsb (Nat.eqb id) (outstanding s)).
    + destruct result as [r|err]; cbn; (split; [exact Hc|]);
        eexists; split; reflexivity.
    + split; [exact Hc|]. exists []. now rewrite app_nil_r.
Qed.

Lemma run_keeps_cancellation host es s :
  cancellationRequested s = true ->
  cancellationRequested (run host es s) = true
  /\ exists new,
       effects (run host es s) = effects s ++ new
       /\ List.forallb launchedCancelled new = true.
Proof.
  revert s. induction es as [|e es IH]; intros s Hc.
  - split; [exact Hc|]. exists []. now rewrite app_nil_r.
  - destruct (step_keeps_cancellation host s e Hc) as (Hc1 & new1 & He1 & Hn1).
    destruct (IH _ Hc1) as (Hc2 & new2 & He2 & Hn2).
    unfold run in *. cbn [fold_left]. split; [exact Hc2|].
    exists (new1 ++ new2). rewrite He2, He1, <- app_assoc. split; [reflexivity|].
    now rewrite List.forallb_app, Hn1, Hn2.
Qed.

(** X11.  Cancellation is never reset: the one [tokenSource] of the module
    is not created anew, so once a lint request has arrived while [running]
    was set, that request's own run and every lint run launched by any later
    sequence of requests and completions is handed a token that is already
    cancelled. *)
Theorem lint_cancellation_is_sticky :
  forall host s id req later,
    running s = true ->
    let s1 := step host s (LintRequested id req) in
    cancellationRequested (run host later s1) = true
    /\ exists new,
         effects (run host later s1)
         = effects s ++ Cancel :: RunTool id (commandOf host req) true :: new
         /\ List.forallb launchedCancelled new = true.
Proof.
  intros host s id req later Hrun s1.
  assert (Hc1 : cancellationRequested s1 = true).
  { subst s1. cbn [step]. unfold goLint. rewrite Hrun. reflexivity. }
  destruct (run_keeps_cancellation host later s1 Hc1) as (Hc & new & He & Hn).
  split; [exact Hc|]. exists new. split; [|exact Hn].
  rewrite He. subst s1. rewrite (goLint_running host s id req Hrun).
  now rewrite <- app_assoc.
Qed.

Lemma lint_cancellation_is_sticky_witness :
  cancellationRequested
    (run sampleHost
       [ToolSettled 1 (Resolved [warningA]); ToolSettled 2 (Resolved [warningB]);
        LintRequested 3 sampleRequest]
       (step sampleHost (step sampleHost initial (LintRequested 1 sampleRequest))
          (LintRequested 2 sampleRequest))) = true
  /\ exists new,
       effects
         (run sampleHost
            [ToolSettled 1 (Resolved [warningA]); ToolSettled 2 (Resolved [warningB]);
             LintRequested 3 sampleRequest]
            (step sampleHost (step sampleHost initial (LintRequested 1 sampleRequest))
               (LintRequested 2 sampleRequest)))
       = effects (step sampleHost initial (LintRequested 1 sampleRequest))
         ++ Cancel :: RunTool 2 (commandOf sampleHost sampleRequest) true :: new
       /\ List.forallb launchedCancelled new = true.
Proof.
  apply (lint_cancellation_is_sticky sampleHost
           (step sampleHost initial (LintRequested 1 sampleRequest))
           2 sampleRequest
           [ToolSettled 1 (Resolved [warningA]); ToolSettled 2 (Resolved [warningB]);
            LintRequested 3 sampleRequest]).
  reflexivity.
Defined.

End LintArguments.

(** ** Checks on edit *)

Section ChecksOnEdit.
Import JsString GoCheck.











(** The pattern for generated files accepts every first line of the form
    it describes. *)
Lemma isGenerated_accepts middle :
  JsString.forallb (fun c => negb (isLineTerminator c)) middle = true ->
  isGenerated (generatedPrefix ++ middle ++ generatedSuffix) = true.
Proof.
  intros Hm. unfold isGenerated.
  assert (He : endsWith (generatedPrefix ++ middle ++ generatedSuffix) generatedSuffix
               = true).
  { rewrite <- append_assoc. apply endsWith_append. }
  rewrite He, startsWith_append, drop_append, !length_append.
  replace (String.length generatedPrefix
           + (String.length middle + String.length generatedSuffix)
           - (String.length generatedPrefix + String.length generatedSuffix))
    with (String.length middle) by lia.
  rewrite take_append, Hm, !andb_true_r. apply Nat.leb_le. lia.
Qed.

End ChecksOnEdit.

(** ** Installing tools *)

Section Installing.
Import JsString GoTools InstallTools.
Local Open Scope install_scope.

(** [m] settles when at least [n] outcomes are supplied; it consumes at
    most [n] of them, and what it emits and returns satisfies [Q]. *)
Definition settles {A : Type} (m : M A) (n : nat) (Q : list Effect -> A -> Prop) : Prop :=
  forall outcomes,
    n <= List.length outcomes ->
    exists effects a rest,
      m outcomes = (effects, Some (a, rest))
      /\ List.length outcomes <= List.length rest + n
      /\ Q effects a.

Definition anything {A : Type} (effects : list Effect) (a : A) : Prop := True.

Lemma settles_ret {A : Type} (a : A) (Q : list Effect -> A -> Prop) :
  Q [] a -> settles (ret a) 0 Q.
Proof.
  intros HQ outcomes _. exists [], a, outcomes. repeat split; [lia | exact HQ].
Qed.

Lemma settles_weaken {A : Type} (m : M A) n n' (Q Q' : list Effect -> A -> Prop) :
  settles m n Q -> n <= n' -> (forall e a, Q e a -> Q' e a) -> settles m n' Q'.
Proof.
  intros Hm Hle HQ outcomes Hlen.
  destruct (Hm outcomes ltac:(lia)) as (e & a & rest & Heq & Hrest & Hq).
  exists e, a, rest. repeat split; [exact Heq | lia | now apply HQ].
Qed.

Lemma settles_bind {A B : Type} (m : M A) (k : A -> M B) n p
    (Q : list Effect -> A -> Prop) (R : A -> list Effect -> B -> Prop)
    (S : list Effect -> B -> Prop) :
  settles m n Q ->
  (forall a, settles (k a) p (R a)) ->
  (forall e1 a e2 b, Q e1 a -> R a e2 b -> S (e1 ++ e2) b) ->
  settles (bind m k) (n + p) S.
Proof.
  intros Hm Hk HS outcomes Hlen.
  destruct (Hm outcomes ltac:(lia)) as (e1 & a & rest1 & Heq1 & Hrest1 & Hq).
  destruct (Hk a rest1 ltac:(lia)) as (e2 & b & rest2 & Heq2 & Hrest2 & Hr).
  exists (e1 ++ e2), b, rest2. unfold bind. rewrite Heq1, Heq2.
  repeat split; [lia | now apply (HS e1 a e2 b)].
Qed.

Lemma settles_emit (e : Effect) : settles (emit e) 0 anything.
Proof.
  intros outcomes _. exists [e], tt, outcomes. repeat split. lia.
Qed.

Lemma settles_execFile file args env :
  settles (execFile file args env) 1
    (fun effects _ => effects = [ExecFile file args env]).
Proof.
  intros [|o outcomes] Hlen; [cbn in Hlen; lia|].
  exists [ExecFile file args env], o, outcomes. repeat split. cbn. lia.
Qed.

(** A chain that settles within [n] outcomes, whatever it emits. *)
Ltac settle k :=
  eapply (settles_weaken _ k _ anything); [ | lia | trivial ].

Ltac settle_bind :=
  eapply settles_bind with (R := fun _ => anything); [ | | intros; exact I ].

Lemma settles_callback host env tool o :
  settles (callback host env tool o) 1 anything.
Proof.
  unfold callback. destruct (execErr o) as [err|].
  - settle (0 + 0). settle_bind; [apply settles_emit | intros; now apply settles_ret].
  - settle (0 + (0 + (1 + (0 + 0)))). settle_bind; [apply settles_emit | intros _].
    destruct (String.eqb (name tool) "gometalinter").
    + settle_bind; [apply settles_emit | intros _].
      settle_bind; [eapply settles_weaken;
                    [apply settles_execFile | lia | intros; exact I] | intros o2].
      destruct (execErr o2).
      * settle 0. now apply settles_ret.
      * settle_bind; [apply settles_emit | intros; now apply settles_ret].
    + settle 0. now apply settles_ret.
Qed.

Definition needsClose (host : Host) (tool : Tool) : bool :=
  isAbsolute host (getBinPath host (name tool)) && isGocode host tool.

Lemma settles_closeTool host tool :
  settles (closeTool host tool) 1
    (fun _ success => needsClose host tool = false -> success = true).
Proof.
  unfold closeTool, needsClose.
  destruct (isAbsolute host (getBinPath host (name tool)) && isGocode host tool).
  - eapply settles_weaken with (n := 1 + (0 + 0)) (Q := anything); [ | lia | ].
    + settle_bind; [eapply settles_weaken;
                    [apply settles_execFile | lia | intros; exact I] | intros o].
      destruct (includes (execStderr o) _).
      * settle_bind; [apply settles_emit | intros; now apply settles_ret].
      * settle 0. now apply settles_ret.
    + intros _ a _ H. discriminate H.
  - apply (settles_weaken _ 0 _ (fun _ success => success = true));
      [apply settles_ret; reflexivity | lia | intros e a H _; exact H].
Qed.

(** [go get] was run for the tool. *)
Definition attempted (host : Host) (env : list (string * string))
    (goRuntimePath : string) (tool : Tool) (effects : list Effect) : Prop :=
  In (ExecFile goRuntimePath (getArgs host tool) (Some env)) effects.

Lemma settles_goGet host env goRuntimePath toolsGopath tool :
  settles
    (o <- execFile goRuntimePath (getArgs host tool) (Some env) ;;
     if includes (execStderr o) "unexpected directory layout:" then
       emit (AppendLine ("Installing " ++ name tool ++ " failed with error "
                         ++ quoted "unexpected directory layout" ++ ". Retrying...")) ;;;
       o2 <- execFile goRuntimePath (getArgs host tool) (Some env) ;;
       callback host env tool o2
     else if isNull (execErr o) && modulesOnly host tool then
       let outputFile :=
         joinPath host [toolsGopath; "bin";
                        if win32 host then (name tool ++ ".exe")%string else name tool] in
       o2 <- execFile goRuntimePath
               ["build"; "-o"; outputFile; getImportPath host tool] (Some env) ;;
       callback host env tool o2
     else callback host env tool o)
    3
    (fun effects _ => attempted host env goRuntimePath tool effects).
Proof.
  eapply settles_weaken with (n := 1 + 2); [ | lia | intros e a H; exact H ].
  eapply settles_bind with (R := fun _ => anything); [apply settles_execFile | | ].
  - intros o. destruct (includes (execStderr o) _).
    + settle (0 + (1 + 1)). settle_bind; [apply settles_emit | intros _].
      settle_bind; [eapply settles_weaken;
                    [apply settles_execFile | lia | intros; exact I] | intros o2].
      apply settles_callback.
    + destruct (isNull (execErr o) && modulesOnly host tool).
      * settle (1 + 1).
        settle_bind; [eapply settles_weaken;
                      [apply settles_execFile | lia | intros; exact I] | intros o2].
        apply settles_callback.
      * settle 1. apply settles_callback.
  - intros e1 a e2 b -> _. unfold attempted. now left.
Qed.

Lemma settles_installTool host env goRuntimePath toolsGopath tool :
  settles (installTool host env goRuntimePath toolsGopath tool) 4
    (fun effects _ =>
       needsClose host tool = false -> attempted host env goRuntimePath tool effects).
Proof.
  unfold installTool.
  eapply settles_weaken with (n := 1 + 3); [ | lia | intros e a H; exact H ].
  eapply settles_bind with
    (R := fun success effects (_ : option string) =>
            success = true -> attempted host env goRuntimePath tool effects);
    [apply settles_closeTool | | ].
  - intros [|]; cbn [negb].
    + eapply settles_weaken;
        [apply settles_goGet | lia | intros e a H _; exact H].
    + apply (settles_weaken _ 0 _ (fun _ _ => False -> False));
        [apply settles_ret; trivial | lia | intros e a _ H; discriminate H].
  - intros e1 success e2 b Hclose Hget Hneeds. unfold attempted.
    apply in_or_app. right. apply Hget. now apply Hclose.
Qed.

Lemma settles_installAll host env goRuntimePath toolsGopath missing :
  forall sofar,
    settles (installAll host env goRuntimePath toolsGopath missing sofar)
      (4 * List.length missing)
      (fun effects res =>
         List.length res = List.length sofar + List.length missing
         /\ forall tool,
              In tool missing -> needsClose host tool = false ->
              attempted host env goRuntimePath tool effects).
Proof.
  induction missing as [|tool missing IH]; intros sofar; cbn [installAll].
  - apply settles_ret. cbn. split; [lia | intros tool []].
  - eapply settles_weaken with (n := 4 + 4 * List.length missing);
      [ | cbn [List.length]; lia | intros e a H; exact H ].
    eapply settles_bind with
      (R := fun r effects res =>
              List.length res = List.length (sofar ++ [r]) + List.length missing
              /\ forall tool,
                   In tool missing -> needsClose host tool = false ->
                   attempted host env goRuntimePath tool effects);
      [apply settles_installTool | intros r; apply IH | ].
    intros e1 r e2 res Htool [Hlen Hrest]. split.
    + rewrite Hlen, length_app. cbn. lia.
    + intros t [<-|Hin] Hneeds; unfold attempted; apply in_or_app.
      * left. now apply Htool.
      * right. now apply Hrest.
Qed.

Lemma truthy_cases (o : option string) :
  truthy o = true -> exists c t, o = Some (String c t).
Proof.
  destruct o as [[|c t]|]; intros H; try discriminate H. now exists c, t.
Qed.

Lemma envForTools_defined host :
  truthy (getToolsGopath host) || truthy (getCurrentGoPath host) = true ->
  exists env toolsGopath, envForTools host = Some (env, toolsGopath).
Proof.
  intros H. unfold envForTools.
  destruct (truthy (getToolsGopath host)) eqn:Ht.
  - destruct (truthy_cases _ Ht) as (c & t & ->). eauto.
  - cbn [orb] in H. destruct (truthy_cases _ H) as (c & t & ->). eauto.
Qed.

(** X13.  [installTools] never gives up on a failure: when the go binary is
    known, a GOPATH for the tools is available and every child process it
    starts calls back (at most four per tool), the promise it returns
    resolves, whatever the outcomes were; the reduction has produced exactly
    one entry per tool, and the output ends with the summary of those
    entries. *)
Theorem installTools_resolves_with_summary :
  forall host missing outcomes,
    getBinPath host "go" <> "" ->
    truthy (getToolsGopath host) || truthy (getCurrentGoPath host) = true ->
    4 * List.length missing <= List.length outcomes ->
    exists env toolsGopath effects res rest,
      envForTools host = Some (env, toolsGopath)
      /\ installAll host env (getBinPath host "go") toolsGopath missing [] outcomes
         = (effects, Some (res, rest))
      /\ List.length res = List.length missing
      /\ installTools host (Some missing) outcomes
         = (announce host toolsGopath missing ++ effects ++ summary missing res,
            PromiseResolved).
Proof.
  intros host missing outcomes Hgo Hpath Hlen.
  destruct (envForTools_defined host Hpath) as (env & toolsGopath & Henv).
  destruct (settles_installAll host env (getBinPath host "go") toolsGopath missing []
              outcomes Hlen) as (effects & res & rest & Hall & _ & Hres & _).
  exists env, toolsGopath, effects, res, rest.
  split; [exact Henv|]. split; [exact Hall|]. split; [exact Hres|].
  unfold installTools. apply String.eqb_neq in Hgo. now rewrite Hgo, Henv, Hall.
Qed.

(** X14.  A failed installation never stops the others: under the same
    conditions [go get -u -v] is run, with the environment built for the
    tools, for every tool of the list that has no running gocode process to
    be closed first. *)
Theorem installTools_attempts_every_tool :
  forall host missing outcomes tool,
    getBinPath host "go" <> "" ->
    4 * List.length missing <= List.length outcomes ->
    In tool missing ->
    needsClose host tool = false ->
    forall env toolsGopath,
      envForTools host = Some (env, toolsGopath) ->
      In (ExecFile (getBinPath host "go") (getArgs host tool) (Some env))
        (fst (installTools host (Some missing) outcomes)).
Proof.
  intros host missing outcomes tool Hgo Hlen Hin Hneeds env toolsGopath Henv.
  destruct (settles_installAll host env (getBinPath host "go") toolsGopath missing []
              outcomes Hlen) as (effects & res & rest & Hall & _ & _ & Hatt).
  unfold installTools. apply String.eqb_neq in Hgo. rewrite Hgo, Henv, Hall.
  cbn [fst]. apply in_or_app. right. apply in_or_app. left.
  now apply Hatt.
Qed.

Definition installHost : Host :=
  mkHost (fun tool => ("/go/bin/" ++ tool)%string) (fun _ => true) importPath
    (fun _ => false) (fun tool => String.eqb (name tool) "gocode")
    [("PATH", "/usr/bin"); ("GOBIN", "/usr/local/bin")] "/usr/bin"
    (Some "http://proxy:3128") None (Some "/go:/extra")
    (ascii_of_nat 58) "/" false (joinStr "/").

Definition goGetFailed : ExecOutcome :=
  mkExecOutcome (Some "Error: Command failed: go get") "" "package not found".

Definition goGetSucceeded : ExecOutcome := mkExecOutcome None "" "".

Definition sampleOutcomes : list ExecOutcome :=
  [goGetFailed; goGetSucceeded; goGetSucceeded; goGetSucceeded;
   goGetSucceeded; goGetSucceeded; goGetSucceeded; goGetSucceeded].

Lemma installTools_resolves_with_summary_witness :
  exists env toolsGopath effects res rest,
    envForTools installHost = Some (env, toolsGopath)
    /\ installAll installHost env (getBinPath installHost "go") toolsGopath
         [gopls; goreturns] [] sampleOutcomes
       = (effects, Some (res, rest))
    /\ List.length res = List.length [gopls; goreturns]
    /\ installTools installHost (Some [gopls; goreturns]) sampleOutcomes
       = (announce installHost toolsGopath [gopls; goreturns] ++ effects
          ++ summary [gopls; goreturns] res,
          PromiseResolved).
Proof.
  apply (installTools_resolves_with_summary installHost [gopls; goreturns]
           sampleOutcomes).
  - discriminate.
  - reflexivity.
  - cbn. lia.
Defined.

Lemma installTools_attempts_every_tool_witness :
  In (ExecFile "/go/bin/go" ["get"; "-u"; "-v"; "github.com/sqs/goreturns"]
        (Some [("PATH", "/usr/bin"); ("GOBIN", "/usr/local/bin");
               ("http_proxy", "http://proxy:3128"); ("HTTP_PROXY", "http://proxy:3128");
               ("https_proxy", "http://proxy:3128"); ("HTTPS_PROXY", "http://proxy:3128");
               ("GOPATH", "/go"); ("GO111MODULE", "off")]))
    (fst (installTools installHost (Some [gopls; goreturns]) sampleOutcomes)).
Proof.
  apply (installTools_attempts_every_tool installHost [gopls; goreturns]
           sampleOutcomes goreturns) with (toolsGopath := "/go").
  - discriminate.
  - cbn. lia.
  - cbn. now right; left.
  - reflexivity.
  - reflexivity.
Defined.

Lemma lookup_assign_same k v env :
  GoLint.lookupEnv k (GoLint.assignEnv k v env) = Some v.
Proof.
  induction env as [|[k' v'] env IH]; cbn.
  - now rewrite String.eqb_refl.
  - destruct (String.eqb k k') eqn:E; cbn; [now rewrite String.eqb_refl|].
    now rewrite E.
Qed.

Lemma lookup_assign_other k k' v env :
  String.eqb k' k = false ->
  GoLint.lookupEnv k' (GoLint.assignEnv k v env) = GoLint.lookupEnv k' env.
Proof.
  intros Hne. induction env as [|[k0 v0] env IH]; cbn.
  - now rewrite Hne.
  - destruct (String.eqb k k0) eqn:E; cbn.
    + apply String.eqb_eq in E. subst k0. now rewrite Hne.
    + now rewrite IH.
Qed.

Lemma split_head_prefix sep s :
  exists first rest more,
    split sep s = first :: rest
    /\ JsString.forallb (isNot sep) first = true
    /\ s = (first ++ more)%string
    /\ (more = "" \/ exists more', more = String sep more').
Proof.
  induction s as [|c s (first & rest & more & Hs & Hf & Hm & Hmore)]; cbn [split].
  - exists "", [], "". repeat split. now left.
  - destruct (Ascii.eqb c sep) eqn:E.
    + apply Ascii.eqb_eq in E. subst c.
      exists "", (split sep s), (String sep s). repeat split. right. now exists s.
    + rewrite Hs. exists (String c first), rest, more. repeat split.
      * cbn. unfold isNot at 1. now rewrite E, Hf.
      * cbn. now rewrite <- Hm.
      * exact Hmore.
Qed.

(** The proxy and Go variables [installTools] sets. *)
Definition isToolVariable (k : string) : bool :=
  existsb (String.eqb k)
    ["http_proxy"; "HTTP_PROXY"; "https_proxy"; "HTTPS_PROXY";
     "GOBIN"; "GOPATH"; "GO111MODULE"].

(** X15.  The environment [installTools] builds for [go get]: GO111MODULE is
    [off]; GOPATH is the first entry of [go.toolsGopath] when that is set
    and of the current GOPATH otherwise, so it contains no path delimiter;
    GOBIN is emptied exactly when [go.toolsGopath] is set; a non-empty
    [http.proxy] setting overrides the four proxy variables; every other
    variable is that of the extension's own process. *)
Theorem envForTools_variables :
  forall host env toolsGopath,
    envForTools host = Some (env, toolsGopath) ->
    GoLint.lookupEnv "GO111MODULE" env = Some "off"
    /\ GoLint.lookupEnv "GOPATH" env = Some toolsGopath
    /\ JsString.forallb (isNot (delimiter host)) toolsGopath = true
    /\ (exists more,
          (if truthy (getToolsGopath host)
           then getToolsGopath host else getCurrentGoPath host)
          = Some (toolsGopath ++ more)%string
          /\ (more = "" \/ exists more', more = String (delimiter host) more'))
    /\ GoLint.lookupEnv "GOBIN" env
       = (if truthy (getToolsGopath host) then Some ""
          else GoLint.lookupEnv "GOBIN" (processEnv host))
    /\ (forall k,
          In k ["http_proxy"; "HTTP_PROXY"; "https_proxy"; "HTTPS_PROXY"] ->
          GoLint.lookupEnv k env
          = (if truthy (httpProxy host) then httpProxy host
             else GoLint.lookupEnv k (processEnv host)))
    /\ (forall k,
          isToolVariable k = false ->
          GoLint.lookupEnv k env = GoLint.lookupEnv k (processEnv host)).
Proof.
  intros host env toolsGopath. unfold envForTools.
  set (env0 := match httpProxy host with
               | Some (String c p) => assignProxy (String c p) (processEnv host)
               | _ => processEnv host
               end).
  assert (Hproxy : forall k,
             In k ["http_proxy"; "HTTP_PROXY"; "https_proxy"; "HTTPS_PROXY"] ->
             GoLint.lookupEnv k env0
             = (if truthy (httpProxy host) then httpProxy host
                else GoLint.lookupEnv k (processEnv host))).
  { intros k Hk. subst env0. destruct (httpProxy host) as [[|c p]|]; try reflexivity.
    cbn [truthy]. unfold assignProxy.
    cbn [In] in Hk. destruct Hk as [<-|[<-|[<-|[<-|[]]]]];
      repeat first [ apply lookup_assign_same
                   | rewrite lookup_assign_other by reflexivity ]. }
  assert (Hother0 : forall k, isToolVariable k = false ->
             GoLint.lookupEnv k env0 = GoLint.lookupEnv k (processEnv host)).
  { intros k Hk. unfold isToolVariable in Hk. cbn [existsb] in Hk.
    repeat (apply orb_false_iff in Hk as [? Hk]).
    subst env0. destruct (httpProxy host) as [[|c p]|]; try reflexivity.
    unfold assignProxy. now rewrite !lookup_assign_other. }
  set (choice := if truthy (getToolsGopath host)
                 then (GoLint.assignEnv "GOBIN" "" env0, getToolsGopath host)
                 else (env0, getCurrentGoPath host)).
  assert (Hchoice : snd choice = if truthy (getToolsGopath host)
                                 then getToolsGopath host else getCurrentGoPath host)
    by (subst choice; now destruct (truthy (getToolsGopath host))).
  assert (Hbin : GoLint.lookupEnv "GOBIN" (fst choice)
                 = if truthy (getToolsGopath host) then Some ""
                   else GoLint.lookupEnv "GOBIN" (processEnv host)).
  { subst choice. destruct (truthy (getToolsGopath host)); cbn [fst].
    - apply lookup_assign_same.
    - subst env0. destruct (httpProxy host) as [[|c p]|]; try reflexivity.
      unfold assignProxy. now rewrite !lookup_assign_other by reflexivity. }
  assert (Hkeep : forall k, String.eqb k "GOBIN" = false ->
             GoLint.lookupEnv k (fst choice) = GoLint.lookupEnv k env0).
  { intros k Hk. subst choice. destruct (truthy (getToolsGopath host)); cbn [fst];
      [now apply lookup_assign_other | reflexivity]. }
  rewrite <- Hchoice. destruct choice as [env1 gopath]. cbn [fst snd] in *.
  destruct gopath as [[|c p]|]; try discriminate.
  destruct (split_head_prefix (delimiter host) (String c p))
    as (first & rest & more & Hs & Hf & Hm & Hmore).
  rewrite Hs. intros H. inversion H; subst env toolsGopath. clear H.
  split; [apply lookup_assign_same|].
  split; [rewrite lookup_assign_other by reflexivity; apply lookup_assign_same|].
  split; [exact Hf|].
  split; [exists more; split; [now rewrite Hm | exact Hmore]|].
  split; [now rewrite !lookup_assign_other by reflexivity|].
  split.
  - intros k Hk. rewrite <- (Hproxy k Hk), <- Hkeep.
    + cbn [In] in Hk. destruct Hk as [<-|[<-|[<-|[<-|[]]]]];
        now rewrite !lookup_assign_other by reflexivity.
    + cbn [In] in Hk. destruct Hk as [<-|[<-|[<-|[<-|[]]]]]; reflexivity.
  - intros k Hk. rewrite <- (Hother0 k Hk).
    unfold isToolVariable in Hk. cbn [existsb] in Hk.
    repeat (apply orb_false_iff in Hk as [? Hk]).
    rewrite !lookup_assign_other by assumption. now apply Hkeep.
Qed.

Lemma envForTools_variables_witness :
  GoLint.lookupEnv "GO111MODULE"
    [("PATH", "/usr/bin"); ("GOBIN", "/usr/local/bin");
     ("http_proxy", "http://proxy:3128"); ("HTTP_PROXY", "http://proxy:3128");
     ("https_proxy", "http://proxy:3128"); ("HTTPS_PROXY", "http://proxy:3128");
     ("GOPATH", "/go"); ("GO111MODULE", "off")] = Some "off"
  /\ JsString.forallb (isNot (delimiter installHost)) "/go" = true.
Proof.
  destruct (envForTools_variables installHost
              [("PATH", "/usr/bin"); ("GOBIN", "/usr/local/bin");
               ("http_proxy", "http://proxy:3128"); ("HTTP_PROXY", "http://proxy:3128");
               ("https_proxy", "http://proxy:3128"); ("HTTPS_PROXY", "http://proxy:3128");
               ("GOPATH", "/go"); ("GO111MODULE", "off")]
              "/go" eq_refl) as (Hmod & _ & Hdelim & _).
  split; [exact Hmod | exact Hdelim].
Defined.

End Installing.

(** ** The prompt for a missing tool *)

Section MissingToolPrompt.
Import JsString GoTools InstallTools.

Variable host : Host.
Variable getTool : string -> Tool.
Variable configuredTools : list Tool.
Variable fileExists : string -> bool.

Lemma getMissingTools_spec tool :
  In tool (getMissingTools host configuredTools fileExists)
  <-> In tool configuredTools /\ fileExists (getBinPath host (name tool)) = false.
Proof.
  unfold getMissingTools. rewrite in_flat_map. split.
  - intros (x & Hx & Hin). apply in_map_iff in Hx as (t & <- & Ht).
    destruct (fileExists (getBinPath host (name t))) eqn:E; [contradiction|].
    destruct Hin as [<-|[]]. now split.
  - intros [Hin Hf]. exists (Some tool). split; [|now left].
    apply in_map_iff. exists tool. now rewrite Hf.
Qed.

Lemma containsTool_In l tool : containsTool l tool = true <-> In tool l.
Proof.
  unfold containsTool. rewrite existsb_exists. split.
  - intros (x & Hin & Hx). apply Tool_eqb_eq in Hx. now subst x.
  - intros Hin. exists tool. split; [exact Hin | apply Tool_eqb_refl].
Qed.

(** X16.  [promptForMissingTool] shows its install prompt only for a tool
    that is not declined, is among the configured tools and whose binary
    does not exist.  The list its [Install All] closes over always contains
    the tool itself, and only the tool when the tool is not important.
    Whatever the user answers, the tool is pushed onto [declinedInstalls],
    so that a later call for the same name shows nothing; and because the
    cases fall through, the answer [Install] calls [installTools] twice:
    for the tool and again for the whole list that contains it. *)
Theorem promptForMissingTool_answered :
  forall declinedInstalls goVersionBelow9 toolName effects prompt,
    promptForMissingTool host getTool configuredTools fileExists
      declinedInstalls goVersionBelow9 toolName
    = (effects, Some prompt) ->
    let tool := getTool toolName in
    promptTool prompt = tool
    /\ containsTool declinedInstalls tool = false
    /\ In tool configuredTools
    /\ fileExists (getBinPath host (name tool)) = false
    /\ In tool (promptMissing prompt)
    /\ (isImportant tool = false ->
        forall x, In x (promptMissing prompt) -> x = tool)
    /\ forall selected,
         let answered := missingToolSelected getTool prompt selected declinedInstalls in
         (forall goVersionBelow9',
             promptForMissingTool host getTool configuredTools fileExists
               (snd answered) goVersionBelow9' toolName = ([], None))
         /\ (selected = Some "Install" ->
             exists first,
               fst answered
               = [InstallToolsCall (tool :: first);
                  InstallToolsCall (promptMissing prompt); HideGoStatus]).
Proof.
  intros declined below9 toolName effects prompt. unfold promptForMissingTool.
  set (tool := getTool toolName).
  destruct (containsTool declined tool) eqn:Hd; [discriminate|].
  destruct (below9 && String.eqb (name tool) "golint"); [discriminate|].
  destruct (below9 && String.eqb (name tool) "gotests"); [discriminate|].
  destruct (containsTool (getMissingTools host configuredTools fileExists) tool)
    eqn:Hm; [|discriminate].
  cbn [negb]. intros H. inversion H; subst effects prompt. clear H.
  cbn [promptTool promptMissing].
  apply containsTool_In in Hm. pose proof Hm as Hmiss.
  apply getMissingTools_spec in Hmiss as [Hconf Hfile].
  split; [reflexivity|]. split; [reflexivity|]. split; [exact Hconf|].
  split; [exact Hfile|]. split.
  { apply filter_In. split; [exact Hm|]. now rewrite Tool_eqb_refl. }
  split.
  { intros Himp x Hx. apply filter_In in Hx as [_ Hx]. rewrite Himp in Hx.
    rewrite orb_false_r in Hx. now apply Tool_eqb_eq in Hx. }
  intros selected. unfold missingToolSelected. cbn [promptTool promptMissing fst snd].
  split.
  - intros below9'. fold tool.
    now rewrite containsTool_app, Tool_eqb_refl, orb_true_r.
  - intros ->. change (String.eqb "Install" "Install") with true. cbv iota.
    destruct (String.eqb (name tool) "gocode-gomod"); eexists; reflexivity.
Qed.

End MissingToolPrompt.

Section MissingToolPromptSample.
Import JsString GoTools InstallTools.

Definition sampleGetTool (toolName : string) : Tool :=
  if String.eqb toolName "gopls" then gopls else goreturns.

Definition samplePrompt : Prompt :=
  mkPrompt goreturns [gopls; goreturns]
    ("The " ++ quoted "goreturns" ++ " command is not available. Run "
     ++ quoted "go get -v github.com/sqs/goreturns" ++ " to install.")
    ["Install"].

Lemma promptForMissingTool_answered_witness :
  promptTool samplePrompt = sampleGetTool "goreturns"
  /\ In (sampleGetTool "goreturns") (promptMissing samplePrompt)
  /\ promptForMissingTool installHost sampleGetTool [gopls; goreturns] (fun _ => false)
       (snd (missingToolSelected sampleGetTool samplePrompt (Some "Install") []))
       false "goreturns"
     = ([], None).
Proof.
  destruct (promptForMissingTool_answered installHost sampleGetTool [gopls; goreturns]
              (fun _ => false) [] false "goreturns"
              [ShowInformationMessage (promptMessage samplePrompt) ["Install"]]
              samplePrompt eq_refl) as (Htool & _ & _ & _ & Hin & _ & Hanswer).
  split; [exact Htool|]. split; [exact Hin|].
  exact (proj1 (Hanswer (Some "Install")) false).
Defined.

End MissingToolPromptSample.

(** ** GOPATH, GOROOT and the search path *)

Section GoEnvironmentFacts.
Import JsString GoTools InstallTools.

Variable host : Host.
Variable resolvePath : string -> string.
Variable dirname : string -> string.

Lemma split_append_sep sep a b :
  split sep (a ++ String sep b) = split sep a ++ split sep b.
Proof.
  induction a as [|c a IH]; cbn [append split app].
  - now rewrite Ascii.eqb_refl.
  - destruct (Ascii.eqb c sep); [now rewrite IH|].
    rewrite IH. destruct (split sep a) as [|h t] eqn:E; [|reflexivity].
    now destruct (split_not_nil sep a).
Qed.

Lemma pathEnvVar_cases env var :
  pathEnvVar host env = Some var -> var = "PATH" \/ var = "Path".
Proof.
  unfold pathEnvVar. destruct (isSome (GoLint.lookupEnv "PATH" env)).
  - intros H. inversion H. now left.
  - destruct (win32 host && isSome (GoLint.lookupEnv "Path" env)); [|discriminate].
    intros H. inversion H. now right.
Qed.

Lemma pathEnvVar_assign env var v :
  pathEnvVar host env = Some var ->
  pathEnvVar host (GoLint.assignEnv var v env) = Some var.
Proof.
  unfold pathEnvVar. destruct (isSome (GoLint.lookupEnv "PATH" env)) eqn:Hp.
  - intros H. inversion H; subst var. now rewrite lookup_assign_same.
  - destruct (win32 host && isSome (GoLint.lookupEnv "Path" env)) eqn:Hw; [|discriminate].
    intros H. inversion H; subst var.
    rewrite lookup_assign_other by reflexivity. rewrite Hp.
    apply andb_prop in Hw as [Hw _]. now rewrite Hw, lookup_assign_same.
Qed.

Lemma extendPath_other base env k :
  String.eqb k "PATH" = false -> String.eqb k "Path" = false ->
  GoLint.lookupEnv k (extendPath host base env) = GoLint.lookupEnv k env.
Proof.
  intros H1 H2. unfold extendPath.
  destruct (pathEnvVar host env) as [var|] eqn:Hv; [|reflexivity].
  destruct (GoLint.lookupEnv var env) as [[|c p]|]; try reflexivity.
  destruct (negb _ && negb _); [|reflexivity].
  destruct (pathEnvVar_cases _ _ Hv) as [->| ->]; now apply lookup_assign_other.
Qed.

(** X18.  The directory of the go binary is appended to the search path
    only when it is not one of its entries: when the directory name
    contains no path delimiter, extending an already extended environment
    changes nothing, however often the configuration is read again; and
    whenever a non-empty search path and directory name were there, the
    directory is one of the entries afterwards while every earlier entry
    is kept. *)
Theorem extendPath_idempotent :
  forall goRuntimeBasePath env,
    JsString.forallb (isNot (delimiter host)) goRuntimeBasePath = true ->
    extendPath host goRuntimeBasePath (extendPath host goRuntimeBasePath env)
    = extendPath host goRuntimeBasePath env
    /\ forall var c p,
         pathEnvVar host env = Some var ->
         GoLint.lookupEnv var env = Some (String c p) ->
         goRuntimeBasePath <> "" ->
         exists value,
           GoLint.lookupEnv var (extendPath host goRuntimeBasePath env) = Some value
           /\ In goRuntimeBasePath (split (delimiter host) value)
           /\ forall entry,
                In entry (split (delimiter host) (String c p)) ->
                In entry (split (delimiter host) value).
Proof.
  intros base env Hbase. split.
  - unfold extendPath at 2 3.
    destruct (pathEnvVar host env) as [var|] eqn:Hv;
      [|unfold extendPath; now rewrite Hv].
    destruct (GoLint.lookupEnv var env) as [[|c p]|] eqn:Hl;
      try (unfold extendPath; now rewrite Hv, Hl).
    destruct (negb (String.eqb base "")
              && negb (existsb (String.eqb base) (split (delimiter host) (String c p))))
      eqn:Hcond; [|unfold extendPath; now rewrite Hv, Hl, Hcond].
    unfold extendPath. rewrite (pathEnvVar_assign _ _ _ Hv), lookup_assign_same.
    cbn [append].
    change (String c (p ++ String (delimiter host) base))%string
      with (String c p ++ String (delimiter host) base)%string.
    rewrite (split_append_sep (delimiter host) (String c p) base).
    rewrite existsb_app, (split_no_sep _ _ Hbase). cbn [existsb].
    now rewrite String.eqb_refl, orb_true_r, andb_false_r.
  - intros var c p Hv Hl Hne. unfold extendPath. rewrite Hv, Hl.
    apply String.eqb_neq in Hne. rewrite Hne. cbn [negb andb].
    destruct (existsb (String.eqb base) (split (delimiter host) (String c p))) eqn:Hex;
      cbn [negb].
    + exists (String c p). split; [exact Hl|]. split; [|trivial].
      apply existsb_exists in Hex as (x & Hin & Hx).
      apply String.eqb_eq in Hx. now subst x.
    + exists (String c p ++ String (delimiter host) base)%string.
      split; [apply lookup_assign_same|].
      rewrite split_append_sep, (split_no_sep _ _ Hbase).
      split; [apply in_or_app; right; now left | intros; apply in_or_app; now left].
Qed.

Lemma goEnvAnswered_keeps stdout env :
  (truthy (GoLint.lookupEnv "GOPATH" env) = true ->
   GoLint.lookupEnv "GOPATH" (goEnvAnswered stdout env) = GoLint.lookupEnv "GOPATH" env)
  /\ (truthy (GoLint.lookupEnv "GOROOT" env) = true ->
      GoLint.lookupEnv "GOROOT" (goEnvAnswered stdout env) = GoLint.lookupEnv "GOROOT" env)
  /\ (forall k, String.eqb k "GOPATH" = false -> String.eqb k "GOROOT" = false ->
        GoLint.lookupEnv k (goEnvAnswered stdout env) = GoLint.lookupEnv k env).
Proof.
  unfold goEnvAnswered.
  set (first := match nth_error (split LF stdout) 0 with
                | Some l => trim l | None => "" end).
  set (env1 := if negb (truthy (GoLint.lookupEnv "GOPATH" env))
                  && negb (String.eqb first "")
               then GoLint.assignEnv "GOPATH" first env else env).
  assert (H1 : truthy (GoLint.lookupEnv "GOPATH" env) = true -> env1 = env).
  { intros H. subst env1. now rewrite H. }
  assert (H2 : forall k, String.eqb k "GOPATH" = false ->
                         GoLint.lookupEnv k env1 = GoLint.lookupEnv k env).
  { intros k Hk. subst env1. destruct (negb _ && negb _); [|reflexivity].
    now apply lookup_assign_other. }
  split; [|split].
  - intros H. rewrite <- (f_equal (GoLint.lookupEnv "GOPATH") (H1 H)). clearbody env1.
    destruct (nth_error (split LF stdout) 1) as [[|c l]|]; try reflexivity.
    destruct (negb (truthy (GoLint.lookupEnv "GOROOT" env1)) && _); [|reflexivity].
    now rewrite lookup_assign_other.
  - intros H. rewrite <- (H2 "GOROOT" eq_refl) in H.
    rewrite <- (H2 "GOROOT" eq_refl). clearbody env1.
    destruct (nth_error (split LF stdout) 1) as [[|c l]|]; try reflexivity.
    now rewrite H.
  - intros k Hp Hr. rewrite <- (H2 k Hp). clearbody env1.
    destruct (nth_error (split LF stdout) 1) as [[|c l]|]; try reflexivity.
    destruct (negb (truthy (GoLint.lookupEnv "GOROOT" env1)) && _); [|reflexivity].
    now apply lookup_assign_other.
Qed.

(** X17.  [updateGoPathGoRootFromConfig] never overwrites a GOPATH that is
    set: whatever [go env] prints, a non-empty GOPATH of the process is
    left as it is.  A [go.goroot] setting that resolves to a non-empty path
    always wins over the GOROOT that [go env] prints.  No variable other
    than GOPATH, GOROOT, PATH and Path is touched. *)
Theorem updateGoPathGoRootFromConfig_keeps :
  forall goroot env outcome,
    let env' := fst (fst (updateGoPathGoRootFromConfig host resolvePath dirname
                            goroot env outcome)) in
    (truthy (GoLint.lookupEnv "GOPATH" env) = true ->
     GoLint.lookupEnv "GOPATH" env' = GoLint.lookupEnv "GOPATH" env)
    /\ (forall c g,
          goroot = Some (String c g) -> resolvePath (String c g) <> "" ->
          GoLint.lookupEnv "GOROOT" env' = Some (resolvePath (String c g)))
    /\ (forall k,
          existsb (String.eqb k) ["GOPATH"; "GOROOT"; "PATH"; "Path"] = false ->
          GoLint.lookupEnv k env' = GoLint.lookupEnv k env).
Proof.
  intros goroot env outcome env'. subst env'.
  unfold updateGoPathGoRootFromConfig.
  set (env1 := match goroot with
               | Some (String c g) =>
                   GoLint.assignEnv "GOROOT" (resolvePath (String c g)) env
               | _ => env
               end).
  assert (Hroot : forall k, String.eqb k "GOROOT" = false ->
                            GoLint.lookupEnv k env1 = GoLint.lookupEnv k env).
  { intros k Hk. subst env1. destruct goroot as [[|c g]|]; try reflexivity.
    now apply lookup_assign_other. }
  set (base := dirname (getBinPath host "go")).
  assert (Hfinal : forall k,
             String.eqb k "PATH" = false -> String.eqb k "Path" = false ->
             (String.eqb k "GOPATH" = false /\ String.eqb k "GOROOT" = false
              \/ truthy (GoLint.lookupEnv k env1) = true) ->
             GoLint.lookupEnv k
               (fst (fst
                  (if truthy (GoLint.lookupEnv "GOPATH" env1)
                      && truthy (GoLint.lookupEnv "GOROOT" env1)
                   then (env1, [], EnvResolved)
                   else
                     if String.eqb (getBinPath host "go") ""
                     then (env1,
                           [ShowErrorMessage
                              ("Failed to run " ++ quoted "go env"
                               ++ " to find GOPATH as the " ++ quoted "go"
                               ++ " binary cannot be found in either GOROOT("
                               ++ textOf (GoLint.lookupEnv "GOROOT" env1)
                               ++ ") or PATH(" ++ envPath host ++ ")")],
                           EnvUndefined)
                     else
                       match outcome with
                       | None =>
                           (extendPath host base env1,
                            [ExecFile (getBinPath host "go") ["env"; "GOPATH"; "GOROOT"]
                               None],
                            EnvPending)
                       | Some o =>
                           match execErr o with
                           | Some _ =>
                               (extendPath host base env1,
                                [ExecFile (getBinPath host "go")
                                   ["env"; "GOPATH"; "GOROOT"] None],
                                EnvRejected)
                           | None =>
                               (goEnvAnswered (execStdout o) (extendPath host base env1),
                                [ExecFile (getBinPath host "go")
                                   ["env"; "GOPATH"; "GOROOT"] None],
                                EnvResolved)
                           end
                       end)))
             = GoLint.lookupEnv k env1).
  { intros k Hp1 Hp2 Hk.
    destruct (truthy (GoLint.lookupEnv "GOPATH" env1)
              && truthy (GoLint.lookupEnv "GOROOT" env1)); [reflexivity|].
    destruct (String.eqb (getBinPath host "go") ""); [reflexivity|].
    pose proof (extendPath_other base env1 k Hp1 Hp2) as Hext.
    destruct outcome as [o|]; [|exact Hext].
    destruct (execErr o); [exact Hext|]. cbn [fst].
    destruct (goEnvAnswered_keeps (execStdout o) (extendPath host base env1))
      as (Hgp & Hgr & Hgo).
    destruct Hk as [[Hk1 Hk2]|Hk].
    - now rewrite Hgo.
    - destruct (String.eqb k "GOPATH") eqn:E1.
      + apply String.eqb_eq in E1. subst k. rewrite Hgp; [exact Hext|].
        now rewrite Hext.
      + destruct (String.eqb k "GOROOT") eqn:E2.
        * apply String.eqb_eq in E2. subst k. rewrite Hgr; [exact Hext|].
          now rewrite Hext.
        * now rewrite Hgo. }
  split; [|split].
  - intros Hgp. rewrite <- (Hroot "GOPATH" eq_refl). apply Hfinal; try reflexivity.
    right. now rewrite (Hroot "GOPATH" eq_refl).
  - intros c g -> Hne. subst env1. cbv iota beta.
    rewrite Hfinal; try reflexivity; [apply lookup_assign_same|].
    right. rewrite lookup_assign_same.
    destruct (resolvePath (String c g)); [contradiction | reflexivity].
  - intros k Hk. cbn [existsb] in Hk.
    repeat (apply orb_false_iff in Hk as [? Hk]).
    rewrite <- (Hroot k) by assumption. apply Hfinal; try assumption.
    left. now split.
Qed.

End GoEnvironmentFacts.

Section GoEnvironmentSample.
Import JsString GoTools InstallTools.

Lemma extendPath_idempotent_witness :
  extendPath installHost "/usr/local/go/bin"
    (extendPath installHost "/usr/local/go/bin" [("PATH", "/usr/bin:/bin")])
  = [("PATH", "/usr/bin:/bin:/usr/local/go/bin")].
Proof.
  rewrite (proj1 (extendPath_idempotent installHost "/usr/local/go/bin"
                    [("PATH", "/usr/bin:/bin")] eq_refl)).
  reflexivity.
Defined.

End GoEnvironmentSample.

(** ** The formatting provider *)

Section FormattingProvider.
Import JsString GoFormat.

Definition formatterError : string :=
  "Check the console in dev tools to find errors when formatting.".

Lemma formatDocument_rejections goConfig document outcomes effects reason :
  formatDocument goConfig document outcomes = (effects, Reject reason) ->
  reason = (missingToolMsg ++ toolOrDefault goConfig)%string \/ reason = formatterError.
Proof.
  revert effects. induction outcomes as [|o outcomes IH]; intros effects;
    cbn [formatDocument]; [discriminate|].
  destruct o as [stdout| |stderr].
  - discriminate.
  - intros H. inversion H. now left.
  - destruct (String.eqb (toolOrDefault goConfig) "goreturns" && _).
    + destruct (formatDocument goConfig document outcomes) as [effs r] eqn:E.
      intros H. inversion H; subst. now destruct r.
    + intros H. inversion H. now right.
Qed.

Lemma in_map_FormatterEffect toolName effects :
  ~ In (PromptForMissingTool toolName) (map FormatterEffect effects).
Proof.
  intros H. apply in_map_iff in H as (e & He & _). discriminate He.
Qed.

(** X19.  The formatting provider turns every rejection of the formatter
    into an empty list of edits, and the tool it asks to install is always
    the configured format tool: the name it cuts out of the rejection
    message is the name [formatDocument] put in.  When the first run
    finds no binary, the provider prompts for that tool once and resolves
    with no edits. *)
Theorem provideDocumentFormattingEdits_missing_tool :
  forall goConfig document outcomes,
    let provided := provideDocumentFormattingEdits goConfig document outcomes in
    (forall toolName,
        In (PromptForMissingTool toolName) (fst provided) ->
        toolName = toolOrDefault goConfig)
    /\ (forall reason,
          snd (formatDocument goConfig document outcomes) = Reject reason ->
          snd provided = Some [])
    /\ (forall rest,
          outcomes = ExecENOENT :: rest ->
          provided
          = ([FormatterEffect
                (ExecFile (toolOrDefault goConfig)
                   (formatArgs goConfig (fileName document)));
              PromptForMissingTool (toolOrDefault goConfig)],
             Some [])).
Proof.
  intros goConfig document outcomes provided. subst provided.
  unfold provideDocumentFormattingEdits. split; [|split].
  - intros toolName.
    destruct (formatDocument goConfig document outcomes) as [effects settled] eqn:E.
    destruct settled as [edits|reason|]; cbn [fst].
    + intros H. now apply in_map_FormatterEffect in H.
    + intros H. apply in_app_or in H as [H|H];
        [now apply in_map_FormatterEffect in H|].
      destruct H as [H|[]].
      destruct (formatDocument_rejections _ _ _ _ _ E) as [-> | ->].
      * rewrite startsWith_append, drop_append in H. now inversion H.
      * discriminate H.
    + intros H. now apply in_map_FormatterEffect in H.
  - intros reason.
    destruct (formatDocument goConfig document outcomes) as [effects settled].
    cbn [snd]. now intros ->.
  - intros rest ->. cbn [formatDocument map app].
    now rewrite startsWith_append, drop_append.
Qed.

Definition srcdirError : string := "flag provided but not defined: -srcdir".

(** The launches and prompts of [n] failed runs. *)
Fixpoint retries (goConfig : FormatConfig) (document : TextDocument) (n : nat)
  : list Effect :=
  match n with
  | O => []
  | S n' =>
      ExecFile "goreturns" (formatArgs goConfig (fileName document))
      :: PromptForUpdatingTool "goreturns" :: retries goConfig document n'
  end.

(** X20.  With [goreturns], a run that fails with the [-srcdir] flag error
    makes [formatDocument] prompt for an update and start over with the
    very same arguments, [-srcdir] included: after any number of such
    failures it has launched the formatter once more than it failed and
    prompted once per failure.  Its promise resolves with the edits of the
    next run when that run succeeds.  A rejection of a retried run is not
    passed on: after one or more such failures, when the next run finds no
    binary or fails otherwise, the promise never settles; nor does it while
    every run fails with the flag error. *)
Theorem formatDocument_goreturns_retries :
  forall goConfig document stderrs rest,
    toolOrDefault goConfig = "goreturns" ->
    Forall (fun stderr => startsWith stderr srcdirError = true) stderrs ->
    In "-srcdir" (formatArgs goConfig (fileName document))
    /\ fst (formatDocument goConfig document (map ExecError stderrs ++ rest))
       = retries goConfig document (List.length stderrs)
         ++ fst (formatDocument goConfig document rest)
    /\ (forall edits,
          snd (formatDocument goConfig document rest) = Edits edits ->
          snd (formatDocument goConfig document (map ExecError stderrs ++ rest))
          = Edits edits)
    /\ (forall reason,
          stderrs <> [] ->
          snd (formatDocument goConfig document rest) = Reject reason ->
          snd (formatDocument goConfig document (map ExecError stderrs ++ rest))
          = Pending)
    /\ (snd (formatDocument goConfig document rest) = Pending ->
        snd (formatDocument goConfig document (map ExecError stderrs ++ rest))
        = Pending)
    /\ formatDocument goConfig document (map ExecError stderrs)
       = (retries goConfig document (List.length stderrs)
          ++ [ExecFile "goreturns" (formatArgs goConfig (fileName document))],
          Pending).
Proof.
  intros goConfig document stderrs rest Htool Hall.
  assert (Hstep : forall stderr outcomes,
             startsWith stderr srcdirError = true ->
             formatDocument goConfig document (ExecError stderr :: outcomes)
             = (ExecFile "goreturns" (formatArgs goConfig (fileName document))
                :: PromptForUpdatingTool "goreturns"
                :: fst (formatDocument goConfig document outcomes),
                thenResolve (snd (formatDocument goConfig document outcomes)))).
  { intros stderr outcomes Hs. cbn [formatDocument].
    rewrite Htool. change (String.eqb "goreturns" "goreturns") with true.
    fold srcdirError. rewrite Hs. cbn [andb].
    now destruct (formatDocument goConfig document outcomes). }
  assert (Heffects : forall rest,
             fst (formatDocument goConfig document (map ExecError stderrs ++ rest))
             = retries goConfig document (List.length stderrs)
               ++ fst (formatDocument goConfig document rest)).
  { clear rest. intros rest. induction Hall as [|stderr stderrs Hs Hall IH];
      [ reflexivity | ].
    cbn [map app List.length retries]. rewrite (Hstep _ _ Hs). cbn [fst].
    now rewrite IH. }
  assert (Hedits : forall edits,
             snd (formatDocument goConfig document rest) = Edits edits ->
             snd (formatDocument goConfig document (map ExecError stderrs ++ rest))
             = Edits edits).
  { clear Heffects. intros edits Hrest. induction Hall as [|stderr stderrs Hs Hall IH];
      [ exact Hrest | ].
    cbn [map app]. rewrite (Hstep _ _ Hs). cbn [snd]. now rewrite IH. }
  assert (Hunsettled : forall outcomes,
             (forall edits, snd (formatDocument goConfig document outcomes) <> Edits edits) ->
             stderrs <> [] ->
             snd (formatDocument goConfig document (map ExecError stderrs ++ outcomes))
             = Pending).
  { clear Heffects Hedits. intros outcomes Hno Hne.
    induction Hall as [|stderr stderrs Hs Hall IH]; [ contradiction | ].
    cbn [map app]. rewrite (Hstep _ _ Hs). cbn [snd].
    destruct stderrs as [|stderr' stderrs].
    - cbn [map app].
      destruct (snd (formatDocument goConfig document outcomes)) as [edits|reason|];
        [ now destruct (Hno edits) | reflexivity | reflexivity ].
    - now rewrite IH. }
  split; [|split; [|split; [|split; [|split]]]].
  - unfold formatArgs. rewrite Htool.
    change (String.eqb "goreturns" "goreturns") with true. rewrite orb_true_r.
    apply in_or_app. right. now left.
  - apply Heffects.
  - exact Hedits.
  - intros reason Hne Hrest. apply Hunsettled; [ | exact Hne ].
    intros edits. rewrite Hrest. discriminate.
  - intros Hrest. destruct stderrs as [|stderr stderrs]; [ exact Hrest | ].
    apply Hunsettled; [ | discriminate ].
    intros edits. rewrite Hrest. discriminate.
  - pose proof (Heffects []) as He. rewrite app_nil_r in He.
    destruct (formatDocument goConfig document (map ExecError stderrs)) as [effs r] eqn:E.
    cbn [fst] in He. rewrite He. cbn [formatDocument fst]. rewrite Htool. f_equal.
    destruct stderrs as [|stderr stderrs].
    + cbn in E. now inversion E.
    + assert (Hp : snd (formatDocument goConfig document
                          (map ExecError (stderr :: stderrs) ++ [])) = Pending).
      { apply Hunsettled; [ | discriminate ]. intros edits. discriminate. }
      rewrite app_nil_r, E in Hp. exact Hp.
Qed.

Lemma formatDocument_goreturns_retries_witness :
  formatDocument (mkFormatConfig None ["-w"]) (mkTextDocument "/src/a.go" "package a" [])
    (map ExecError [srcdirError; srcdirError])
  = (retries (mkFormatConfig None ["-w"]) (mkTextDocument "/src/a.go" "package a" []) 2
     ++ [ExecFile "goreturns" ["-srcdir"; "/src/a.go"]],
     Pending)
  /\ snd (formatDocument (mkFormatConfig None ["-w"])
            (mkTextDocument "/src/a.go" "package a" [])
            (map ExecError [srcdirError] ++ [ExecENOENT]))
     = Pending.
Proof.
  assert (Hall : Forall (fun stderr => startsWith stderr srcdirError = true)
                   [srcdirError; srcdirError]) by (repeat constructor).
  assert (Hone : Forall (fun stderr => startsWith stderr srcdirError = true)
                   [srcdirError]) by (repeat constructor).
  assert (Hne : [srcdirError] <> []) by discriminate.
  split.
  - exact (proj2 (proj2 (proj2 (proj2 (proj2
             (formatDocument_goreturns_retries (mkFormatConfig None ["-w"])
                (mkTextDocument "/src/a.go" "package a" [])
                [srcdirError; srcdirError] [] eq_refl Hall)))))).
  - exact (proj1 (proj2 (proj2 (proj2
             (formatDocument_goreturns_retries (mkFormatConfig None ["-w"])
                (mkTextDocument "/src/a.go" "package a" [])
                [srcdirError] [ExecENOENT] eq_refl Hone))))
             "Missing tool: goreturns" Hne eq_refl).
Defined.

End FormattingProvider.

(** ** Renaming *)

Section Renaming.
Import GoRename.

(** Lower case of a code unit below 256: the letters A to Z, and the
    letters from U+00C0 to U+00DE but for the multiplication sign, are 32
    below their lower case. *)
Definition lowerLatin1 (u : N) : N :=
  if (((65 <=? u) && (u <=? 90))
      || ((192 <=? u) && (u <=? 222) && negb (u =? 215)))%N
  then (u + 32)%N else u.

Definition latin1 (s : CodeUnits) : bool := List.forallb (fun u => (u <? 256)%N) s.

Definition units (s : string) : CodeUnits :=
  List.map (fun c => N.of_nat (nat_of_ascii c)) (list_ascii_of_string s).

(** An engine's lower-casing as far as it matters below: U+0130 becomes
    the two code units U+0069 U+0307. *)
Definition lowerWithDot (s : CodeUnits) : CodeUnits :=
  flat_map (fun u => if (u =? 304)%N then [105; 775]%N else [lowerLatin1 u]) s.

Lemma lowerWithDot_latin1 s : latin1 s = true -> lowerWithDot s = List.map lowerLatin1 s.
Proof.
  induction s as [ | u s IH ]; [ reflexivity | ].
  cbn [latin1 List.forallb]. intros H. apply andb_prop in H as [Hu Hs].
  cbn [lowerWithDot flat_map List.map]. fold (lowerWithDot s). rewrite (IH Hs).
  apply N.ltb_lt in Hu.
  replace (u =? 304)%N with false by (symmetry; apply N.eqb_neq; lia).
  reflexivity.
Qed.

(** Beyond code units below 256 more than capitalization can change: with
    GOPATH the two code units U+0069 U+0307 and a file name that begins with
    U+0130, the separator after it is lost. *)
Example canonicalizeForWindows_beyond_latin1 :
  canonicalizeForWindows lowerWithDot (Some [105; 775]%N) ([304] ++ units "/x")%N
  = ([105; 775] ++ units "x")%N.
Proof. reflexivity. Qed.

Lemma latin1_app a b : latin1 (a ++ b) = latin1 a && latin1 b.
Proof. apply forallb_app. Qed.

Lemma latin1_skipn n s : latin1 s = true -> latin1 (skipn n s) = true.
Proof.
  revert s. induction n as [ | n IH ]; intros [ | u s ]; cbn; try (intros H; exact H).
  intros H. apply andb_prop in H as [_ H]. now apply IH.
Qed.

Lemma unitsEqb_eq a b : unitsEqb a b = true <-> a = b.
Proof.
  unfold unitsEqb. destruct (list_eq_dec N.eq_dec a b); split; congruence.
Qed.

(** X21.  For a GOPATH and a file name of code units below 256, where
    lower-casing maps code unit to code unit, [canonicalizeForWindows]
    changes nothing but capitalization: the result has the length of the
    file name and the same lower-case form; it begins with GOPATH, spelled
    as in the environment, whenever the file name begins with GOPATH up to
    case; without a GOPATH the name is returned as it is; and canonicalizing
    twice is canonicalizing once. *)
Theorem canonicalizeForWindows_capitalization :
  forall toLowerCase : CodeUnits -> CodeUnits,
    (forall s, latin1 s = true -> toLowerCase s = List.map lowerLatin1 s) ->
    forall gopath filename,
      (forall g, gopath = Some g -> latin1 g = true) ->
      latin1 filename = true ->
      let canonical := canonicalizeForWindows toLowerCase gopath filename in
      List.map lowerLatin1 canonical = List.map lowerLatin1 filename
      /\ toLowerCase canonical = toLowerCase filename
      /\ List.length canonical = List.length filename
      /\ canonicalizeForWindows toLowerCase gopath canonical = canonical
      /\ (gopath = None \/ gopath = Some [] -> canonical = filename)
      /\ (forall g,
            gopath = Some g ->
            firstn (List.length g) (List.map lowerLatin1 filename)
            = List.map lowerLatin1 g ->
            firstn (List.length g) canonical = g).
Proof.
  intros toLowerCase Hlower gopath filename Hg Hf canonical. subst canonical.
  destruct gopath as [ [ | c g ] | ]; cbn [canonicalizeForWindows].
  - repeat split; try reflexivity. intros g0 H _. now inversion H.
  - set (gp := c :: g).
    assert (Hgp : latin1 gp = true) by (now apply Hg).
    rewrite (Hlower _ Hf), (Hlower _ Hgp).
    destruct (unitsEqb (firstn (List.length gp) (List.map lowerLatin1 filename))
                (List.map lowerLatin1 gp)) eqn:E; cbn [negb].
    + apply unitsEqb_eq in E.
      assert (Hlatin : latin1 (gp ++ skipn (List.length gp) filename) = true)
        by (now rewrite latin1_app, Hgp, latin1_skipn).
      assert (Hlow : List.map lowerLatin1 (gp ++ skipn (List.length gp) filename)
                     = List.map lowerLatin1 filename).
      { rewrite map_app, <- E, <- skipn_map. apply firstn_skipn. }
      assert (Hlen : List.length gp <= List.length filename).
      { pose proof (f_equal (@List.length N) E) as L.
        rewrite length_firstn, !length_map in L. lia. }
      assert (Hfirst : firstn (List.length gp) (gp ++ skipn (List.length gp) filename) = gp).
      { rewrite firstn_app, Nat.sub_diag, firstn_all. cbn [firstn]. apply app_nil_r. }
      split; [ exact Hlow | ].
      split; [ now rewrite (Hlower _ Hlatin), Hlow | ].
      split; [ rewrite length_app, length_skipn; lia | ].
      split.
      { rewrite (Hlower _ Hlatin), Hlow, E.
        replace (unitsEqb (List.map lowerLatin1 gp) (List.map lowerLatin1 gp)) with true
          by (symmetry; now apply unitsEqb_eq).
        cbn [negb]. f_equal.
        rewrite skipn_app, Nat.sub_diag, skipn_all. reflexivity. }
      split; [ intros [ H | H ]; discriminate H | ].
      intros g0 H _. inversion H; subst g0. exact Hfirst.
    + split; [ reflexivity | ]. split; [ exact (Hlower _ Hf) | ].
      split; [ reflexivity | ].
      split; [ now rewrite (Hlower _ Hf), E | ].
      split; [ intros [ H | H ]; discriminate H | ].
      intros g0 H Hs. inversion H; subst g0. fold gp in Hs.
      apply unitsEqb_eq in Hs. rewrite Hs in E. discriminate E.
  - repeat split; try reflexivity. intros g0 H. discriminate H.
Qed.

Lemma canonicalizeForWindows_capitalization_witness :
  firstn 5 (canonicalizeForWindows lowerWithDot (Some (units "c:/go"))
              (units "C:/Go/src/a.go"))
  = units "c:/go"
  /\ List.length (canonicalizeForWindows lowerWithDot (Some (units "c:/go"))
                    (units "C:/Go/src/a.go"))
     = 14.
Proof.
  assert (Hg : forall g, Some (units "c:/go") = Some g -> latin1 g = true)
    by (intros g H; inversion H; reflexivity).
  destruct (canonicalizeForWindows_capitalization lowerWithDot lowerWithDot_latin1
              (Some (units "c:/go")) (units "C:/Go/src/a.go") Hg eq_refl)
    as (_ & _ & Hlen & _ & _ & Hstarts).
  split; [ exact (Hstarts (units "c:/go") eq_refl eq_refl) | exact Hlen ].
Defined.

End Renaming.

(** ** Generating tests *)

Section GeneratingTests.
Import JsString GoGenerateTests.

Lemma drop_append_le n a b :
  n <= String.length a -> drop n (a ++ b) = (drop n a ++ b)%string.
Proof.
  revert a. induction n as [|n IH]; intros [|c a] H; cbn in *; try reflexivity;
    try lia.
  apply IH. lia.
Qed.

Lemma append_cancel_r a b c : (a ++ c = b ++ c)%string -> a = b.
Proof.
  revert b. induction a as [|x a IH]; intros [|y b] H; cbn in H.
  - reflexivity.
  - exfalso. pose proof (f_equal String.length H) as L. cbn in L.
    rewrite length_append in L. lia.
  - exfalso. pose proof (f_equal String.length H) as L. cbn in L.
    rewrite length_append in L. lia.
  - inversion H; subst. f_equal. now apply IH.
Qed.

Lemma endsWith_append_same a b c : endsWith (a ++ c) (b ++ c) = endsWith a b.
Proof.
  unfold endsWith. rewrite !length_append.
  destruct (String.length b <=? String.length a) eqn:Hle.
  - apply Nat.leb_le in Hle.
    replace (String.length b + String.length c <=? String.length a + String.length c)
      with true by (symmetry; apply Nat.leb_le; lia).
    cbn [andb].
    replace (String.length a + String.length c - (String.length b + String.length c))
      with (String.length a - String.length b) by lia.
    rewrite drop_append_le by lia.
    destruct (String.eqb (drop (String.length a - String.length b) a) b) eqn:E.
    + apply String.eqb_eq in E. rewrite E. apply String.eqb_refl.
    + apply String.eqb_neq. intros H. apply append_cancel_r in H.
      apply String.eqb_neq in E. contradiction.
  - apply Nat.leb_gt in Hle.
    replace (String.length b + String.length c <=? String.length a + String.length c)
      with false by (symmetry; apply Nat.leb_gt; lia).
    reflexivity.
Qed.

Lemma targetFilePath_source base :
  endsWith (base ++ ".go") "_test.go" = false ->
  targetFilePath (base ++ ".go") = (base ++ "_test.go")%string.
Proof.
  intros H. unfold targetFilePath. rewrite H.
  rewrite lastIndexOf_append by discriminate. cbn [substrTo].
  now rewrite take_append.
Qed.

Lemma targetFilePath_test base :
  targetFilePath (base ++ "_test.go") = (base ++ ".go")%string.
Proof.
  unfold targetFilePath. rewrite endsWith_append.
  rewrite lastIndexOf_append by discriminate. cbn [substrTo].
  now rewrite take_append.
Qed.

(** X22.  Toggling between a Go file and its test file.  The target of a
    file that ends in [.go] ends in [.go] again; from a file that is not a
    test file, toggling twice leads back to the file; from a test file
    [base_test.go] it leads back exactly when [base] does not itself end in
    [_test].  For such a file [toggleTestFile] always opens the target: with
    no view column when no visible editor shows the target, and else in the
    view column of the first visible editor that shows it. *)
Theorem targetFilePath_round_trip :
  forall currentFilePath,
    endsWith currentFilePath ".go" = true ->
    endsWith (targetFilePath currentFilePath) ".go" = true
    /\ (endsWith currentFilePath "_test.go" = false ->
        targetFilePath (targetFilePath currentFilePath) = currentFilePath)
    /\ (forall base,
          currentFilePath = (base ++ "_test.go")%string ->
          (targetFilePath (targetFilePath currentFilePath) = currentFilePath
           <-> endsWith base "_test" = false))
    /\ (forall visibleTextEditors,
          (forall doc, In doc visibleTextEditors ->
                       fst doc <> targetFilePath currentFilePath) ->
          toggleTestFile (Some currentFilePath) visibleTextEditors
          = OpenFile (targetFilePath currentFilePath) None)
    /\ (forall before doc after,
          (forall other, In other before ->
                         fst other <> targetFilePath currentFilePath) ->
          fst doc = targetFilePath currentFilePath ->
          toggleTestFile (Some currentFilePath) (before ++ doc :: after)
          = OpenFile (targetFilePath currentFilePath) (Some (snd doc))).
Proof.
  intros f Hgo. pose proof (endsWith_split _ _ Hgo) as Hf.
  set (base := take (String.length f - String.length ".go") f) in Hf.
  assert (Hnone : forall visibleTextEditors,
             (forall doc, In doc visibleTextEditors -> fst doc <> targetFilePath f) ->
             toggleTestFile (Some f) visibleTextEditors
             = OpenFile (targetFilePath f) None).
  { intros visible Hno. unfold toggleTestFile. rewrite Hgo. cbn [negb].
    destruct (find _ visible) as [ doc | ] eqn:E; [ | reflexivity ].
    apply find_some in E as [Hin Heq]. apply String.eqb_eq in Heq.
    now destruct (Hno doc Hin). }
  assert (Hsome : forall before doc after,
             (forall other, In other before -> fst other <> targetFilePath f) ->
             fst doc = targetFilePath f ->
             toggleTestFile (Some f) (before ++ doc :: after)
             = OpenFile (targetFilePath f) (Some (snd doc))).
  { intros before doc after Hno Hdoc. unfold toggleTestFile. rewrite Hgo. cbn [negb].
    replace (find (fun d => String.eqb (fst d) (targetFilePath f)) (before ++ doc :: after))
      with (Some doc); [ reflexivity | ].
    symmetry. induction before as [ | other before IH ]; cbn [app find].
    - now rewrite Hdoc, String.eqb_refl.
    - replace (String.eqb (fst other) (targetFilePath f)) with false.
      + apply IH. intros d Hd. apply Hno. now right.
      + symmetry. apply String.eqb_neq. apply Hno. now left. }
  split; [|split; [|split; [|split; [exact Hnone|exact Hsome]]]].
  - unfold targetFilePath. destruct (endsWith f "_test.go").
    + apply endsWith_append.
    + change "_test.go" with ("_test" ++ ".go")%string.
      rewrite <- append_assoc. apply endsWith_append.
  - intros Htest. rewrite Hf in Htest |- *.
    rewrite (targetFilePath_source base Htest). apply targetFilePath_test.
  - intros b ->. rewrite targetFilePath_test.
    change "_test.go" with ("_test" ++ ".go")%string at 1.
    pose proof (endsWith_append_same b "_test" ".go") as Hsame.
    destruct (endsWith b "_test") eqn:Hb.
    + split; [|discriminate]. intros Hback. exfalso.
      pose proof (endsWith_split _ _ Hb) as Hsplit.
      set (b0 := take (String.length b - String.length "_test") b) in Hsplit.
      rewrite Hsplit, append_assoc in Hback.
      change ("_test" ++ ".go")%string with "_test.go" in Hback.
      rewrite targetFilePath_test in Hback.
      pose proof (f_equal String.length Hback) as L.
      rewrite !length_append in L. cbn in L. lia.
    + split; [reflexivity|]. intros _.
      rewrite targetFilePath_source by exact Hsame.
      reflexivity.
Qed.

Lemma targetFilePath_round_trip_witness :
  targetFilePath (targetFilePath "/src/pkg/a.go") = "/src/pkg/a.go"
  /\ toggleTestFile (Some "/src/pkg/a.go")
       ([("/src/pkg/b.go", 1)] ++ ("/src/pkg/a_test.go", 2) :: [("/src/pkg/a_test.go", 3)])
     = OpenFile "/src/pkg/a_test.go" (Some 2)
  /\ toggleTestFile (Some "/src/pkg/a.go") [("/src/pkg/b.go", 1)]
     = OpenFile "/src/pkg/a_test.go" None.
Proof.
  destruct (targetFilePath_round_trip "/src/pkg/a.go" eq_refl)
    as (_ & Hback & _ & Hnone & Hsome).
  split; [ exact (Hback eq_refl) | ]. split.
  - apply (Hsome [("/src/pkg/b.go", 1)] ("/src/pkg/a_test.go", 2)
             [("/src/pkg/a_test.go", 3)]); [ | reflexivity ].
    intros other [ <- | [] ]. discriminate.
  - apply (Hnone [("/src/pkg/b.go", 1)]).
    intros doc [ <- | [] ]. discriminate.
Defined.

Definition isDropped (flag : string) : bool :=
  String.eqb flag "-w" || String.eqb flag "all" || String.eqb flag "-only".

Lemma userFlags_facts n :
  forall flags,
    List.length flags <= n ->
    (forall flag, In flag (userFlags flags) -> In flag flags /\ isDropped flag = false)
    /\ (List.forallb (fun flag => negb (isDropped flag)) flags = true ->
        userFlags flags = flags).
Proof.
  induction n as [|n IH]; intros [|flag rest] Hlen; cbn [List.length] in Hlen;
    try lia; cbn [userFlags].
  - split; [intros f [] | reflexivity].
  - split; [intros f [] | reflexivity].
  - unfold isDropped. cbn [List.forallb].
    destruct (String.eqb flag "-w") eqn:Hw; cbn [orb negb andb].
    { split; [|discriminate]. intros f Hf.
      destruct (IH rest ltac:(lia)) as [H _]. destruct (H f Hf). split; [now right|assumption]. }
    destruct (String.eqb flag "all") eqn:Ha; cbn [orb negb andb].
    { split; [|discriminate]. intros f Hf.
      destruct (IH rest ltac:(lia)) as [H _]. destruct (H f Hf). split; [now right|assumption]. }
    destruct (String.eqb flag "-only") eqn:Ho; cbn [orb negb andb].
    { split; [|discriminate]. destruct rest as [|skipped rest']; [intros f []|].
      intros f Hf. cbn [List.length] in Hlen.
      destruct (IH rest' ltac:(lia)) as [H _]. destruct (H f Hf).
      split; [now right; right|assumption]. }
    destruct (IH rest ltac:(lia)) as [H1 H2]. split.
    + intros f [<-|Hf].
      * split; [now left|]. unfold isDropped. now rewrite Hw, Ha, Ho.
      * destruct (H1 f Hf). split; [now right|assumption].
    + intros Hall. now rewrite (H2 Hall).
Qed.

(** X23.  The flags [generateTests] takes over from the settings never
    include [-w], [all] or [-only], and nothing is passed that the settings
    do not name; settings without these three are passed on unchanged.
    The arguments begin with the extension's own [-w] and end with the
    directory, preceded by [-all] when no function (or an empty name) is
    given, and by [-only] and the anchored function name when one is. *)
Theorem testArgs_user_flags :
  forall conf generateTestsFlags,
    let flags := match generateTestsFlags with Some l => l | None => [] end in
    (forall flag,
        In flag (userFlags flags) ->
        In flag flags /\ flag <> "-w" /\ flag <> "all" /\ flag <> "-only")
    /\ (List.forallb (fun flag => negb (isDropped flag)) flags = true ->
        userFlags flags = flags)
    /\ (func conf = None \/ func conf = Some EmptyString ->
        testArgs conf generateTestsFlags
        = "-w" :: userFlags flags ++ ["-all"; dir conf])
    /\ (forall f,
          func conf = Some f -> f <> EmptyString ->
          testArgs conf generateTestsFlags
          = "-w" :: userFlags flags ++ ["-only"; ("^" ++ f ++ "$")%string; dir conf]).
Proof.
  intros conf generateTestsFlags flags.
  destruct (userFlags_facts (List.length flags) flags (le_n _)) as [H1 H2].
  split; [|split; [exact H2|split]].
  - intros flag Hin. destruct (H1 flag Hin) as [Hf Hd]. split; [exact Hf|].
    unfold isDropped in Hd.
    apply orb_false_iff in Hd as [Hd Ho]. apply orb_false_iff in Hd as [Hw Ha].
    repeat split; now apply String.eqb_neq.
  - unfold testArgs. fold flags. intros [ -> | -> ]; reflexivity.
  - unfold testArgs. fold flags. intros f -> Hne.
    destruct f as [ | c f ]; [ contradiction | reflexivity ].
Qed.

(** The output of [gotests] for the generated test functions [names]. *)
Fixpoint gotestsOutput (names : list string) : string :=
  match names with
  | [] => EmptyString
  | n :: names' => (generatedWord ++ n ++ String LF (gotestsOutput names'))%string
  end.

Lemma generated_lines names :
  Forall (fun n => JsString.forallb (isNot LF) n = true) names ->
  map (drop (String.length generatedWord))
    (filter (fun element => startsWith element generatedWord)
       (split LF (gotestsOutput names)))
  = names.
Proof.
  induction 1 as [|n names Hn Hall IH]; [reflexivity|].
  cbn [gotestsOutput]. rewrite <- append_assoc.
  rewrite split_app_sep.
  - cbn [filter]. rewrite startsWith_append. cbn [map].
    now rewrite drop_append, IH.
  - rewrite forallb_append, Hn. reflexivity.
Qed.

(** X24.  The message for generated tests: when [gotests] prints one line
    [Generated <name>] for each of one or more test functions (names
    without line feed), the message shown is [Generated ] followed by the
    names separated by a comma and a space, and the tests count as
    generated; output that does not begin with [Generated ] is shown as it
    is and does not count.  [generateTests] then shows that message,
    resolves with [true], and toggles to the test file exactly when the file
    is not itself a test file. *)
Theorem generatedMessage_names :
  forall names,
    names <> [] ->
    Forall (fun n => JsString.forallb (isNot LF) n = true) names ->
    generatedMessage (gotestsOutput names)
    = (("Generated " ++ joinStr ", " names)%string, true)
    /\ (forall stdout,
          startsWith stdout generatedWord = false ->
          generatedMessage stdout = (stdout, false))
    /\ (forall cmd conf generateTestsFlags,
          let generated :=
            generateTests cmd conf generateTestsFlags
              (ExecSuccess (gotestsOutput names)) in
          snd generated = Resolved true
          /\ In (ShowInformationMessage ("Generated " ++ joinStr ", " names))
               (fst generated)
          /\ (In ToggleTestFile (fst generated) <-> isTestFile conf = false)).
Proof.
  intros names Hne Hall.
  assert (Hmsg : generatedMessage (gotestsOutput names)
                 = (("Generated " ++ joinStr ", " names)%string, true)).
  { unfold generatedMessage. rewrite (generated_lines names Hall).
    destruct names as [|n names]; [contradiction|].
    cbn [gotestsOutput]. now rewrite startsWith_append. }
  split; [exact Hmsg|]. split.
  - intros stdout H. unfold generatedMessage. now rewrite H.
  - intros cmd conf flags generated. subst generated.
    unfold generateTests. rewrite Hmsg. cbn [fst snd andb].
    split; [reflexivity|]. split.
    + apply in_or_app. right. now left.
    + split.
      * intros H. apply in_app_or in H as [H|H].
        { cbn in H. destruct H as [H|[H|[]]]; discriminate H. }
        apply in_app_or in H as [H|H].
        { cbn in H. destruct H as [H|[H|[]]]; discriminate H. }
        destruct (isTestFile conf); [destruct H | reflexivity].
      * intros ->. apply in_or_app. right. apply in_or_app. right. now left.
Qed.

Lemma generatedMessage_names_witness :
  generatedMessage
    ("Generated TestMain" ++ String LF ("Generated Testhello" ++ String LF ""))
  = ("Generated TestMain, Testhello", true).
Proof.
  apply (generatedMessage_names ["TestMain"; "Testhello"]).
  - discriminate.
  - repeat constructor.
Defined.

End GeneratingTests.

(** ** Package names *)

Section PackageNames.
Import JsString GoSuggest.

Definition isSegmentChar (c : ascii) : bool := negb (isSegmentSeparator c).

(** A segment of [s]: free of separators and a part of [s]. *)
Definition segmentOf (isSep : ascii -> bool) (s piece : string) : Prop :=
  JsString.forallb (fun c => negb (isSep c)) piece = true
  /\ exists a b, s = (a ++ piece ++ b)%string.

Lemma segmentOf_shift isSep c s piece :
  segmentOf isSep s piece -> segmentOf isSep (String c s) piece.
Proof.
  intros (Hp & a & b & Hs). split; [exact Hp|].
  exists (String c a), b. cbn. now rewrite <- Hs.
Qed.

Lemma splitBy_shape isSep s :
  exists h t b,
    splitBy isSep s = h :: t
    /\ s = (h ++ b)%string
    /\ JsString.forallb (fun c => negb (isSep c)) h = true
    /\ Forall (segmentOf isSep s) t.
Proof.
  induction s as [|c s (h & t & b & Hs & Hpre & Hh & Ht)]; cbn [splitBy].
  - exists "", [], "". repeat split. constructor.
  - assert (Hshift : Forall (segmentOf isSep (String c s)) t).
    { eapply Forall_impl; [|exact Ht]. intros piece. apply segmentOf_shift. }
    rewrite Hs. destruct (isSep c) eqn:E.
    + exists "", (h :: t), (String c s). repeat split.
      constructor; [|exact Hshift]. split; [exact Hh|].
      exists (String c ""), b. cbn. now rewrite <- Hpre.
    + exists (String c h), t, b. repeat split.
      * cbn. now rewrite <- Hpre.
      * cbn. now rewrite E, Hh.
      * exact Hshift.
Qed.

Lemma splitBy_segments isSep s : Forall (segmentOf isSep s) (splitBy isSep s).
Proof.
  destruct (splitBy_shape isSep s) as (h & t & b & Hs & Hpre & Hh & Ht).
  rewrite Hs. constructor; [|exact Ht]. split; [exact Hh|].
  exists "", b. exact Hpre.
Qed.

Lemma splitBy_no_separator isSep s :
  JsString.forallb (fun c => negb (isSep c)) s = true -> splitBy isSep s = [s].
Proof.
  induction s as [|c s IH]; cbn; [reflexivity|].
  intros H. apply andb_prop in H as [Hc Hs]. apply negb_true_iff in Hc.
  now rewrite Hc, (IH Hs).
Qed.

Lemma lastOf_In l x : lastOf l = Some x -> In x l.
Proof.
  unfold lastOf. destruct (rev l) as [|y r] eqn:E; [discriminate|].
  intros H. inversion H; subst y. apply in_rev. rewrite E. now left.
Qed.

Lemma lastOf_None l : lastOf l = None -> l = [].
Proof.
  unfold lastOf. destruct (rev l) as [|y r] eqn:E; [|discriminate].
  intros _. rewrite <- (rev_involutive l), E. reflexivity.
Qed.

Lemma guessPackageName_plain dirName :
  JsString.forallb isSegmentChar dirName = true -> dirName <> "go" ->
  guessPackageName dirName = Some dirName.
Proof.
  intros Hc Hne. unfold guessPackageName.
  rewrite (splitBy_no_separator _ _ Hc). cbn [filter].
  apply String.eqb_neq in Hne. now rewrite Hne.
Qed.

(** X25.  The package name guessed from a directory name is one of its
    segments between [.] and [-]: it is a part of the directory name, holds
    neither [.] nor [-] and is never [go].  There is no guess exactly when
    every segment is [go].  A directory name without [.] and [-] other than
    [go] is its own guess. *)
Theorem guessPackageName_segment :
  forall dirName,
    (forall name,
        guessPackageName dirName = Some name ->
        name <> "go"
        /\ JsString.forallb isSegmentChar name = true
        /\ exists before after, dirName = (before ++ name ++ after)%string)
    /\ (guessPackageName dirName = None
        <-> forall segment,
              In segment (splitBy isSegmentSeparator dirName) -> segment = "go")
    /\ (JsString.forallb isSegmentChar dirName = true -> dirName <> "go" ->
        guessPackageName dirName = Some dirName).
Proof.
  intros dirName. unfold guessPackageName. split; [|split].
  - intros name H. apply lastOf_In in H. apply filter_In in H as [Hin Hgo].
    apply negb_true_iff, String.eqb_neq in Hgo.
    pose proof (splitBy_segments isSegmentSeparator dirName) as Hall.
    rewrite Forall_forall in Hall. destruct (Hall name Hin) as [Hc Hsub].
    split; [exact Hgo|]. split; [exact Hc | exact Hsub].
  - split.
    + intros H segment Hin. apply lastOf_None in H.
      destruct (String.eqb segment "go") eqn:E; [now apply String.eqb_eq|].
      assert (Hf : In segment
                     (filter (fun val => negb (String.eqb val "go"))
                        (splitBy isSegmentSeparator dirName))).
      { apply filter_In. split; [exact Hin | now rewrite E]. }
      rewrite H in Hf. contradiction.
    + intros H.
      destruct (lastOf (filter (fun val => negb (String.eqb val "go"))
                          (splitBy isSegmentSeparator dirName))) as [name|] eqn:E;
        [|reflexivity].
      apply lastOf_In in E. apply filter_In in E as [Hin Hgo].
      rewrite (H name Hin) in Hgo. discriminate Hgo.
  - apply guessPackageName_plain.
Qed.

Variable basename : string -> string.
Variable dirname : string -> string.

(** X26.  The suggested package name is the default package name whenever
    the name of the directory holds neither [.] nor [-] and is not [go], and
    the directory listing (when it is read) does not hold [main.go]; for a
    file named [main.go] both are [main] whatever the directory is. *)
Theorem packageNameSuggestion_default :
  forall filename files,
    (basename filename = "main.go" ->
     packageNameSuggestion basename dirname filename files = Resolved (Some "main")
     /\ defaultPackageName basename dirname filename = "main")
    /\ (forall listing,
          files = Resolved listing ->
          existsb (fun file => String.eqb file "main.go") listing = false ->
          JsString.forallb isSegmentChar (basename (dirname filename)) = true ->
          basename (dirname filename) <> "go" ->
          packageNameSuggestion basename dirname filename files
          = Resolved (Some (defaultPackageName basename dirname filename))).
Proof.
  intros filename files. unfold packageNameSuggestion, defaultPackageName. split.
  - intros ->. split; reflexivity.
  - intros listing -> Hmain Hc Hne.
    rewrite (guessPackageName_plain _ Hc Hne), Hmain. cbn [textOf].
    destruct (String.eqb (basename filename) "main.go"); [reflexivity|].
    destruct (endsWith (basename filename) "internal_test.go"); [reflexivity|].
    destruct (endsWith (basename filename) "_test.go"); reflexivity.
Qed.

End PackageNames.

(** ** Installing all tools *)

Section InstallingAllTools.
Import JsString GoTools InstallTools.

Definition COLON : ascii := ascii_of_nat 58.

Lemma indexOfStr_from_label i n rest :
  JsString.forallb (isNot COLON) n = true ->
  indexOfStr_from i (n ++ ": " ++ rest) ": " = Some (i + String.length n).
Proof.
  revert i. induction n as [|c n IH]; intros i H.
  - destruct rest; cbn; f_equal; lia.
  - cbn [JsString.forallb] in H. apply andb_prop in H as [Hc Hn].
    unfold isNot in Hc. apply negb_true_iff in Hc.
    cbn [append indexOfStr_from startsWith]. change (ascii_of_nat 58) with COLON in *.
    change ":"%char with COLON. rewrite Hc. cbn [andb].
    change (indexOfStr_from (S i) (n ++ ": " ++ rest) ": "
            = Some (i + String.length (String c n))).
    rewrite (IH (S i) Hn). f_equal. cbn. lia.
Qed.

Lemma toolOfLabel_label getTool tool :
  JsString.forallb (isNot COLON) (name tool) = true ->
  toolOfLabel getTool (quickPickLabel tool) = getTool (name tool).
Proof.
  intros H. unfold toolOfLabel, quickPickLabel, indexOfStr.
  rewrite (indexOfStr_from_label 0 _ _ H). cbn [Nat.add].
  now rewrite take_append.
Qed.

(** X27.  The quick pick of [installAllTools] gives back the tools that were
    picked: when the user selects the labels of some tools whose names hold
    no colon and are known to [getTool], [installTools] is called once, with
    exactly those tools in the order selected; an empty selection still
    calls it, with no tool, and a dismissed quick pick calls nothing. *)
Theorem installAllTools_selection :
  forall host getTool allTools chosen,
    Forall (fun tool =>
              JsString.forallb (isNot COLON) (name tool) = true
              /\ getTool (name tool) = tool) chosen ->
    snd (installAllTools host getTool allTools false (Some (map quickPickLabel chosen)))
    = [InstallToolsCall chosen]
    /\ snd (installAllTools host getTool allTools false None) = [].
Proof.
  intros host getTool allTools chosen Hall. split; [|reflexivity].
  cbn [installAllTools snd]. do 2 f_equal. rewrite map_map.
  induction Hall as [|tool chosen [Hname Hget] Hall IH]; [reflexivity|].
  cbn [map]. now rewrite (toolOfLabel_label getTool tool Hname), Hget, IH.
Qed.

Lemma installAllTools_selection_witness :
  snd (installAllTools installHost sampleGetTool [gopls; goreturns] false
         (Some ["goreturns: Formatter"; "gopls: Language Server from Google"]))
  = [InstallToolsCall [goreturns; gopls]].
Proof.
  apply (installAllTools_selection installHost sampleGetTool [gopls; goreturns]
           [goreturns; gopls]).
  repeat constructor.
Defined.

Definition isRequest (e : OfferEffect) : bool :=
  match e with
  | GetGoVersion => true
  | _ => false
  end.

(** X28.  The offer to install tools is made at most once: the flag is set
    before anything is awaited, so however often [offerToInstallTools] is
    called, the Go version is requested (and with it the missing tools
    looked up) exactly once when the flag was clear and at least one call
    is made, and never when it was set; the flag is set ever after.  The
    status it then shows lists important missing tools only, and is not
    shown without one. *)
Theorem offerToInstallTools_once :
  forall n alreadyOfferedToInstallTools,
    List.length (filter isRequest (snd (offerCalls n alreadyOfferedToInstallTools)))
    = (if alreadyOfferedToInstallTools then 0 else Nat.min n 1)
    /\ fst (offerCalls n alreadyOfferedToInstallTools)
       = (alreadyOfferedToInstallTools || (0 <? n))
    /\ (forall major minor serverTool missing shown,
          In (ShowGoStatus shown) (offerResolved major minor serverTool missing) ->
          shown <> []
          /\ forall tool, In tool shown -> In tool missing /\ isImportant tool = true).
Proof.
  intros n already.
  assert (Hstatus : forall major minor serverTool missing shown,
             In (ShowGoStatus shown) (offerResolved major minor serverTool missing) ->
             shown <> []
             /\ forall tool, In tool shown -> In tool missing /\ isImportant tool = true).
  { intros major minor serverTool missing shown H. unfold offerResolved in H.
    apply in_app_or in H as [H|H].
    - destruct (String.eqb serverTool "go-langserver" && _); [|destruct H].
      destruct H as [H|[]]. discriminate H.
    - destruct (filter isImportant missing) as [|t l] eqn:E; [destruct H|].
      cbn in H. destruct H as [H|[]]. inversion H; subst shown. split; [discriminate|].
      intros tool Hin. rewrite <- E in Hin. now apply filter_In in Hin. }
  enough (Hcalls :
            List.length (filter isRequest (snd (offerCalls n already)))
            = (if already then 0 else Nat.min n 1)
            /\ fst (offerCalls n already) = (already || (0 <? n))).
  { destruct Hcalls as [Hc Hf]. split; [exact Hc|]. split; [exact Hf | exact Hstatus]. }
  clear Hstatus. revert already.
  induction n as [|n IH]; intros already.
  - cbn. destruct already; split; reflexivity.
  - cbn [offerCalls]. unfold offerToInstallTools.
    destruct already.
    + destruct (IH true) as [Hc Hf].
      destruct (offerCalls n true) as [flag effects]. cbn [fst snd app] in *.
      split; [exact Hc | exact Hf].
    + destruct (IH true) as [Hc Hf].
      destruct (offerCalls n true) as [flag effects]. cbn [fst snd app] in *.
      cbn [filter isRequest List.length]. rewrite Hc. split; [|exact Hf].
      destruct n; reflexivity.
Qed.

End InstallingAllTools.
